(** * The MOSAiC flux ingestion pipeline: [get_flux_data] and the quicklook merge

    A shallow embedding of [get_data_functions.py] (the parallel
    ingest / merge / pickle-cache routine [get_flux_data] and its worker
    [get_datafile]) and of the data path of
    [plot_scripts/plot_asfs_lev1_quicklooks.py]: the worker [get_asfs_data],
    and of [main] the processing period, the day loop with its per-day
    multi-station merge, the concatenation of the days and the derived
    variables; also the colour helper [hex_to_rgb].  The plotting itself
    (matplotlib, floating-point colour arithmetic) is outside the embedding.

    Conventions of the embedding.
    - Python values that may be [None] are options; a version tag is an
      [option string].
    - A Python call either returns, raises, or blocks on a queue that is never
      filled ([outcome]).  Stateful code runs in the monad [M] over a [world]:
      the file system and a log of the observable steps (directory walk,
      pickle read and write, worker start, batch drain).  [print] calls are
      not modelled.
    - pandas, xarray and the calendar are libraries outside the repository;
      what the code uses of them is modelled in [Pandas], [FS] and by the
      parameter [strftime]. *)

From Stdlib Require Import Ascii.
From stdpp Require Import gmap strings list sorting pretty.

Set Warnings "-register-all".

Open Scope Z_scope.

(** ** Python string operations used by the code *)

Module PyStr.

(** [needle in hay] *)
Fixpoint contains (needle hay : string) : bool :=
  String.prefix needle hay ||
  match hay with
  | EmptyString => false
  | String _ hay' => contains needle hay'
  end.

(** [s[0:n]] *)
Fixpoint slice0 (n : nat) (s : string) : string :=
  match n, s with
  | S n', String c s' => String c (slice0 n' s')
  | _, _ => EmptyString
  end.

(** Split at the last occurrence of the character [sep]: [Some (head, tail)],
    or [None] when [sep] does not occur. *)
Fixpoint rsplit (sep : Ascii.ascii) (s : string) : option (string * string) :=
  match s with
  | EmptyString => None
  | String c s' =>
      match rsplit sep s' with
      | Some (h, t) => Some (String c h, t)
      | None => if Ascii.eqb c sep then Some (EmptyString, s') else None
      end
  end.

(** [s.rpartition(sep)] for a one-character separator: the 3-tuple
    [(head, sep, tail)], and [('', '', s)] when [sep] does not occur. *)
Definition rpartition (sep : Ascii.ascii) (s : string) : string * string * string :=
  match rsplit sep s with
  | Some (h, t) => (h, String sep EmptyString, t)
  | None => (EmptyString, EmptyString, s)
  end.

(** [s.endswith(c)] for one character *)
Fixpoint ends_with (c : Ascii.ascii) (s : string) : bool :=
  match s with
  | EmptyString => false
  | String a EmptyString => Ascii.eqb a c
  | String _ s' => ends_with c s'
  end.

End PyStr.

(** ** Outcomes *)

Inductive exn :=
| IOError | OSError | FileNotFoundError | IsADirectoryError | UnpicklingError
| ValueError | KeyError | UnboundLocalError | ZeroDivisionError
| TypeError | IndexError | InvalidIndexError.

(** How a call ends: it returns, it raises, or it waits forever on a queue
    nobody will fill. *)
Inductive outcome (A : Type) :=
| Returns (a : A)
| Raises (e : exn)
| Blocks.

Arguments Returns {A} a.
Arguments Raises {A} e.
Arguments Blocks {A}.

(** Code without effects on the world runs in [outcome] itself. *)
Global Instance outcome_ret : MRet outcome := fun A a => Returns a.

Global Instance outcome_bind : MBind outcome := fun A B k m =>
  match m with
  | Returns a => k a
  | Raises e => Raises e
  | Blocks => Blocks
  end.

(** ** Tables *)

Module Pandas.

(** A cell holds a measurement (an opaque payload), a timestamp, or is
    missing. *)
Inductive cell := NaN | Num (x : Z) | Stamp (t : Z).

(** A [pandas.DataFrame]: the row labels (timestamps) and the columns in
    order, each a name and one cell per row. *)
Record DataFrame := mkDF {
  index : list Z;
  columns : list (string * list cell)
}.

(** [pd.DataFrame()] *)
Definition empty_frame : DataFrame := mkDF [] [].

(** [df.empty]: true when either axis has length 0. *)
Definition is_empty (df : DataFrame) : bool :=
  match index df, columns df with
  | [], _ => true
  | _, [] => true
  | _, _ => false
  end.

Definition column_names (df : DataFrame) : list string := (columns df).*1.

(** First column of that name. *)
Fixpoint get_column (name : string) (cols : list (string * list cell)) : option (list cell) :=
  match cols with
  | [] => None
  | (n, c) :: cols' => if String.eqb n name then Some c else get_column name cols'
  end.

(** [df.add_suffix(s)]: every column label gets [s] appended. *)
Definition add_suffix (s : string) (df : DataFrame) : DataFrame :=
  mkDF (index df) (map (fun nc => (nc.1 +:+ s, nc.2)) (columns df)).

(** The cell of a column at the first row labelled [t]; [NaN] when there is
    no such row. *)
Fixpoint cell_at (idx : list Z) (col : list cell) (t : Z) : cell :=
  match idx, col with
  | i :: idx', c :: col' => if Z.eqb i t then c else cell_at idx' col' t
  | _, _ => NaN
  end.

Definition elem_ofb (t : Z) (l : list Z) : bool := existsb (Z.eqb t) l.

(** [Index.is_unique] *)
Fixpoint is_unique (l : list Z) : bool :=
  match l with
  | [] => true
  | t :: l' => negb (elem_ofb t l') && is_unique l'
  end.

(** [reindex]: the column relabelled to the row labels [new]; a frame whose
    labels are already [new] is left as it is. *)
Definition reindex (old new : list Z) (col : list cell) : list cell :=
  if bool_decide (old = new) then col else map (cell_at old col) new.

(** Row labels of an outer join of two time indexes: equal indexes are kept
    as they are, an index without rows adds nothing, and otherwise the union
    comes out in ascending order. *)
Definition union_index (a b : list Z) : list Z :=
  if bool_decide (a = b) then a
  else match a, b with
       | _, [] => a
       | [], _ => b
       | _, _ => merge_sort Z.le (a ++ List.filter (fun t => negb (elem_ofb t a)) b)
       end.

(** The outer join of two frames on their row labels: the columns of both
    side by side, each aligned on [union_index]; no column is dropped or
    renamed. *)
Definition join_columns (a b : DataFrame) : DataFrame :=
  let idx := union_index (index a) (index b) in
  mkDF idx
       (map (fun nc => (nc.1, reindex (index a) idx nc.2)) (columns a) ++
        map (fun nc => (nc.1, reindex (index b) idx nc.2)) (columns b)).

(** The cases in which the join needs no frame with repeated row labels to
    be relabelled: the indexes are equal, one frame has no rows, or the
    labels of both frames are unique. *)
Definition joinable (a b : list Z) : bool :=
  bool_decide (a = b) ||
  match a, b with
  | [], _ | _, [] => true
  | _, _ => is_unique a && is_unique b
  end.

Section Concat.

(** [pd.concat([a, b], axis=1)] on frames that are not [joinable]: pandas
    raises [InvalidIndexError] whenever a frame with repeated row labels has
    to be relabelled, and what the union of repeated labels is depends on
    its version; this case is a parameter of the embedding. *)
Variable concat_repeated_labels : DataFrame -> DataFrame -> outcome DataFrame.

(** [pd.concat([a, b], axis=1)] *)
Definition concat_columns (a b : DataFrame) : outcome DataFrame :=
  if joinable (index a) (index b) then Returns (join_columns a b)
  else concat_repeated_labels a b.

End Concat.

(** Column labels of a row-wise concatenation: the union in order of first
    appearance. *)
Fixpoint union_names (seen : list string) (names : list string) : list string :=
  match names with
  | [] => seen
  | n :: names' =>
      if existsb (String.eqb n) seen then union_names seen names'
      else union_names (seen ++ [n]) names'
  end.

(** The cells one frame contributes to column [name]: its column, or [NaN]
    for each of its rows when it has no such column. *)
Definition column_or_nan (name : string) (df : DataFrame) : list cell :=
  match get_column name (columns df) with
  | Some c => c
  | None => map (fun _ => NaN) (index df)
  end.

(** [pd.concat(dfs)] (axis 0) on a non-empty list: rows of all frames in
    order. *)
Definition concat_rows (dfs : list DataFrame) : DataFrame :=
  let names := union_names [] (concat (map column_names dfs)) in
  mkDF (concat (map index dfs))
       (map (fun n => (n, concat (map (column_or_nan n) dfs))) names).

(** [df[name] = values]: replace the first column of that name, or append. *)
Fixpoint set_column (name : string) (vals : list cell)
    (cols : list (string * list cell)) : list (string * list cell) :=
  match cols with
  | [] => [(name, vals)]
  | (n, c) :: cols' =>
      if String.eqb n name then (n, vals) :: cols'
      else (n, c) :: set_column name vals cols'
  end.

(** [df['time'] = df.index] *)
Definition with_time_column (df : DataFrame) : DataFrame :=
  mkDF (index df) (set_column "time" (map Stamp (index df)) (columns df)).

End Pandas.

Export Pandas.

(** ** The file system *)

Module FS.

(** What a file holds: a NetCDF dataset (its table and its global
    attributes), a pickled frame, or something else. *)
Inductive content :=
| NetCDF (rows : DataFrame) (attrs : gmap string string)
| Pickle (df : DataFrame)
| Garbage.

(** A directory lists its entries in the order the operating system reports
    them. *)
Inductive node :=
| File (c : content)
| Dir (entries : list (string * node)).

Fixpoint entry (name : string) (es : list (string * node)) : option node :=
  match es with
  | [] => None
  | (n, x) :: es' => if String.eqb n name then Some x else entry name es'
  end.

Fixpoint set_entry (name : string) (x : node) (es : list (string * node))
    : list (string * node) :=
  match es with
  | [] => [(name, x)]
  | (n, y) :: es' =>
      if String.eqb n name then (n, x) :: es' else (n, y) :: set_entry name x es'
  end.

(** Path components: the string split at ['/'], empty components dropped
    (so ["a//b"] and ["a/b"] name the same file).  All paths are resolved from
    one root. *)
Fixpoint split_path_go (cur : string) (s : string) : list string :=
  match s with
  | EmptyString => if String.eqb cur "" then [] else [cur]
  | String c s' =>
      if Ascii.eqb c "/"%char
      then (if String.eqb cur "" then [] else [cur]) ++ split_path_go "" s'
      else split_path_go (cur +:+ String c "") s'
  end.

Definition split_path (s : string) : list string := split_path_go "" s.

Fixpoint resolve (n : node) (p : list string) : option node :=
  match p with
  | [] => Some n
  | c :: p' =>
      match n with
      | Dir es => match entry c es with Some n' => resolve n' p' | None => None end
      | File _ => None
      end
  end.

(** Create or overwrite the file at [p]; [None] when the parent directory
    does not exist or [p] is a directory. *)
Fixpoint write (n : node) (p : list string) (c : content) : option node :=
  match p with
  | [] => None
  | name :: p' =>
      match n with
      | File _ => None
      | Dir es =>
          match p' with
          | [] =>
              match entry name es with
              | Some (Dir _) => None
              | _ => Some (Dir (set_entry name (File c) es))
              end
          | _ :: _ =>
              match entry name es with
              | Some n' =>
                  match write n' p' c with
                  | Some n'' => Some (Dir (set_entry name n'' es))
                  | None => None
                  end
              | None => None
              end
          end
      end
  end.

Definition is_file (x : string * node) : bool :=
  match x.2 with File _ => true | Dir _ => false end.

(** Names of the non-directory entries, in listing order. *)
Definition file_names (es : list (string * node)) : list string :=
  map fst (List.filter is_file es).

(** The [files] component of every triple [os.walk] yields below a
    directory, top-down. *)
Fixpoint walk (n : node) : list (list string) :=
  match n with
  | File _ => []
  | Dir es => file_names es :: concat (map (fun x => walk x.2) es)
  end.

(** [os.walk(top)], of which the code only reads [files]; a [top] that is not
    a directory yields nothing. *)
Definition os_walk (root : node) (top : string) : list (list string) :=
  match resolve root (split_path top) with
  | Some (Dir es) => walk (Dir es)
  | _ => []
  end.

(** [os.path.isfile(path)] *)
Definition isfile (root : node) (path : string) : bool :=
  match resolve root (split_path path) with
  | Some (File _) => true
  | _ => false
  end.

End FS.

Export FS.

(** ** Outcomes, channels and the monad of the pipeline *)

(** A message on a [multiprocessing.Queue]: the table, then the version
    attribute ([None] when the file is absent). *)
Inductive msg :=
| MFrame (df : DataFrame)
| MVersion (v : option string).

(** A queue is the list of messages put on it and not yet taken. *)
Definition queue := list msg.

(** The steps of a run that are visible from outside. *)
Inductive event :=
| EvWalk (top : string)
| EvReadPickle (path : string)
| EvStart (curr_file station : string) (today : Z)
| EvGet (m : msg)
| EvConcat (n : nat)
| EvWritePickle (path : string).

Record world := mkWorld {
  fs : node;
  trace : list event
}.

Definition log (e : event) (w : world) : world :=
  mkWorld (fs w) (trace w ++ [e]).

Definition M (A : Type) : Type := world -> outcome A * world.

Global Instance M_ret : MRet M := fun A a w => (Returns a, w).

Global Instance M_bind : MBind M := fun A B k m w =>
  match m w with
  | (Returns a, w') => k a w'
  | (Raises e, w') => (Raises e, w')
  | (Blocks, w') => (Blocks, w')
  end.

Definition raise {A} (e : exn) : M A := fun w => (Raises e, w).

(** A computation without effects, run inside the pipeline. *)
Definition lift {A} (o : outcome A) : M A := fun w => (o, w).

(** [for x in l: s = body(x, s)] *)
Fixpoint for_each {A S : Type} (body : A -> S -> M S) (l : list A) (s : S) : M S :=
  match l with
  | [] => mret s
  | x :: l' => s' ← body x s; for_each body l' s'
  end.

(** [enumerate(l)] *)
Fixpoint enumerate_from {A : Type} (i : Z) (l : list A) : list (Z * A) :=
  match l with
  | [] => []
  | x :: l' => (i, x) :: enumerate_from (i + 1) l'
  end.

Definition enumerate {A : Type} (l : list A) : list (Z * A) := enumerate_from 0 l.

(** [a % b] on Python integers: the sign follows the divisor, and a zero
    divisor raises. *)
Definition py_mod (a b : Z) : M Z :=
  if (b =? 0)%Z then raise ZeroDivisionError else mret (a mod b).

(** [pd.date_range(start_day, end_day)]: one entry per day, both ends
    included; days are counted as integers. *)
Definition date_range (start_day end_day : Z) : list Z :=
  seqZ start_day (end_day - start_day + 1).

(** [xr.open_dataset(path)] together with [to_dataframe()] and [attrs]. *)
Definition open_dataset (root : node) (path : string)
    : outcome (DataFrame * gmap string string) :=
  match resolve root (split_path path) with
  | Some (File (NetCDF rows attrs)) => Returns (rows, attrs)
  | Some (File _) => Raises ValueError
  | Some (Dir _) => Raises IsADirectoryError
  | None => Raises FileNotFoundError
  end.

(** [pd.read_pickle(path)] *)
Definition read_pickle (path : string) : M DataFrame :=
  fun w =>
    let w' := log (EvReadPickle path) w in
    match resolve (fs w) (split_path path) with
    | Some (File (Pickle d)) => (Returns d, w')
    | Some (File _) => (Raises UnpicklingError, w')
    | Some (Dir _) => (Raises IsADirectoryError, w')
    | None => (Raises FileNotFoundError, w')
    end.

(** [df.to_pickle(path)]: pandas refuses a path whose parent is not an
    existing directory with a plain [OSError]; opening a path that is a
    directory raises [IsADirectoryError]. *)
Definition to_pickle (d : DataFrame) (path : string) : M unit :=
  fun w =>
    match write (fs w) (split_path path) (Pickle d) with
    | Some root' => (Returns tt, mkWorld root' (trace w ++ [EvWritePickle path]))
    | None =>
        (Raises (match resolve (fs w) (split_path path) with
                 | Some (Dir _) => IsADirectoryError
                 | _ => OSError
                 end),
         log (EvWritePickle path) w)
    end.

(** [q.get()]: the oldest message; blocks when there is none. *)
Definition queue_get (q : queue) : M (msg * queue) :=
  fun w =>
    match q with
    | m :: q' => (Returns (m, q'), log (EvGet m) w)
    | [] => (Blocks, w)
    end.

(** [os.walk(top)], read to the end (the tree does not change during the
    scan). *)
Definition walk_dirs (top : string) : M (list (list string)) :=
  fun w => (Returns (os_walk (fs w) top), log (EvWalk top) w).

(** Truth value of an optional string argument: [None] and [''] are false. *)
Definition truthy (s : option string) : bool :=
  match s with
  | Some s' => negb (String.eqb s' "")
  | None => false
  end.

(** ** [get_data_functions.py] *)

(** [get_datafile(curr_file, curr_station, today, q)]: the worker.  It
    returns the queue as the parent will find it. *)
Definition get_datafile (root : node) (curr_file curr_station : string) (today : Z)
    (q : queue) : outcome unit * queue :=
  if isfile root curr_file then
    match open_dataset root curr_file with
    | Returns (data_frame, attrs) =>
        match attrs !! "version" with
        | Some code_version =>
            (Returns tt, q ++ [MFrame data_frame; MVersion (Some code_version)])
        | None => (Raises KeyError, q)
        end
    | Raises e => (Raises e, q)
    | Blocks => (Blocks, q)
    end
  else (Returns tt, q ++ [MFrame empty_frame; MVersion None]).

(** [q = Q(); P(target=f, args=(..., q)).start()]: the child runs on the
    files as they are now; whatever it published before it ended is what the
    parent can take from [q]. *)
Definition start_process (target : node -> string -> string -> Z -> queue -> outcome unit * queue)
    (curr_file curr_station : string) (today : Z) : M queue :=
  fun w =>
    (Returns (target (fs w) curr_file curr_station today []).2,
     log (EvStart curr_file curr_station today) w).

(** The local variables of [get_flux_data]. [level_str] is [None] while the
    name is unbound. *)
Record locals := mkLocals {
  df : DataFrame;
  code_version : option string;
  was_pickled : bool;
  level_str : option string;
  q_list : list queue;
  day_list : list Z;
  df_list : list DataFrame
}.

Definition station_list : list string := ["tower"; "asfs30"; "asfs40"; "asfs50"].

(** [f'{station}_{level}_{data_type}_df'] *)
Definition pickled_filename (station : string) (level : Z) (data_type : string) : string :=
  station +:+ "_" +:+ pretty level +:+ "_" +:+ data_type +:+ "_df".

(** Lines 66-67: the version tag rebuilt from the name of the pickle. *)
Definition version_from_filename (filename : string) : string :=
  let name_words := PyStr.rpartition "." (PyStr.rpartition "_" filename).2 in
  name_words.1.1 +:+ "." +:+ name_words.1.2.

(** Line 135: [f"{pickle_dir}/{pickled_filename}_{code_version[0:3]}.pkl"] *)
Definition pickle_path (pickle_dir key code_version : string) : string :=
  pickle_dir +:+ "/" +:+ key +:+ "_" +:+ PyStr.slice0 3 code_version +:+ ".pkl".

(** Lines 62-70: the inner loop over the files of one directory; it stops at
    the first name that contains the key. *)
Fixpoint scan_files (pickle_dir key : string) (files : list string) (st : locals)
    : M locals :=
  match files with
  | [] => mret st
  | filename :: files' =>
      if PyStr.contains key filename then
        let filename := pickle_dir +:+ filename in
        d ← read_pickle filename;
        mret (mkLocals d (Some (version_from_filename filename)) true
                      (level_str st) (q_list st) (day_list st) (df_list st))
      else scan_files pickle_dir key files' st
  end.

(** Lines 105-110: take both messages of one unit. *)
Definition drain_one (qq : queue) (st : locals) : M locals :=
  '(m1, qq1) ← queue_get qq;
  '(m2, _) ← queue_get qq1;
  match m1, m2 with
  | MFrame df_today, MVersion cv =>
      let cv' := match cv with Some _ => cv | None => code_version st end in
      let dfs := if negb (is_empty df_today) then df_list st ++ [df_today]
                 else df_list st in
      mret (mkLocals (df st) cv' (was_pickled st) (level_str st)
                    (q_list st) (day_list st) dfs)
  | _, _ => raise TypeError
  end.

Section GetFluxData.

(** [today.strftime(fmt)] *)
Variable strftime : string -> Z -> string.

(** Lines 84-98 on the value [level_str] has when the iteration starts: the
    path of the day's file and the value [level_str] has afterwards. *)
Definition locate (station : string) (level : Z) (data_dir data_type : string)
    (today : Z) (level_str0 : option string) : M (string * option string) :=
  let date_str := strftime "%Y%m%d.%H%M%S" today in
  let level_str1 := if (level =? 1)%Z then Some "ingest" else level_str0 in
  match level_str1 with
  | None => raise UnboundLocalError
  | Some ls =>
      let subdir := "/" +:+ pretty level +:+ "_level_" +:+ ls +:+ "_" +:+ station +:+ "/" in
      let file_str := "/mos" +:+ station +:+ data_type +:+ ".level" +:+ pretty level
                      +:+ "." +:+ date_str +:+ ".nc" in
      let subdir := if String.eqb station "tower"
                    then "/" +:+ pretty level +:+ "_level_" +:+ ls +:+ "/"
                    else subdir in
      let file_str := if String.eqb station "tower"
                      then "/mosflx" +:+ station +:+ data_type +:+ ".level"
                           +:+ pretty level +:+ "." +:+ date_str +:+ ".nc"
                      else file_str in
      let level_str2 := if (level =? 2)%Z then Some "product" else level_str1 in
      let level_str3 := if (level =? 3)%Z then Some "archive" else level_str2 in
      let files_dir := data_dir +:+ station +:+ subdir in
      let curr_file := files_dir +:+ file_str in
      mret (curr_file, level_str3)
  end.

(** Lines 79-112: one iteration of the loop over the days. *)
Definition day_step (station : string) (level : Z) (data_dir data_type : string)
    (nthreads : Z) (day_series : list Z) (it : Z * Z) (st : locals) : M locals :=
  let '(i_day, today) := it in
  _ ← py_mod i_day nthreads;
  '(curr_file, level_str') ← locate station level data_dir data_type today (level_str st);
  q_today ← start_process get_datafile curr_file station today;
  let st := mkLocals (df st) (code_version st) (was_pickled st) level_str'
                     (q_list st ++ [q_today]) (day_list st ++ [today]) (df_list st) in
  r ← py_mod (i_day + 1) nthreads;
  complete ← (if (r =? 0)%Z then mret true
               else match last day_series with
                    | Some last_day => mret (today =? last_day)%Z
                    | None => raise IndexError
                    end);
  if (complete : bool) then
    st ← for_each drain_one (q_list st) st;
    mret (mkLocals (df st) (code_version st) (was_pickled st) (level_str st)
                  [] [] (df_list st))
  else mret st.

(** Lines 115-116: [try: df = pd.concat(df_list)] with a bare [except] whose
    replacement frame is thrown away; [pd.concat] raises on an empty list. *)
Definition concat_or_keep (st : locals) : M locals :=
  fun w =>
    let w' := log (EvConcat (length (df_list st))) w in
    match df_list st with
    | [] => (Returns st, w')
    | _ :: _ =>
        (Returns (mkLocals (concat_rows (df_list st)) (code_version st) (was_pickled st)
                           (level_str st) (q_list st) (day_list st) (df_list st)), w')
    end.

(** Lines 75-119: fetch every day of the range, concatenate, add the [time]
    column. *)
Definition fetch_merge (station : string) (start_day end_day level : Z)
    (data_dir data_type : string) (nthreads : Z) (st : locals) : M locals :=
  let day_series := date_range start_day end_day in
  let st := mkLocals (df st) (code_version st) (was_pickled st) (level_str st)
                     [] [] [] in
  st ← for_each (day_step station level data_dir data_type nthreads day_series)
                 (enumerate day_series) st;
  st ← concat_or_keep st;
  mret (mkLocals (with_time_column (df st)) (code_version st) (was_pickled st)
                 (level_str st) (q_list st) (day_list st) (df_list st)).

(** Lines 129-135: write the pickle when a directory was given; slicing a
    tag that is [None] would raise. *)
Definition store_pickle (station : string) (level : Z) (data_type : string)
    (pickle_dir : option string) (st : locals) : M locals :=
  if truthy pickle_dir then
    match pickle_dir, code_version st with
    | Some dir, Some cv =>
        _ ← to_pickle (df st) (pickle_path dir (pickled_filename station level data_type) cv);
        mret st
    | _, _ => raise TypeError
    end
  else mret st.

(** Lines 74-135: the work done when no pickle was loaded. *)
Definition ingest (station : string) (start_day end_day level : Z)
    (data_dir data_type : string) (nthreads : Z) (pickle_dir : option string)
    (st : locals) : M locals :=
  st ← fetch_merge station start_day end_day level data_dir data_type nthreads st;
  store_pickle station level data_type pickle_dir st.

(** Lines 59-72: the search for a pickle. *)
Definition lookup_pickle (station : string) (level : Z) (data_type : string)
    (pickle_dir : option string) (st : locals) : M locals :=
  if truthy pickle_dir then
    match pickle_dir with
    | Some dir =>
        dirs ← walk_dirs dir;
        for_each (scan_files dir (pickled_filename station level data_type)) dirs st
    | None => mret st
    end
  else mret st.

(** [get_flux_data(station, start_day, end_day, level, data_dir, data_type,
    verbose, nthreads, pickle_dir)]; [verbose] only selects printing. *)
Definition get_flux_data (station : string) (start_day end_day level : Z)
    (data_dir data_type : string) (nthreads : Z) (pickle_dir : option string)
    : M (DataFrame * option string) :=
  if negb (existsb (String.eqb station) station_list) then raise IOError
  else
    let st := mkLocals empty_frame (Some "?") false None [] [] [] in
    st ← lookup_pickle station level data_type pickle_dir st;
    st ← (if negb (was_pickled st)
           then ingest station start_day end_day level data_dir data_type nthreads
                       pickle_dir st
           else mret st);
    mret (df st, code_version st).

End GetFluxData.

(** ** [plot_scripts/plot_asfs_lev1_quicklooks.py]: the multi-station ingest *)

Module Quicklooks.

Definition sleds_to_plot : list string := ["asfs30"; "asfs40"; "asfs50"].

Definition site_strs : gmap string string :=
  {[ "asfs30" := "L2"; "asfs40" := "L1"; "asfs50" := "L3" ]}.

(** [d[k]] on a dict *)
Definition dict_get {V : Type} (d : gmap string V) (k : string) : M V :=
  match d !! k with
  | Some v => mret v
  | None => raise KeyError
  end.

(** [get_asfs_data(curr_file, curr_station, today, q)]: the worker of the
    quicklook script; it labels every column with its station. *)
Definition get_asfs_data (root : node) (curr_file curr_station : string) (today : Z)
    (q : queue) : outcome unit * queue :=
  if isfile root curr_file then
    match open_dataset root curr_file with
    | Returns (data_frame, attrs) =>
        let data_frame := add_suffix ("_" +:+ curr_station) data_frame in
        match attrs !! "version" with
        | Some code_version =>
            (Returns tt, q ++ [MFrame data_frame; MVersion (Some code_version)])
        | None => (Raises KeyError, q)
        end
    | Raises e => (Raises e, q)
    | Blocks => (Blocks, q)
    end
  else (Returns tt, q ++ [MFrame empty_frame; MVersion None]).

(** The variables of one pass of the day loop of [main]; [code_version] is
    the global of the script, [None] while it is unbound. *)
Record day_locals := mkDay {
  df_today : DataFrame;
  q_dict : gmap string queue;
  df_dict : gmap string DataFrame;
  code_version : option string
}.

(** [pd.concat(dfs)] where nothing catches the error of an empty list. *)
Definition pd_concat (dfs : list DataFrame) : M DataFrame :=
  fun w =>
    match dfs with
    | [] => (Raises ValueError, log (EvConcat 0) w)
    | _ :: _ => (Returns (concat_rows dfs), log (EvConcat (length dfs)) w)
    end.

Section Main.

Variable strftime : string -> Z -> string.
Variable data_dir : string.

(** What [pd.concat] does when a frame with repeated row labels would have
    to be relabelled (see [concat_columns]). *)
Variable concat_repeated_labels : DataFrame -> DataFrame -> outcome DataFrame.

(** Lines 168-180: start the worker of one station. *)
Definition start_station (today : Z) (curr_station : string) (st : day_locals)
    : M day_locals :=
  site ← dict_get site_strs curr_station;
  let file_str_slow := "/slow_preliminary_" +:+ curr_station +:+ "." +:+ site +:+ "."
                       +:+ strftime "%Y%m%d" today +:+ ".nc" in
  let level1_dir := data_dir +:+ curr_station +:+ "/1_level_ingest_" +:+ curr_station
                    +:+ "/" in
  let curr_file := level1_dir +:+ file_str_slow in
  q ← start_process get_asfs_data curr_file curr_station today;
  mret (mkDay (df_today st) (<[curr_station := q]> (q_dict st)) (df_dict st)
              (code_version st)).

(** Lines 182-185: take the table and the version of one station. *)
Definition collect_station (curr_station : string) (st : day_locals) : M day_locals :=
  qq ← dict_get (q_dict st) curr_station;
  '(m1, qq1) ← queue_get qq;
  '(m2, qq2) ← queue_get qq1;
  match m1, m2 with
  | MFrame d, MVersion cv =>
      mret (mkDay (df_today st) (<[curr_station := qq2]> (q_dict st))
                  (<[curr_station := d]> (df_dict st))
                  (match cv with Some _ => cv | None => code_version st end))
  | _, _ => raise TypeError
  end.

(** Lines 187-189: put the station's table beside what the day has so far. *)
Definition merge_station (curr_station : string) (st : day_locals) : M day_locals :=
  d ← dict_get (df_dict st) curr_station;
  merged ← lift (if is_empty (df_today st) then Returns d
                 else concat_columns concat_repeated_labels (df_today st) d);
  mret (mkDay merged (q_dict st) (df_dict st) (code_version st)).

(** Lines 164-191: the table of one day, all stations merged, and the
    version tag after that day. *)
Definition day_frame (today : Z) (code_version0 : option string)
    : M (DataFrame * option string) :=
  let st := mkDay empty_frame ∅ ∅ code_version0 in
  st ← for_each (start_station today) sleds_to_plot st;
  st ← for_each collect_station sleds_to_plot st;
  st ← for_each merge_station sleds_to_plot st;
  mret (df_today st, code_version st).

(** Lines 163-191: one pass of the day loop; the table of the day joins
    [df_list], empty or not. *)
Definition day_pass (today : Z) (acc : list DataFrame * option string)
    : M (list DataFrame * option string) :=
  '(d, cv) ← day_frame today acc.2;
  mret (acc.1 ++ [d], cv).

(** Lines 159-195: the tables of all days of the period, concatenated, with
    the [time] column. *)
Definition retrieve (start_time end_time : Z) (code_version0 : option string)
    : M (DataFrame * option string) :=
  let day_series := date_range start_time end_time in
  '(df_list, cv) ← for_each day_pass day_series ([], code_version0);
  d ← pd_concat df_list;
  mret (with_time_column d, cv).

End Main.

(** *** The processing period (lines 143-148) *)

(** A [datetime.datetime]. *)
Record datetime := mkDatetime {
  year : Z; month : Z; day : Z;
  hour : Z; minute : Z; second : Z; microsecond : Z
}.

Definition is_leap (y : Z) : bool :=
  (y mod 4 =? 0) && (negb (y mod 100 =? 0) || (y mod 400 =? 0)).

Definition days_in_month (y m : Z) : Z :=
  if (m =? 2) && is_leap y then 29
  else nth (Z.to_nat m) [0; 31; 28; 31; 30; 31; 30; 31; 31; 30; 31; 30; 31] 0.

(** The checks the constructor of [datetime] makes on its fields. *)
Definition valid_datetime (d : datetime) : bool :=
  (1 <=? year d) && (year d <=? 9999) &&
  (1 <=? month d) && (month d <=? 12) &&
  (1 <=? day d) && (day d <=? days_in_month (year d) (month d)) &&
  (0 <=? hour d) && (hour d <=? 23) &&
  (0 <=? minute d) && (minute d <=? 59) &&
  (0 <=? second d) && (second d <=? 59) &&
  (0 <=? microsecond d) && (microsecond d <=? 999999).

(** [d.replace(hour=0, minute=0, second=0, microsecond=0, day=new_day)] *)
Definition replace_midnight (d : datetime) (new_day : Z) : outcome datetime :=
  let d' := mkDatetime (year d) (month d) new_day 0 0 0 0 in
  if valid_datetime d' then Returns d' else Raises ValueError.

Section Period.

(** [datetime.strptime(text, fmt)] *)
Variable strptime : string -> string -> outcome datetime.

(** Lines 143-148: the first and last day to process, from the moment the
    script runs and the two optional arguments. *)
Definition process_period (today : datetime) (arg_start_time arg_end_time : option string)
    : outcome (datetime * datetime) :=
  start_time ← (if truthy arg_start_time
                then strptime (default "" arg_start_time) "%Y%m%d"
                else replace_midnight today (day today - 1));
  end_time ← (if truthy arg_end_time
              then strptime (default "" arg_end_time) "%Y%m%d"
              else Returns start_time);
  Returns (start_time, end_time).

End Period.

(** *** Colours (lines 384-386) *)

(** [s.lstrip(c)]: every leading [c] removed. *)
Fixpoint lstrip (c : Ascii.ascii) (s : string) : string :=
  match s with
  | EmptyString => EmptyString
  | String a s' => if Ascii.eqb a c then lstrip c s' else s
  end.

(** [s[i:j]] for [0 <= i <= j] *)
Definition slice (i j : nat) (s : string) : string := String.substring i (j - i) s.

Definition hex_digit (c : Ascii.ascii) : option Z :=
  let n := Z.of_nat (nat_of_ascii c) in
  if (48 <=? n) && (n <=? 57) then Some (n - 48)
  else if (97 <=? n) && (n <=? 102) then Some (n - 87)
  else if (65 <=? n) && (n <=? 70) then Some (n - 55)
  else None.

(** The number a string of hexadecimal digits writes. *)
Fixpoint hex_value (acc : Z) (s : string) : option Z :=
  match s with
  | EmptyString => Some acc
  | String c s' =>
      match hex_digit c with
      | Some d => hex_value (16 * acc + d) s'
      | None => None
      end
  end.

Section Colours.

(** [int(s, 16)] on a string that is not made of hexadecimal digits only:
    Python still reads signs, blanks, a [0x] prefix and underscores, and
    raises [ValueError] on the rest. *)
Variable int_other : string -> outcome Z.

(** [int(s, 16)] *)
Definition int16 (s : string) : outcome Z :=
  match s with
  | EmptyString => Raises ValueError
  | String _ _ =>
      match hex_value 0 s with
      | Some v => Returns v
      | None => int_other s
      end
  end.

(** [hex_to_rgb(hex_color)]; each component is an integer divided by 256.0,
    which is exact, so the components are given as rationals. *)
Definition hex_to_rgb (hex_color : string)
    : outcome (QArith_base.Q * QArith_base.Q * QArith_base.Q) :=
  let digits := lstrip "#" hex_color in
  r ← int16 (slice 0 2 digits);
  g ← int16 (slice 2 4 digits);
  b ← int16 (slice 4 6 digits);
  Returns (QArith_base.Qmake r 256, QArith_base.Qmake g 256, QArith_base.Qmake b 256).

End Colours.

(** *** Derived variables (lines 206-215) *)

(** [df[name]] *)
Definition df_get (name : string) (d : DataFrame) : outcome (list cell) :=
  match get_column name (columns d) with
  | Some c => Returns c
  | None => Raises KeyError
  end.

(** [df[name] = vals] *)
Definition df_set (name : string) (vals : list cell) (d : DataFrame) : DataFrame :=
  mkDF (index d) (set_column name vals (columns d)).

(** An operation on four columns of one table, row by row. *)
Fixpoint map4 (f : cell -> cell -> cell -> cell -> cell) (a b c d : list cell)
    : list cell :=
  match a, b, c, d with
  | x :: a', y :: b', z :: c', t :: d' => f x y z t :: map4 f a' b' c' d'
  | _, _, _, _ => []
  end.

Section Derived.

(** The arithmetic of numpy on the measurements: [a - b + c - d], and
    [sqrt(x1 * x2 + y1 * y2)]. *)
Variable net_irradiance : cell -> cell -> cell -> cell -> cell.
Variable root_of_products : cell -> cell -> cell -> cell -> cell.

(** Lines 207-215: the two derived columns of one station. *)
Definition derive_station (curr_station : string) (d : DataFrame) : outcome DataFrame :=
  swu ← df_get ("sr30_swu_Irr_Avg_" +:+ curr_station) d;
  swd ← df_get ("sr30_swd_Irr_Avg_" +:+ curr_station) d;
  lwu ← df_get ("ir20_lwu_Wm2_Avg_" +:+ curr_station) d;
  lwd ← df_get ("ir20_lwd_Wm2_Avg_" +:+ curr_station) d;
  let d := df_set ("net_Irr_Avg_" +:+ curr_station)
                  (map4 net_irradiance swu swd lwu lwd) d in
  x1 ← df_get ("metek_x_Avg_" +:+ curr_station) d;
  x2 ← df_get ("metek_x_Avg_" +:+ curr_station) d;
  y1 ← df_get ("metek_y_Avg_" +:+ curr_station) d;
  y2 ← df_get ("metek_y_Avg_" +:+ curr_station) d;
  Returns (df_set ("metek_horiz_Avg_" +:+ curr_station)
                  (map4 root_of_products x1 x2 y1 y2) d).

(** Lines 206-215: the loop over the stations. *)
Fixpoint derive_stations (stations : list string) (d : DataFrame) : outcome DataFrame :=
  match stations with
  | [] => Returns d
  | curr_station :: rest =>
      d' ← derive_station curr_station d;
      derive_stations rest d'
  end.

Definition derived_variables (d : DataFrame) : outcome DataFrame :=
  derive_stations sleds_to_plot d.

End Derived.

End Quicklooks.

(** ** Vocabulary of the statements *)

(** The workers started, in order. *)
Definition starts (tr : list event) : list (string * string * Z) :=
  flat_map (fun e => match e with EvStart f s d => [(f, s, d)] | _ => [] end) tr.

(** The messages taken from queues, in order. *)
Definition gets (tr : list event) : list msg :=
  flat_map (fun e => match e with EvGet m => [m] | _ => [] end) tr.

(** Steps of the fetch / schedule / merge / store path. *)
Definition is_ingest_work (e : event) : bool :=
  match e with
  | EvStart _ _ _ | EvGet _ | EvConcat _ | EvWritePickle _ => true
  | EvWalk _ | EvReadPickle _ => false
  end.

(** Steps of the cache lookup. *)
Definition is_lookup_work (e : event) : bool :=
  match e with
  | EvWalk _ | EvReadPickle _ => true
  | _ => false
  end.

(** What one unit yields: the table and version of a NetCDF file, the empty
    table and no version otherwise. *)
Definition unit_result (root : node) (curr_file : string) : DataFrame * option string :=
  match resolve root (split_path curr_file) with
  | Some (File (NetCDF rows attrs)) => (rows, attrs !! "version")
  | _ => (empty_frame, None)
  end.

(** The two messages of a unit. *)
Definition to_queue (r : DataFrame * option string) : queue :=
  [MFrame r.1; MVersion r.2].

(** The file of a unit is absent, or it is a NetCDF file that carries a
    version attribute. *)
Definition fetchable (root : node) (curr_file : string) : Prop :=
  isfile root curr_file = false \/
  exists rows attrs v,
    resolve root (split_path curr_file) = Some (File (NetCDF rows attrs)) /\
    attrs !! "version" = Some v.

(** Last write wins: the last version that is not [None], or the initial
    tag. *)
Definition last_non_null (init : option string) (vs : list (option string))
    : option string :=
  fold_left (fun acc v => match v with Some _ => v | None => acc end) vs init.

Definition non_empty_frames (ds : list DataFrame) : list DataFrame :=
  List.filter (fun d => negb (is_empty d)) ds.

(** What lines 115-119 leave in [df] for the tables of the units. *)
Definition merged_frame (ds : list DataFrame) : DataFrame :=
  with_time_column (match non_empty_frames ds with
                    | [] => empty_frame
                    | _ :: _ => concat_rows (non_empty_frames ds)
                    end).

(** The test of line 104. *)
Definition batch_complete (nthreads : Z) (day_series : list Z) (i_day today : Z) : bool :=
  ((i_day + 1) mod nthreads =? 0) ||
  match last day_series with
  | Some last_day => today =? last_day
  | None => false
  end.

(** The log entries of taking both messages of each unit. *)
Definition get_events (rs : list (DataFrame * option string)) : list event :=
  flat_map (fun r => [EvGet (MFrame r.1); EvGet (MVersion r.2)]) rs.

(** The path lines 88-98 build at level 1. *)
Definition level1_file (strftime : string -> Z -> string)
    (station data_dir data_type : string) (today : Z) : string :=
  let date_str := strftime "%Y%m%d.%H%M%S" today in
  let subdir := if String.eqb station "tower"
                then "/" +:+ pretty 1 +:+ "_level_" +:+ "ingest" +:+ "/"
                else "/" +:+ pretty 1 +:+ "_level_" +:+ "ingest" +:+ "_" +:+ station +:+ "/" in
  let file_str := if String.eqb station "tower"
                  then "/mosflx" +:+ station +:+ data_type +:+ ".level" +:+ pretty 1
                       +:+ "." +:+ date_str +:+ ".nc"
                  else "/mos" +:+ station +:+ data_type +:+ ".level" +:+ pretty 1
                       +:+ "." +:+ date_str +:+ ".nc" in
  (data_dir +:+ station +:+ subdir) +:+ file_str.

(** A calendar for the examples: day [d] of January 2020. *)
Definition january_2020 (fmt : string) (d : Z) : string :=
  "202001" +:+ (if (d <? 10)%Z then "0" else "") +:+ pretty d
  +:+ (if String.eqb fmt "%Y%m%d" then "" else ".000000").

(** A one-row NetCDF file with the column [temp]. *)
Definition nc_file (version : string) (t x : Z) : node :=
  File (NetCDF (mkDF [t] [("temp", [Num x])]) {[ "version" := version ]}).

(** The data directory of station asfs30 with files for 2 and 4 January
    only; the days 1 and 3 are gaps. *)
Definition data_with_gaps : node :=
  Dir [("asfs30", Dir [("1_level_ingest_asfs30", Dir [
          ("mosasfs30slow.level1.20200102.000000.nc", nc_file "2.1" 200 11);
          ("mosasfs30slow.level1.20200104.000000.nc", nc_file "2.3" 400 13)])])].

(** That archive with an empty cache directory. *)
Definition archive_with_gaps : node :=
  Dir [("data", data_with_gaps); ("cache", Dir [])].

(** The table an ingest of 1 to 4 January yields from it. *)
Definition frame_of_gaps : DataFrame :=
  mkDF [200; 400] [("temp", [Num 11; Num 13]); ("time", [Stamp 200; Stamp 400])].

(** The archive once that table has been pickled. *)
Definition archive_with_pickle : node :=
  Dir [("data", data_with_gaps);
       ("cache", Dir [("asfs30_1_slow_df_2.3.pkl", File (Pickle frame_of_gaps))])].

(** No file name in the walked directories contains the key. *)
Definition no_match (key : string) (dirs : list (list string)) : Prop :=
  Forall (Forall (fun f => PyStr.contains key f = false)) dirs.

(** The search for a pickle finds nothing: no directory was given, or no
    file name below it contains the key. *)
Definition cache_miss (root : node) (pickle_dir : option string) (key : string) : Prop :=
  truthy pickle_dir = false \/
  exists dir, pickle_dir = Some dir /\ no_match key (os_walk root dir).

(** The file system after line 135: unchanged without a pickle directory,
    otherwise with the pickle written; [None] when it cannot be written. *)
Definition stored_root (root : node) (pickle_dir : option string) (key : string)
    (frame : DataFrame) (cv : option string) : option node :=
  if truthy pickle_dir then
    match pickle_dir, cv with
    | Some dir, Some v => write root (split_path (pickle_path dir key v)) (Pickle frame)
    | _, _ => None
    end
  else Some root.

(** The character occurs in the string. *)
Fixpoint has_char (c : Ascii.ascii) (s : string) : bool :=
  match s with
  | EmptyString => false
  | String a s' => Ascii.eqb a c || has_char c s'
  end.

(** The name line 135 gives the pickle inside the directory. *)
Definition pickle_name (key code_version : string) : string :=
  key +:+ "_" +:+ PyStr.slice0 3 code_version +:+ ".pkl".

(** An archive whose only file, for 2 January, carries the version
    ["2.1.."], and an empty cache directory. *)
Definition archive_dotted_version : node :=
  Dir [("data", Dir [("asfs30", Dir [("1_level_ingest_asfs30", Dir [
          ("mosasfs30slow.level1.20200102.000000.nc", nc_file "2.1.." 200 11)])])]);
       ("cache", Dir [])].

Definition frame_a : DataFrame := mkDF [100] [("temp", [Num 1]); ("time", [Stamp 100])].
Definition frame_b : DataFrame := mkDF [200] [("temp", [Num 2]); ("time", [Stamp 200])].
Definition frame_c : DataFrame := mkDF [300] [("temp", [Num 3]); ("time", [Stamp 300])].

(** A cache directory with two pickles of station asfs30 and a
    subdirectory [old] that keeps one more. *)
Definition cache_with_subdirectory : node :=
  Dir [("cache", Dir [
          ("asfs30_1_slow_df_1.0.pkl", File (Pickle frame_a));
          ("asfs30_1_slow_df_2.0.pkl", File (Pickle frame_b));
          ("old", Dir [("asfs30_1_slow_df_2.0.pkl", File (Pickle frame_c))])])].

(** Lines 172-174: the file of one station for a day. *)
Definition sled_file (strftime : string -> Z -> string) (data_dir station : string)
    (today : Z) : string :=
  (data_dir +:+ station +:+ "/1_level_ingest_" +:+ station +:+ "/")
  +:+ ("/slow_preliminary_" +:+ station +:+ "."
       +:+ default "" (Quicklooks.site_strs !! station) +:+ "."
       +:+ strftime "%Y%m%d" today +:+ ".nc").

(** What one station yields for a day: the table with its columns labelled
    and the version of a NetCDF file, the empty table and no version
    otherwise. *)
Definition sled_result (root : node) (curr_file station : string)
    : DataFrame * option string :=
  match resolve root (split_path curr_file) with
  | Some (File (NetCDF rows attrs)) =>
      (add_suffix ("_" +:+ station) rows, attrs !! "version")
  | _ => (empty_frame, None)
  end.

(** Lines 187-189 over the tables of the stations, in order, from the table
    the day has so far. *)
Fixpoint merge_into (concat_repeated_labels : DataFrame -> DataFrame -> outcome DataFrame)
    (acc : DataFrame) (ds : list DataFrame) : outcome DataFrame :=
  match ds with
  | [] => Returns acc
  | d :: ds' =>
      m ← (if is_empty acc then Returns d
           else concat_columns concat_repeated_labels acc d);
      merge_into concat_repeated_labels m ds'
  end.

Definition merge_frames (concat_repeated_labels : DataFrame -> DataFrame -> outcome DataFrame)
    (ds : list DataFrame) : outcome DataFrame :=
  merge_into concat_repeated_labels empty_frame ds.

(** The same loop where every concatenation is the outer join. *)
Definition joined_frames (ds : list DataFrame) : DataFrame :=
  fold_left (fun acc d => if is_empty acc then d else join_columns acc d)
            ds empty_frame.

(** The table of a NetCDF file at that path, if there is one, has no
    repeated row label. *)
Definition unique_rows (root : node) (curr_file : string) : Prop :=
  match resolve root (split_path curr_file) with
  | Some (File (NetCDF rows _)) => is_unique (index rows) = true
  | _ => True
  end.

(** Column [n] of table [d] is found under the same name in [m], with the
    same cell at every row label; [m] has every row label of [d]. *)
Definition kept (n : string) (m d : DataFrame) : Prop :=
  (forall t, t ∈ index d -> t ∈ index m) /\
  forall col, get_column n (columns d) = Some col ->
    exists col', get_column n (columns m) = Some col' /\
                 forall t, cell_at (index m) col' t = cell_at (index d) col t.

(** A table is empty or carries the label of the station on every column. *)
Definition labelled (station : string) (d : DataFrame) : Prop :=
  d = empty_frame \/ exists t, d = add_suffix ("_" +:+ station) t.

(** One-row and zero-row NetCDF files with the column [temp]. *)
Definition nc_no_rows (version : string) : node :=
  File (NetCDF (mkDF [] [("temp", [])]) {[ "version" := version ]}).

(** Sled archives for 2 January 2020: asfs30 and asfs40 both have a file,
    asfs50 has none. *)
Definition sleds_archive : node :=
  Dir [("data", Dir [
    ("asfs30", Dir [("1_level_ingest_asfs30", Dir [
        ("slow_preliminary_asfs30.L2.20200102.nc", nc_file "2.1" 200 11)])]);
    ("asfs40", Dir [("1_level_ingest_asfs40", Dir [
        ("slow_preliminary_asfs40.L1.20200102.nc", nc_file "2.1" 200 12)])])])].

(** The same, but the file of asfs30 has the column and no rows. *)
Definition sleds_archive_no_rows : node :=
  Dir [("data", Dir [
    ("asfs30", Dir [("1_level_ingest_asfs30", Dir [
        ("slow_preliminary_asfs30.L2.20200102.nc", nc_no_rows "2.1")])]);
    ("asfs40", Dir [("1_level_ingest_asfs40", Dir [
        ("slow_preliminary_asfs40.L1.20200102.nc", nc_file "2.1" 200 12)])])])].

(** What [get_asfs_data] does to a message of [get_datafile]: the table
    gets the label of the station, the version is passed on. *)
Definition label_msg (station : string) (m : msg) : msg :=
  match m with
  | MFrame d => MFrame (add_suffix ("_" +:+ station) d)
  | MVersion v => MVersion v
  end.

(** A computation leaves the file system as it found it, however it ends. *)
Definition keeps_files {A : Type} (m : M A) : Prop :=
  forall w, fs (m w).2 = fs w.

(** What the stations yield for one day, in the order of [sleds_to_plot]. *)
Definition day_results (strftime : string -> Z -> string) (data_dir : string)
    (root : node) (today : Z) : list (DataFrame * option string) :=
  map (fun s => sled_result root (sled_file strftime data_dir s today) s)
      Quicklooks.sleds_to_plot.

(** The steps of one pass of the day loop of [main]: every worker is
    started, then both messages of every station are taken. *)
Definition day_events (strftime : string -> Z -> string) (data_dir : string)
    (root : node) (today : Z) : list event :=
  map (fun s => EvStart (sled_file strftime data_dir s today) s today)
      Quicklooks.sleds_to_plot
  ++ get_events (day_results strftime data_dir root today).

(** The table of one day when every concatenation is the outer join. *)
Definition day_joined (strftime : string -> Z -> string) (data_dir : string)
    (root : node) (today : Z) : DataFrame :=
  joined_frames (day_results strftime data_dir root today).*1.

(** The table of one day, when the merge of the stations returns one. *)
Definition day_table (strftime : string -> Z -> string) (data_dir : string)
    (concat_repeated_labels : DataFrame -> DataFrame -> outcome DataFrame)
    (root : node) (today : Z) : outcome DataFrame :=
  merge_frames concat_repeated_labels (day_results strftime data_dir root today).*1.

(** [s] with [n] characters [#] in front. *)
Fixpoint hashes (n : nat) (s : string) : string :=
  match n with
  | O => s
  | S n' => String "#" (hashes n' s)
  end.

(** A colour component: at least 0 and below 1. *)
Definition unit_interval (x : QArith_base.Q) : Prop :=
  QArith_base.Qle (QArith_base.Qmake 0 1) x /\ QArith_base.Qlt x (QArith_base.Qmake 1 1).

(** The units that have been started and whose version has not been taken
    yet after the steps [tr], when [n] were outstanding before. *)
Fixpoint outstanding (n : Z) (tr : list event) : Z :=
  match tr with
  | [] => n
  | EvStart _ _ _ :: tr' => outstanding (n + 1) tr'
  | EvGet (MVersion _) :: tr' => outstanding (n - 1) tr'
  | _ :: tr' => outstanding n tr'
  end.

(** At no point of the steps [tr] more than [limit] units are outstanding. *)
Definition within (limit n : Z) (tr : list event) : Prop :=
  forall k, outstanding n (take k tr) <= limit.

(** The file of a unit exists but its worker cannot publish it: it is not a
    NetCDF dataset, or it carries no [version] attribute. *)
Definition unreadable (root : node) (curr_file : string) : Prop :=
  exists c,
    resolve root (split_path curr_file) = Some (File c) /\
    match c with
    | NetCDF _ attrs => attrs !! "version" = None
    | _ => True
    end.

(** Among the queues still to drain is one that nobody will fill, behind
    complete ones. *)
Definition stuck (qs : list queue) : Prop :=
  exists pending more, qs = map to_queue pending ++ [] :: more.

(** The archive with gaps where the file of 3 January is not a dataset. *)
Definition archive_with_garbage : node :=
  Dir [("data", Dir [("asfs30", Dir [("1_level_ingest_asfs30", Dir [
          ("mosasfs30slow.level1.20200102.000000.nc", nc_file "2.1" 200 11);
          ("mosasfs30slow.level1.20200103.000000.nc", File Garbage);
          ("mosasfs30slow.level1.20200104.000000.nc", nc_file "2.3" 400 13)])])]);
       ("cache", Dir [])].

(** Whenever the computation returns, the value it returns satisfies [P]. *)
Definition ensures {A : Type} (m : M A) (P : A -> Prop) : Prop :=
  forall w a w', m w = (Returns a, w') -> P a.

(** The version tag of the local state is a string, not [None]. *)
Definition tagged (st : locals) : Prop := is_Some (code_version st).

(** The columns lines 207-215 read for one station. *)
Definition needed_columns (station : string) : list string :=
  ["sr30_swu_Irr_Avg_" +:+ station; "sr30_swd_Irr_Avg_" +:+ station;
   "ir20_lwu_Wm2_Avg_" +:+ station; "ir20_lwd_Wm2_Avg_" +:+ station;
   "metek_x_Avg_" +:+ station; "metek_y_Avg_" +:+ station].

(** The steps the scheduler is to take on the days that remain: each day is
    started, and after the start of day number [i] every unit started and not
    yet drained is drained, in the order of submission, when [nthreads]
    divides [i + 1] or the day is the last of the range. *)
Fixpoint schedule (nthreads : Z) (start_event : Z -> event)
    (result : Z -> DataFrame * option string) (i : Z)
    (pending : list (DataFrame * option string)) (days : list Z) : list event :=
  match days with
  | [] => []
  | d :: rest =>
      start_event d ::
      (if ((i + 1) mod nthreads =? 0) || (match rest with [] => true | _ :: _ => false end)
       then get_events (pending ++ [result d])
            ++ schedule nthreads start_event result (i + 1) [] rest
       else schedule nthreads start_event result (i + 1) (pending ++ [result d]) rest)
  end.

(** The step of the search for a pickle, when a directory is given. *)
Definition walk_events (pickle_dir : option string) : list event :=
  match pickle_dir with
  | Some dir => if truthy pickle_dir then [EvWalk dir] else []
  | None => []
  end.

(** The step of line 135, when a directory is given. *)
Definition store_events (pickle_dir : option string) (key : string)
    (code_version : option string) : list event :=
  match pickle_dir, code_version with
  | Some dir, Some v =>
      if truthy pickle_dir then [EvWritePickle (pickle_path dir key v)] else []
  | _, _ => []
  end.

(** ** Reasoning about the monad *)

Lemma bind_returns {A B} (m : M A) (k : A -> M B) w a w' :
  m w = (Returns a, w') -> (m ≫= k) w = k a w'.
Proof. intros H. unfold mbind, M_bind. by rewrite H. Qed.

Lemma bind_raises {A B} (m : M A) (k : A -> M B) w e w' :
  m w = (Raises e, w') -> (m ≫= k) w = (Raises e, w').
Proof. intros H. unfold mbind, M_bind. by rewrite H. Qed.

Lemma bind_ret {A B} (a : A) (k : A -> M B) w : (mret a ≫= k) w = k a w.
Proof. reflexivity. Qed.

Lemma bind_assoc {A B C} (m : M A) (f : A -> M B) (g : B -> M C) w :
  ((m ≫= f) ≫= g) w = (m ≫= fun a => f a ≫= g) w.
Proof. unfold mbind, M_bind. by destruct (m w) as [[a|e|] w1]. Qed.

Lemma outcome_bind_returns {A B} (a : A) (k : A -> outcome B) : (Returns a ≫= k) = k a.
Proof. reflexivity. Qed.

Lemma outcome_bind_raises {A B} e (k : A -> outcome B) : (Raises e ≫= k) = Raises e.
Proof. reflexivity. Qed.

Lemma for_each_app {A S} (body : A -> S -> M S) l1 l2 s w s' w' :
  for_each body l1 s w = (Returns s', w') ->
  for_each body (l1 ++ l2) s w = for_each body l2 s' w'.
Proof.
  revert s w. induction l1 as [|x l1 IH]; intros s w H; simpl in *.
  - unfold mret, M_ret in H. by simplify_eq.
  - unfold mbind, M_bind in *. destruct (body x s w) as [[a| |] w1]; try done.
    by apply IH.
Qed.

Lemma starts_app tr1 tr2 : starts (tr1 ++ tr2) = starts tr1 ++ starts tr2.
Proof. unfold starts. by rewrite flat_map_app. Qed.

Lemma gets_app tr1 tr2 : gets (tr1 ++ tr2) = gets tr1 ++ gets tr2.
Proof. unfold gets. by rewrite flat_map_app. Qed.

(** ** The worker *)

(** C5. When the file at the path does not exist, [get_datafile] returns
    normally, whatever the path, station and day, and has put on its queue
    the empty table followed by the version [None]. *)
Theorem get_datafile_absent_file root curr_file curr_station today q :
  isfile root curr_file = false ->
  get_datafile root curr_file curr_station today q
  = (Returns tt, q ++ [MFrame empty_frame; MVersion None]).
Proof. intros H. unfold get_datafile. by rewrite H. Qed.

Lemma get_datafile_absent_file_witness :
  isfile archive_with_gaps "data/asfs30/1_level_ingest_asfs30//mosasfs30slow.level1.20200101.000000.nc" = false /\
  get_datafile archive_with_gaps
    "data/asfs30/1_level_ingest_asfs30//mosasfs30slow.level1.20200101.000000.nc"
    "asfs30" 1 []
  = (Returns tt, [MFrame empty_frame; MVersion None]).
Proof.
  split; [reflexivity|].
  apply (get_datafile_absent_file archive_with_gaps _ "asfs30" 1 []). reflexivity.
Defined.

Lemma get_datafile_fetchable root curr_file curr_station today :
  fetchable root curr_file ->
  get_datafile root curr_file curr_station today []
  = (Returns tt, to_queue (unit_result root curr_file)).
Proof.
  unfold fetchable, get_datafile, unit_result, to_queue, isfile, open_dataset.
  intros [H|(rows & attrs & v & H & Hv)].
  - destruct (resolve root (split_path curr_file)) as [[c|es]|]; try done.
  - rewrite H. simpl. by rewrite Hv.
Qed.

(** ** Station check *)

(** C9. For a station outside the list of recognised names the call raises
    (the code's [IOError]) and leaves the world as it was: nothing was
    walked, read, started, taken from a queue or written. *)
Theorem get_flux_data_unknown_station strftime station start_day end_day level
    data_dir data_type nthreads pickle_dir w :
  (station ∉ station_list) ->
  get_flux_data strftime station start_day end_day level data_dir data_type
                nthreads pickle_dir w
  = (Raises IOError, w).
Proof.
  intros Hst. unfold get_flux_data.
  destruct (existsb (String.eqb station) station_list) eqn:E; [|done].
  exfalso. apply Hst. apply existsb_exists in E as (x & Hx & Heq).
  apply String.eqb_eq in Heq. subst. by apply list_elem_of_In.
Qed.

Lemma get_flux_data_unknown_station_witness :
  ("asfs60" ∉ station_list) /\
  get_flux_data january_2020 "asfs60" 1 4 1 "data/" "slow" 2 (Some "cache/")
                (mkWorld archive_with_gaps [])
  = (Raises IOError, mkWorld archive_with_gaps []).
Proof.
  assert (H : "asfs60" ∉ station_list).
  { unfold station_list. intros H. repeat (apply elem_of_cons in H as [H|H]; [done|]).
    by apply elem_of_nil in H. }
  split; [exact H|].
  exact (get_flux_data_unknown_station january_2020 "asfs60" 1 4 1 "data/" "slow" 2
           (Some "cache/") (mkWorld archive_with_gaps []) H).
Defined.

(** ** The day loop at level 1 *)

Lemma last_non_null_app init l1 l2 :
  last_non_null init (l1 ++ l2) = last_non_null (last_non_null init l1) l2.
Proof. unfold last_non_null. apply fold_left_app. Qed.

Lemma non_empty_frames_app l1 l2 :
  non_empty_frames (l1 ++ l2) = non_empty_frames l1 ++ non_empty_frames l2.
Proof. unfold non_empty_frames. apply List.filter_app. Qed.

Lemma get_events_app l1 l2 : get_events (l1 ++ l2) = get_events l1 ++ get_events l2.
Proof. unfold get_events. by rewrite flat_map_app. Qed.

Lemma starts_get_events rs : starts (get_events rs) = [].
Proof. induction rs as [|r rs IH]; [done|]. simpl. exact IH. Qed.

Lemma gets_get_events rs : gets (get_events rs) = flat_map to_queue rs.
Proof. induction rs as [|r rs IH]; [done|]. simpl. by rewrite <- IH. Qed.

Lemma lookup_get_events rs : List.filter is_lookup_work (get_events rs) = [].
Proof. induction rs as [|r rs IH]; [done|]. exact IH. Qed.

Lemma starts_start f s d : starts [EvStart f s d] = [(f, s, d)].
Proof. reflexivity. Qed.

Lemma gets_start f s d : gets [EvStart f s d] = [].
Proof. reflexivity. Qed.

Lemma lookup_start f s d : List.filter is_lookup_work [EvStart f s d] = [].
Proof. reflexivity. Qed.

Ltac trace_simpl :=
  rewrite ?starts_app, ?gets_app, ?List.filter_app, ?starts_get_events,
    ?gets_get_events, ?lookup_get_events, ?starts_start, ?gets_start, ?lookup_start,
    ?flat_map_app;
  cbn [map app];
  rewrite ?app_nil_r, <- ?app_assoc.

(** Draining a batch: both messages of every pending unit are taken in
    submission order; each version that is not [None] replaces the tag and
    each table that is not empty is kept. *)
Lemma drain_all pending : forall st w,
  for_each drain_one (map to_queue pending) st w
  = (Returns (mkLocals (df st) (last_non_null (code_version st) pending.*2)
                       (was_pickled st) (level_str st) (q_list st) (day_list st)
                       (df_list st ++ non_empty_frames pending.*1)),
     mkWorld (fs w) (trace w ++ get_events pending)).
Proof.
  induction pending as [|[d v] pending IH]; intros st w.
  - simpl. unfold mret, M_ret. destruct st, w; simpl. by rewrite !app_nil_r.
  - cbn [map for_each]. erewrite bind_returns; [|reflexivity].
    rewrite IH. cbn [df code_version was_pickled level_str q_list day_list df_list
                     fs trace log fst snd fmap list_fmap].
    f_equal.
    + do 2 f_equal. unfold non_empty_frames. cbn [List.filter].
      destruct (is_empty d); cbn [negb]; by rewrite <- ?app_assoc.
    + f_equal. by rewrite <- !app_assoc.
Qed.

Section DayLoop.

Variable strftime : string -> Z -> string.
Variables station data_dir data_type : string.
Variable nthreads : Z.
Variable day_series : list Z.
Variable root : node.

Hypothesis nthreads_nonzero : nthreads ≠ 0.

Let path (d : Z) : string := level1_file strftime station data_dir data_type d.
Let result (d : Z) : DataFrame * option string := unit_result root (path d).

Lemma locate_level1 today ls w :
  locate strftime station 1 data_dir data_type today ls w
  = (Returns (path today, Some "ingest"), w).
Proof.
  unfold locate, path, level1_file. cbn [Z.eqb Pos.eqb].
  destruct (String.eqb station "tower"); reflexivity.
Qed.

Lemma py_mod_nonzero a w : py_mod a nthreads w = (Returns (a mod nthreads), w).
Proof.
  unfold py_mod. destruct (Z.eqb_spec nthreads 0) as [->|_]; [done|reflexivity].
Qed.

(** One iteration: the worker of the day is started; when the test of line
    104 holds, every pending unit is drained, otherwise the day's queue
    waits with the others. *)
Lemma day_step_level1 i d pending st w :
  q_list st = map to_queue pending ->
  fs w = root ->
  fetchable root (path d) ->
  is_Some (last day_series) ->
  day_step strftime station 1 data_dir data_type nthreads day_series (i, d) st w
  = if batch_complete nthreads day_series i d
    then (Returns (mkLocals (df st)
                     (last_non_null (code_version st) (pending ++ [result d]).*2)
                     (was_pickled st) (Some "ingest") [] []
                     (df_list st ++ non_empty_frames (pending ++ [result d]).*1)),
          mkWorld root (trace w ++ [EvStart (path d) station d]
                                ++ get_events (pending ++ [result d])))
    else (Returns (mkLocals (df st) (code_version st) (was_pickled st) (Some "ingest")
                     (map to_queue (pending ++ [result d]))
                     (day_list st ++ [d]) (df_list st)),
          mkWorld root (trace w ++ [EvStart (path d) station d])).
Proof.
  intros Hq Hfs Hok [l Hl]. unfold day_step.
  erewrite bind_returns; [|apply py_mod_nonzero].
  erewrite bind_returns; [|apply locate_level1].
  cbv beta iota zeta.
  erewrite bind_returns; [|reflexivity].
  rewrite Hfs, get_datafile_fetchable by done. fold (result d). cbn [snd].
  erewrite bind_returns; [|apply py_mod_nonzero].
  unfold batch_complete. rewrite Hl.
  cbn [q_list df code_version was_pickled level_str day_list df_list].
  rewrite Hq. replace (map to_queue pending ++ [to_queue (result d)])
    with (map to_queue (pending ++ [result d])) by (by rewrite map_app).
  destruct ((i + 1) mod nthreads =? 0) eqn:Hr; cbn [orb].
  - rewrite bind_ret. erewrite bind_returns; [|apply drain_all].
    unfold mret, M_ret, log. cbn [fs trace df code_version was_pickled level_str
                                  q_list day_list df_list].
    by rewrite Hfs, <- app_assoc.
  - rewrite bind_ret. destruct (d =? l) eqn:Hd.
    + erewrite bind_returns; [|apply drain_all].
      unfold mret, M_ret, log. cbn [fs trace df code_version was_pickled level_str
                                    q_list day_list df_list].
      by rewrite Hfs, <- app_assoc.
    + unfold mret, M_ret, log. cbn [fs trace]. by rewrite Hfs.
Qed.

(** The whole loop from any point on: every remaining day is started, and by
    the end every unit, pending or started later, has been drained in
    submission order. *)
Lemma fetch_loop rest : forall d i pending st w,
  q_list st = map to_queue pending ->
  fs w = root ->
  last (d :: rest) = last day_series ->
  Forall (fun x => fetchable root (path x)) (d :: rest) ->
  exists tr,
    for_each (day_step strftime station 1 data_dir data_type nthreads day_series)
             (enumerate_from i (d :: rest)) st w
    = (Returns (mkLocals (df st)
                  (last_non_null (code_version st)
                                 (pending ++ map result (d :: rest)).*2)
                  (was_pickled st) (Some "ingest") [] []
                  (df_list st
                   ++ non_empty_frames (pending ++ map result (d :: rest)).*1)),
       mkWorld root tr) /\
    starts tr = starts (trace w) ++ map (fun x => (path x, station, x)) (d :: rest) /\
    gets tr = gets (trace w) ++ flat_map to_queue (pending ++ map result (d :: rest)) /\
    List.filter is_lookup_work tr = List.filter is_lookup_work (trace w).
Proof.
  induction rest as [|d' rest IH]; intros d i pending st w Hq Hfs Hlast Hok.
  - apply Forall_cons in Hok as [Hd _].
    cbn [enumerate_from for_each].
    assert (Hsome : is_Some (last day_series)) by (by rewrite <- Hlast).
    pose proof (day_step_level1 i d pending st w Hq Hfs Hd Hsome) as Hstep.
    assert (Hb : batch_complete nthreads day_series i d = true).
    { unfold batch_complete. rewrite <- Hlast. cbn [last].
      rewrite Z.eqb_refl. apply orb_true_r. }
    rewrite Hb in Hstep. erewrite bind_returns; [|exact Hstep].
    eexists. split; [reflexivity|]. cbn [trace].
    repeat split; by trace_simpl.
  - apply Forall_cons in Hok as [Hd Hok].
    assert (Hlast' : last (d' :: rest) = last day_series) by (by rewrite <- Hlast).
    assert (Hsome : is_Some (last day_series)).
    { rewrite <- Hlast'. destruct (last (d' :: rest)) eqn:E; [by eexists|].
      by apply last_None in E. }
    pose proof (day_step_level1 i d pending st w Hq Hfs Hd Hsome) as Hstep.
    change (enumerate_from i (d :: d' :: rest))
      with ((i, d) :: enumerate_from (i + 1) (d' :: rest)).
    cbn [for_each].
    change (map result (d :: d' :: rest)) with ([result d] ++ map result (d' :: rest)).
    change (map (fun x => (path x, station, x)) (d :: d' :: rest))
      with ([(path d, station, d)] ++ map (fun x => (path x, station, x)) (d' :: rest)).
    destruct (batch_complete nthreads day_series i d);
      (erewrite bind_returns; [|exact Hstep]).
    + match goal with
      | |- context [for_each _ _ ?s ?w'] =>
          destruct (IH d' (i + 1) [] s w' eq_refl eq_refl Hlast' Hok)
            as (tr & Hrun & Hs & Hg & Hl)
      end.
      rewrite Hrun. eexists. split.
      * cbn [df code_version was_pickled level_str q_list day_list df_list].
        rewrite (app_assoc pending), (fmap_app snd (pending ++ [result d])),
          (fmap_app fst (pending ++ [result d])), last_non_null_app,
          non_empty_frames_app.
        by rewrite (app_assoc (df_list st)).
      * cbn [trace] in *. rewrite Hs, Hg, Hl.
        repeat split; by trace_simpl.
    + match goal with
      | |- context [for_each _ _ ?s ?w'] =>
          destruct (IH d' (i + 1) (pending ++ [result d]) s w' eq_refl eq_refl Hlast' Hok)
            as (tr & Hrun & Hs & Hg & Hl)
      end.
      rewrite Hrun. eexists. split.
      * cbn [df code_version was_pickled level_str q_list day_list df_list].
        by rewrite (app_assoc pending).
      * cbn [trace] in *. rewrite Hs, Hg, Hl.
        repeat split; by trace_simpl.
Qed.

End DayLoop.

(** ** [get_flux_data] when no pickle is loaded, at level 1 *)

Lemma scan_files_no_match dir key files st w :
  Forall (fun f => PyStr.contains key f = false) files ->
  scan_files dir key files st w = (Returns st, w).
Proof.
  induction 1 as [|f files Hf _ IH]; [done|].
  cbn [scan_files]. by rewrite Hf.
Qed.

Lemma scan_dirs_no_match dir key dirs st w :
  no_match key dirs ->
  for_each (scan_files dir key) dirs st w = (Returns st, w).
Proof.
  induction 1 as [|files dirs Hf _ IH]; [done|].
  cbn [for_each]. erewrite bind_returns; [|by apply scan_files_no_match]. exact IH.
Qed.

Lemma lookup_pickle_miss station level data_type pickle_dir st w :
  cache_miss (fs w) pickle_dir (pickled_filename station level data_type) ->
  exists tr,
    lookup_pickle station level data_type pickle_dir st w
    = (Returns st, mkWorld (fs w) tr) /\
    starts tr = starts (trace w) /\ gets tr = gets (trace w).
Proof.
  unfold lookup_pickle. intros [Hf|(dir & -> & Hno)].
  - rewrite Hf. exists (trace w). by destruct w.
  - destruct (truthy (Some dir)); [|exists (trace w); by destruct w].
    erewrite bind_returns; [|reflexivity].
    rewrite scan_dirs_no_match by done.
    eexists. split; [reflexivity|]. cbn [log trace].
    by rewrite starts_app, gets_app, !app_nil_r.
Qed.

Lemma last_non_null_is_Some init vs :
  is_Some init -> is_Some (last_non_null init vs).
Proof.
  revert init. induction vs as [|v vs IH]; intros init Hi; [done|].
  cbn. apply IH. by destruct v.
Qed.

Lemma concat_or_keep_eq st w :
  concat_or_keep st w
  = (Returns (mkLocals (match df_list st with
                        | [] => df st
                        | _ :: _ => concat_rows (df_list st)
                        end)
                       (code_version st) (was_pickled st) (level_str st)
                       (q_list st) (day_list st) (df_list st)),
     log (EvConcat (length (df_list st))) w).
Proof. unfold concat_or_keep. destruct st as [? ? ? ? ? ? []]; reflexivity. Qed.

Section Level1.

Variable strftime : string -> Z -> string.
Variables station data_dir data_type : string.
Variable nthreads : Z.
Variables start_day end_day : Z.
Variable root : node.

Hypothesis nthreads_nonzero : nthreads ≠ 0.

Let path (d : Z) : string := level1_file strftime station data_dir data_type d.
Let days : list Z := date_range start_day end_day.
Let units : list (DataFrame * option string) :=
  map (fun d => unit_result root (path d)) days.

Hypothesis all_fetchable : Forall (fun d => fetchable root (path d)) days.

Lemma fetch_merge_level1 st w :
  fs w = root ->
  exists st' tr,
    fetch_merge strftime station start_day end_day 1 data_dir data_type nthreads st w
    = (Returns st', mkWorld root tr) /\
    df st' = with_time_column
               (match non_empty_frames units.*1 with
                | [] => df st
                | _ :: _ => concat_rows (non_empty_frames units.*1)
                end) /\
    code_version st' = last_non_null (code_version st) units.*2 /\
    was_pickled st' = was_pickled st /\
    starts tr = starts (trace w) ++ map (fun d => (path d, station, d)) days /\
    gets tr = gets (trace w) ++ flat_map to_queue units.
Proof.
  intros Hfs. unfold fetch_merge.
  pose proof all_fetchable as Hok. unfold units, days in *.
  destruct (date_range start_day end_day) as [|d rest].
  - cbn [enumerate enumerate_from for_each map fmap list_fmap non_empty_frames
         List.filter flat_map last_non_null fold_left].
    rewrite bind_ret. erewrite bind_returns; [|reflexivity].
    do 2 eexists. split; [unfold mret, M_ret, log; by rewrite Hfs|].
    cbn [df code_version was_pickled df_list trace]. repeat split.
    + by trace_simpl.
    + by trace_simpl.
  - unfold enumerate.
    match goal with
    | |- context [for_each ?f (enumerate_from 0 (d :: rest)) ?s] =>
        destruct (fetch_loop strftime station data_dir data_type nthreads (d :: rest)
                    root nthreads_nonzero rest d 0 [] s w eq_refl Hfs eq_refl Hok)
          as (tr & Hrun & Hs & Hg & _)
    end.
    erewrite bind_returns; [|exact Hrun].
    erewrite bind_returns; [|apply concat_or_keep_eq].
    do 2 eexists. split; [reflexivity|].
    cbn [app df code_version was_pickled df_list trace log] in *.
    repeat split; rewrite ?starts_app, ?gets_app, ?Hs, ?Hg; by rewrite ?app_nil_r.
Qed.

(** The run of [get_flux_data] at level 1 when the pickle search finds
    nothing: one worker per day, every unit drained in submission order, the
    non-empty tables concatenated, the last version that is not [None] kept,
    the pickle written when a directory was given. *)
Lemma get_flux_data_miss_level1 pickle_dir root' tr0 :
  station ∈ station_list ->
  cache_miss root pickle_dir (pickled_filename station 1 data_type) ->
  stored_root root pickle_dir (pickled_filename station 1 data_type)
              (merged_frame units.*1) (last_non_null (Some "?") units.*2)
  = Some root' ->
  exists tr,
    get_flux_data strftime station start_day end_day 1 data_dir data_type nthreads
                  pickle_dir (mkWorld root tr0)
    = (Returns (merged_frame units.*1, last_non_null (Some "?") units.*2),
       mkWorld root' tr) /\
    starts tr = starts tr0 ++ map (fun d => (path d, station, d)) days /\
    gets tr = gets tr0 ++ flat_map to_queue units.
Proof.
  intros Hst Hmiss Hstore. unfold get_flux_data.
  assert (Hex : existsb (String.eqb station) station_list = true).
  { apply existsb_exists. exists station. split; [by apply list_elem_of_In|].
    apply String.eqb_refl. }
  rewrite Hex. cbn [negb].
  destruct (lookup_pickle_miss station 1 data_type pickle_dir
              (mkLocals empty_frame (Some "?") false None [] [] [])
              (mkWorld root tr0) Hmiss) as (tr1 & Hlook & Hs1 & Hg1).
  erewrite bind_returns; [|exact Hlook]. cbn [was_pickled negb fs trace] in *.
  destruct (fetch_merge_level1 (mkLocals empty_frame (Some "?") false None [] [] [])
              (mkWorld root tr1) eq_refl)
    as (st' & tr & Hrun & Hdf & Hcv & Hwp & Hs & Hg).
  cbn [df code_version was_pickled trace] in *.
  assert (Hframe : df st' = merged_frame units.*1).
  { rewrite Hdf. unfold merged_frame. by destruct (non_empty_frames units.*1). }
  unfold ingest, mbind, M_bind. rewrite Hrun.
  unfold store_pickle, stored_root, mbind, M_bind, mret, M_ret in *.
  destruct (truthy pickle_dir).
  - destruct pickle_dir as [dir|]; [|done].
    rewrite Hcv, Hframe.
    destruct (last_non_null (Some "?") units.*2) as [cv|] eqn:Ecv; [|done].
    unfold to_pickle. cbn [fs trace]. rewrite Hstore, Hframe, Hcv.
    eexists. split; [reflexivity|].
    rewrite starts_app, gets_app, Hs, Hg, Hs1, Hg1. by rewrite !app_nil_r.
  - simplify_eq. rewrite Hframe, Hcv.
    eexists. split; [reflexivity|]. by rewrite Hs, Hg, Hs1, Hg1.
Qed.

End Level1.

Lemma date_range_length start_day end_day :
  start_day <= end_day ->
  length (date_range start_day end_day) = Z.to_nat (end_day - start_day + 1).
Proof. intros _. unfold date_range. apply length_seqZ. Qed.

Lemma date_range_elem start_day end_day d :
  d ∈ date_range start_day end_day <-> start_day <= d <= end_day.
Proof. unfold date_range. rewrite elem_of_seqZ. lia. Qed.

Lemma date_range_cons start_day end_day :
  start_day <= end_day ->
  date_range start_day end_day
  = start_day :: date_range (start_day + 1) end_day.
Proof.
  intros H. unfold date_range. rewrite seqZ_cons by lia.
  f_equal. f_equal; lia.
Qed.

(** ** The scheduler *)

Lemma known_station station :
  station ∈ station_list -> existsb (String.eqb station) station_list = true.
Proof.
  intros Hst. apply existsb_exists. exists station.
  split; [by apply list_elem_of_In|]. apply String.eqb_refl.
Qed.

Lemma date_range_empty start_day end_day :
  end_day < start_day -> date_range start_day end_day = [].
Proof.
  intros H. unfold date_range, seqZ.
  replace (Z.to_nat (end_day - start_day + 1)) with 0%nat by lia. reflexivity.
Qed.

Lemma date_range_NoDup start_day end_day : NoDup (date_range start_day end_day).
Proof. apply NoDup_seqZ. Qed.

(** The search that finds nothing takes the walk and no other step. *)
Lemma lookup_pickle_miss_steps station level data_type pickle_dir st w :
  cache_miss (fs w) pickle_dir (pickled_filename station level data_type) ->
  lookup_pickle station level data_type pickle_dir st w
  = (Returns st, mkWorld (fs w) (trace w ++ walk_events pickle_dir)).
Proof.
  unfold lookup_pickle, walk_events. intros [Hf|(dir & -> & Hno)].
  - rewrite Hf. destruct pickle_dir; rewrite app_nil_r; by destruct w.
  - destruct (truthy (Some dir)); [|rewrite app_nil_r; by destruct w].
    erewrite bind_returns; [|reflexivity].
    by rewrite scan_dirs_no_match.
Qed.

(** The store of line 135 when the tag is a string and the write succeeds. *)
Lemma store_pickle_steps station level data_type pickle_dir st w root' :
  is_Some (code_version st) ->
  stored_root (fs w) pickle_dir (pickled_filename station level data_type)
              (df st) (code_version st) = Some root' ->
  store_pickle station level data_type pickle_dir st w
  = (Returns st,
     mkWorld root' (trace w ++ store_events pickle_dir
                                 (pickled_filename station level data_type)
                                 (code_version st))).
Proof.
  intros [cv Hcv] Hstore. unfold store_pickle, stored_root, store_events in *.
  destruct (truthy pickle_dir).
  - destruct pickle_dir as [dir|]; [|done]. rewrite Hcv in *.
    unfold mbind, M_bind, to_pickle. by rewrite Hstore.
  - simplify_eq. destruct pickle_dir, (code_version st); rewrite app_nil_r; by destruct w.
Qed.

Section Schedule.

Variable strftime : string -> Z -> string.
Variables station data_dir data_type : string.
Variable nthreads : Z.
Variable root : node.

Hypothesis nthreads_nonzero : nthreads ≠ 0.

Let path (d : Z) : string := level1_file strftime station data_dir data_type d.
Let result (d : Z) : DataFrame * option string := unit_result root (path d).
Let start_event (d : Z) : event := EvStart (path d) station d.

Lemma not_the_last d d' rest l :
  NoDup (d :: d' :: rest) -> last (d :: d' :: rest) = Some l -> (d =? l) = false.
Proof.
  intros Hnd Hl. apply Z.eqb_neq. intros ->.
  apply NoDup_cons in Hnd as [Hnotin _]. apply Hnotin.
  rewrite last_cons_cons in Hl. apply last_Some in Hl as (l' & ->).
  apply elem_of_app. right. apply list_elem_of_here.
Qed.

(** The loop from any point on takes exactly the steps of [schedule]. *)
Lemma fetch_loop_schedule day_series rest : forall d i pending st w,
  q_list st = map to_queue pending ->
  fs w = root ->
  last (d :: rest) = last day_series ->
  NoDup (d :: rest) ->
  Forall (fun x => fetchable root (path x)) (d :: rest) ->
  for_each (day_step strftime station 1 data_dir data_type nthreads day_series)
           (enumerate_from i (d :: rest)) st w
  = (Returns (mkLocals (df st)
                (last_non_null (code_version st)
                               (pending ++ map result (d :: rest)).*2)
                (was_pickled st) (Some "ingest") [] []
                (df_list st
                 ++ non_empty_frames (pending ++ map result (d :: rest)).*1)),
     mkWorld root
       (trace w ++ schedule nthreads start_event result i pending (d :: rest))).
Proof.
  induction rest as [|d' rest IH]; intros d i pending st w Hq Hfs Hlast Hnd Hok.
  - apply Forall_cons in Hok as [Hd _].
    cbn [enumerate_from for_each].
    assert (Hsome : is_Some (last day_series)) by (by rewrite <- Hlast).
    pose proof (day_step_level1 strftime station data_dir data_type nthreads day_series
                  root nthreads_nonzero i d pending st w Hq Hfs Hd Hsome) as Hstep.
    assert (Hb : batch_complete nthreads day_series i d = true).
    { unfold batch_complete. rewrite <- Hlast. cbn [last].
      rewrite Z.eqb_refl. apply orb_true_r. }
    rewrite Hb in Hstep. erewrite bind_returns; [|exact Hstep].
    cbn [schedule map]. rewrite orb_true_r, app_nil_r. reflexivity.
  - apply Forall_cons in Hok as [Hd Hok].
    assert (Hlast' : last (d' :: rest) = last day_series) by (by rewrite <- Hlast).
    assert (Hnd' : NoDup (d' :: rest)) by (by apply NoDup_cons in Hnd as [_ ?]).
    assert (Hsome : is_Some (last day_series)).
    { rewrite <- Hlast'. destruct (last (d' :: rest)) eqn:E; [by eexists|].
      by apply last_None in E. }
    pose proof (day_step_level1 strftime station data_dir data_type nthreads day_series
                  root nthreads_nonzero i d pending st w Hq Hfs Hd Hsome) as Hstep.
    assert (Hb : batch_complete nthreads day_series i d = ((i + 1) mod nthreads =? 0)).
    { unfold batch_complete. rewrite <- Hlast.
      destruct (last (d :: d' :: rest)) as [l|] eqn:El; [|by rewrite orb_false_r].
      by rewrite (not_the_last d d' rest l Hnd El), orb_false_r. }
    rewrite Hb in Hstep.
    change (enumerate_from i (d :: d' :: rest))
      with ((i, d) :: enumerate_from (i + 1) (d' :: rest)).
    cbn [for_each].
    change (schedule nthreads start_event result i pending (d :: d' :: rest))
      with (start_event d ::
            (if ((i + 1) mod nthreads =? 0) || false
             then get_events (pending ++ [result d])
                  ++ schedule nthreads start_event result (i + 1) [] (d' :: rest)
             else schedule nthreads start_event result (i + 1) (pending ++ [result d])
                           (d' :: rest))).
    rewrite orb_false_r.
    change (map result (d :: d' :: rest)) with ([result d] ++ map result (d' :: rest)).
    destruct ((i + 1) mod nthreads =? 0);
      (erewrite bind_returns; [|exact Hstep]).
    + match goal with
      | |- context [for_each _ _ ?s ?w'] =>
          rewrite (IH d' (i + 1) [] s w' eq_refl eq_refl Hlast' Hnd' Hok)
      end.
      cbn [df code_version was_pickled level_str q_list day_list df_list trace].
      rewrite (app_assoc pending), (fmap_app snd (pending ++ [result d])),
        (fmap_app fst (pending ++ [result d])), last_non_null_app,
        non_empty_frames_app, (app_assoc (df_list st)).
      cbn [app]. by rewrite <- !app_assoc.
    + match goal with
      | |- context [for_each _ _ ?s ?w'] =>
          rewrite (IH d' (i + 1) (pending ++ [result d]) s w' eq_refl eq_refl
                      Hlast' Hnd' Hok)
      end.
      cbn [df code_version was_pickled level_str q_list day_list df_list trace].
      rewrite (app_assoc pending). by rewrite <- !app_assoc.
Qed.

Variables start_day end_day : Z.

Let days : list Z := date_range start_day end_day.
Let units : list (DataFrame * option string) := map result days.

Hypothesis all_fetchable : Forall (fun d => fetchable root (path d)) days.

Lemma fetch_merge_schedule st w :
  fs w = root ->
  exists st',
    fetch_merge strftime station start_day end_day 1 data_dir data_type nthreads st w
    = (Returns st',
       mkWorld root (trace w ++ schedule nthreads start_event result 0 [] days
                             ++ [EvConcat (length (non_empty_frames units.*1))])) /\
    df st' = with_time_column
               (match non_empty_frames units.*1 with
                | [] => df st
                | _ :: _ => concat_rows (non_empty_frames units.*1)
                end) /\
    code_version st' = last_non_null (code_version st) units.*2.
Proof.
  intros Hfs. unfold fetch_merge.
  pose proof all_fetchable as Hok. pose proof (date_range_NoDup start_day end_day) as Hnd.
  unfold units, days in *.
  destruct (date_range start_day end_day) as [|d rest].
  - cbn [enumerate enumerate_from for_each map fmap list_fmap non_empty_frames
         List.filter flat_map last_non_null fold_left schedule].
    rewrite bind_ret. erewrite bind_returns; [|apply concat_or_keep_eq].
    eexists. split; [unfold mret, M_ret, log; cbn [fs trace df_list length app];
                     by rewrite Hfs|].
    by cbn [df code_version df_list].
  - unfold enumerate.
    match goal with
    | |- context [for_each ?f (enumerate_from 0 (d :: rest)) ?s] =>
        pose proof (fetch_loop_schedule (d :: rest) rest d 0 [] s w
                      eq_refl Hfs eq_refl Hnd Hok) as Hrun
    end.
    erewrite bind_returns; [|exact Hrun].
    erewrite bind_returns; [|apply concat_or_keep_eq].
    eexists. split; [unfold mret, M_ret, log; cbn [fs trace df_list app];
                     by rewrite <- app_assoc|].
    cbn [app df code_version df_list]. split; reflexivity.
Qed.

(** The whole run at level 1 when the search finds nothing: the walk, the
    steps of [schedule], the concatenation, the store. *)
Lemma level1_run_schedule pickle_dir root' tr0 :
  station ∈ station_list ->
  cache_miss root pickle_dir (pickled_filename station 1 data_type) ->
  stored_root root pickle_dir (pickled_filename station 1 data_type)
              (merged_frame units.*1) (last_non_null (Some "?") units.*2)
  = Some root' ->
  get_flux_data strftime station start_day end_day 1 data_dir data_type nthreads
                pickle_dir (mkWorld root tr0)
  = (Returns (merged_frame units.*1, last_non_null (Some "?") units.*2),
     mkWorld root'
       (tr0 ++ walk_events pickle_dir
            ++ schedule nthreads start_event result 0 [] days
            ++ [EvConcat (length (non_empty_frames units.*1))]
            ++ store_events pickle_dir (pickled_filename station 1 data_type)
                            (last_non_null (Some "?") units.*2))).
Proof.
  intros Hst Hmiss Hstore. unfold get_flux_data.
  rewrite (known_station _ Hst). cbn [negb].
  erewrite bind_returns; [|by apply lookup_pickle_miss_steps].
  cbn [was_pickled negb fs trace].
  destruct (fetch_merge_schedule (mkLocals empty_frame (Some "?") false None [] [] [])
              (mkWorld root (tr0 ++ walk_events pickle_dir)) eq_refl)
    as (st' & Hrun & Hdf & Hcv).
  cbn [df code_version trace] in *.
  assert (Hframe : df st' = merged_frame units.*1).
  { rewrite Hdf. unfold merged_frame. by destruct (non_empty_frames units.*1). }
  erewrite bind_returns;
    [|unfold ingest; erewrite bind_returns; [|exact Hrun];
      apply store_pickle_steps;
      [rewrite Hcv; by apply last_non_null_is_Some
      |cbn [fs]; by rewrite Hframe, Hcv]].
  unfold mret, M_ret. rewrite Hframe, Hcv. cbn [trace].
  by rewrite <- !app_assoc.
Qed.

End Schedule.


Ltac solve_in_station_list :=
  unfold station_list; repeat first [apply list_elem_of_here | apply list_elem_of_further].

Ltac solve_fetchable :=
  first [ left; vm_compute; reflexivity
        | right; do 3 eexists; split; vm_compute; reflexivity ].



(** ** Version reconciliation *)

(** C3. The tag [get_flux_data] returns after an ingest is the last version
    that is not [None] among the units taken in submission order, each such
    version having replaced the running tag (which starts as ["?"]); for
    units with versions [None, "2.1", None, "2.3"] it is ["2.3"]. *)
Theorem version_last_non_null_wins strftime station data_dir data_type nthreads
    start_day end_day pickle_dir root root' :
  let days := date_range start_day end_day in
  let path := level1_file strftime station data_dir data_type in
  let units := map (fun d => unit_result root (path d)) days in
  station ∈ station_list ->
  nthreads ≠ 0 ->
  (forall d, start_day <= d <= end_day -> fetchable root (path d)) ->
  cache_miss root pickle_dir (pickled_filename station 1 data_type) ->
  stored_root root pickle_dir (pickled_filename station 1 data_type)
              (merged_frame units.*1) (last_non_null (Some "?") units.*2)
  = Some root' ->
  (exists res w',
     get_flux_data strftime station start_day end_day 1 data_dir data_type nthreads
                   pickle_dir (mkWorld root [])
     = (Returns res, w') /\
     res.2 = last_non_null (Some "?") units.*2) /\
  (forall v vs, last_non_null (Some "?") (vs ++ [Some v]) = Some v) /\
  (forall vs, last_non_null (Some "?") (vs ++ [None]) = last_non_null (Some "?") vs) /\
  last_non_null (Some "?") [None; Some "2.1"; None; Some "2.3"] = Some "2.3".
Proof.
  intros days path units Hst Hn Hok Hmiss Hstore.
  assert (Hall : Forall (fun d => fetchable root (path d)) days).
  { apply Forall_forall. intros d Hd. apply Hok. by apply date_range_elem. }
  destruct (get_flux_data_miss_level1 strftime station data_dir data_type nthreads
              start_day end_day root Hn Hall pickle_dir root' [] Hst Hmiss Hstore)
    as (tr & Hrun & _).
  split; [|split; [|split]].
  - do 2 eexists. split; [exact Hrun|reflexivity].
  - intros v vs. by rewrite last_non_null_app.
  - intros vs. by rewrite last_non_null_app.
  - reflexivity.
Qed.

Lemma version_last_non_null_wins_witness :
  (map (fun d => unit_result archive_with_gaps
                   (level1_file january_2020 "asfs30" "data/" "slow" d))
       (date_range 1 4)).*2
  = [None; Some "2.1"; None; Some "2.3"] /\
  exists res w',
    get_flux_data january_2020 "asfs30" 1 4 1 "data/" "slow" 2 None
                  (mkWorld archive_with_gaps [])
    = (Returns res, w') /\
    res.2 = Some "2.3".
Proof.
  split; [vm_compute; reflexivity|].
  edestruct (version_last_non_null_wins january_2020 "asfs30" "data/" "slow" 2 1 4
               None archive_with_gaps)
    as ((res & w' & Hrun & Hres) & _).
  - solve_in_station_list.
  - lia.
  - intros d Hd.
    assert (d = 1 \/ d = 2 \/ d = 3 \/ d = 4) as [->|[->|[->| ->]]] by lia;
      solve_fetchable.
  - by left.
  - reflexivity.
  - exists res, w'. split; [exact Hrun|]. rewrite Hres. vm_compute. reflexivity.
Defined.

(** ** A range without files *)






(** ** The path of a day's file *)

Lemma locate_unbound strftime station level data_dir data_type today w :
  level ≠ 1 ->
  locate strftime station level data_dir data_type today None w
  = (Raises UnboundLocalError, w).
Proof.
  intros H. unfold locate. destruct (Z.eqb_spec level 1) as [->|_]; [done|reflexivity].
Qed.

(** C4, what the code does at levels 2 and 3 (and at any level other than
    1): the first pass of the day loop reads [level_str] before any
    assignment to it has run, so the call raises [UnboundLocalError]; no
    worker has been started.  The assignments of ['product'] and ['archive']
    stand after the lines that use the name. *)
Theorem level_str_unbound_beyond_level1 strftime station level data_dir data_type
    nthreads start_day end_day pickle_dir root tr0 :
  station ∈ station_list ->
  level ≠ 1 ->
  start_day <= end_day ->
  nthreads ≠ 0 ->
  cache_miss root pickle_dir (pickled_filename station level data_type) ->
  exists tr,
    get_flux_data strftime station start_day end_day level data_dir data_type
                  nthreads pickle_dir (mkWorld root tr0)
    = (Raises UnboundLocalError, mkWorld root tr) /\
    starts tr = starts tr0.
Proof.
  intros Hst Hlevel Hle Hn Hmiss. unfold get_flux_data.
  assert (Hex : existsb (String.eqb station) station_list = true).
  { apply existsb_exists. exists station. split; [by apply list_elem_of_In|].
    apply String.eqb_refl. }
  rewrite Hex. cbn [negb].
  destruct (lookup_pickle_miss station level data_type pickle_dir
              (mkLocals empty_frame (Some "?") false None [] [] [])
              (mkWorld root tr0) Hmiss) as (tr1 & Hlook & Hs1 & _).
  erewrite bind_returns; [|exact Hlook]. cbn [was_pickled negb fs trace] in *.
  exists tr1. split; [|exact Hs1].
  apply bind_raises. unfold ingest. apply bind_raises.
  unfold fetch_merge. rewrite date_range_cons by done.
  apply bind_raises. unfold enumerate. cbn [enumerate_from for_each].
  apply bind_raises. unfold day_step.
  erewrite bind_returns; [|by apply py_mod_nonzero].
  apply bind_raises. by apply locate_unbound.
Qed.

Lemma level_str_unbound_beyond_level1_witness :
  exists tr,
    get_flux_data january_2020 "asfs30" 2 2 2 "data/" "slow" 1 None
                  (mkWorld archive_with_gaps [])
    = (Raises UnboundLocalError, mkWorld archive_with_gaps tr) /\
    starts tr = [].
Proof.
  apply (level_str_unbound_beyond_level1 january_2020 "asfs30" 2 "data/" "slow" 1 2 2
           None archive_with_gaps []).
  - solve_in_station_list.
  - lia.
  - lia.
  - lia.
  - by left.
Defined.

(** Levels 2 and 3 on a concrete call, and level 1 beside them. *)
Lemma level_2_and_3_raise :
  (get_flux_data january_2020 "tower" 2 2 2 "data/" "slow" 1 None
                 (mkWorld archive_with_gaps [])).1 = Raises UnboundLocalError /\
  (get_flux_data january_2020 "asfs30" 2 2 3 "data/" "slow" 1 None
                 (mkWorld archive_with_gaps [])).1 = Raises UnboundLocalError /\
  (locate january_2020 "asfs30" 1 "data/" "slow" 2 None (mkWorld archive_with_gaps [])).1
  = Returns ("data/asfs30/1_level_ingest_asfs30//mosasfs30slow.level1.20200102.000000.nc",
             Some "ingest").
Proof. repeat split; vm_compute; reflexivity. Qed.

(** ** The pickle cache *)

Lemma append_assoc (a b c : string) : (a +:+ b) +:+ c = a +:+ b +:+ c.
Proof.
  induction a as [|x a IH]; [done|].
  change (String x ((a +:+ b) +:+ c) = String x (a +:+ b +:+ c)). by f_equal.
Qed.

Lemma length_append (a b : string) :
  String.length (a +:+ b) = (String.length a + String.length b)%nat.
Proof.
  induction a as [|x a IH]; [done|].
  change (S (String.length (a +:+ b)) = S (String.length a + String.length b)).
  by f_equal.
Qed.

Lemma has_char_append c a b : has_char c (a +:+ b) = has_char c a || has_char c b.
Proof.
  induction a as [|x a IH]; [done|].
  change (Ascii.eqb x c || has_char c (a +:+ b)
          = Ascii.eqb x c || has_char c a || has_char c b).
  by rewrite IH, orb_assoc.
Qed.

Lemma rsplit_absent sep s : has_char sep s = false -> PyStr.rsplit sep s = None.
Proof.
  induction s as [|a s IH]; [done|]. cbn. intros [Ha Hs]%orb_false_iff.
  by rewrite IH, Ha.
Qed.

Lemma rsplit_last sep h t :
  has_char sep t = false ->
  PyStr.rsplit sep (h +:+ String sep t) = Some (h, t).
Proof.
  intros Ht. induction h as [|a h IH].
  - change (PyStr.rsplit sep (String sep t) = Some (EmptyString, t)).
    cbn [PyStr.rsplit]. by rewrite rsplit_absent, Ascii.eqb_refl.
  - change (PyStr.rsplit sep (String a (h +:+ String sep t)) = Some (String a h, t)).
    cbn [PyStr.rsplit]. by rewrite IH.
Qed.

Lemma contains_prefix key rest : PyStr.contains key (key +:+ rest) = true.
Proof.
  assert (H : String.prefix key (key +:+ rest) = true).
  { induction key as [|a key IH]; [by destruct rest|].
    change (String.prefix (String a key) (String a (key +:+ rest)) = true).
    cbn [String.prefix]. destruct (Ascii.ascii_dec a a); [exact IH|done]. }
  destruct (key +:+ rest) eqn:E; cbn [PyStr.contains]; by rewrite H.
Qed.

Lemma length_slice0 n s : (String.length (PyStr.slice0 n s) <= n)%nat.
Proof.
  revert s. induction n as [|n IH]; intros [|a s]; cbn; try lia.
  specialize (IH s). lia.
Qed.

Lemma slice0_short n s : (String.length s <= n)%nat -> PyStr.slice0 n s = s.
Proof.
  revert s. induction n as [|n IH]; intros [|a s]; cbn; intros H; try done; try lia.
  rewrite IH; [done|lia].
Qed.

(** The tag rebuilt from the name of a stored pickle: the first three
    characters of the stored tag, then two dots. *)
Lemma version_from_pickle_name dir key v :
  has_char "_" (PyStr.slice0 3 v) = false ->
  version_from_filename (dir +:+ pickle_name key v) = PyStr.slice0 3 v +:+ "..".
Proof.
  intros Hv. unfold version_from_filename, pickle_name, PyStr.rpartition.
  replace (dir +:+ key +:+ "_" +:+ PyStr.slice0 3 v +:+ ".pkl")
    with ((dir +:+ key) +:+ String "_" (PyStr.slice0 3 v +:+ ".pkl"))
    by (by rewrite append_assoc).
  rewrite rsplit_last by (by rewrite has_char_append, Hv).
  cbn [snd].
  change (PyStr.slice0 3 v +:+ ".pkl") with (PyStr.slice0 3 v +:+ String "." "pkl").
  by rewrite rsplit_last.
Qed.

(** C10 as stated fails for a tag longer than three characters that ends in
    two dots after its third character: with the version ["2.1.."] in the
    file, the fresh ingest returns ["2.1.."], writes the pickle, and the next
    call, a cache hit, returns ["2.1.."] again. *)
Lemma dotted_version_round_trips :
  exists d root1,
    get_flux_data january_2020 "asfs30" 2 2 1 "data/" "slow" 1 (Some "cache/")
                  (mkWorld archive_dotted_version [])
    = (Returns (d, Some "2.1.."),
       mkWorld root1 [EvWalk "cache/";
                      EvStart "data/asfs30/1_level_ingest_asfs30//mosasfs30slow.level1.20200102.000000.nc"
                              "asfs30" 2;
                      EvGet (MFrame (mkDF [200] [("temp", [Num 11])]));
                      EvGet (MVersion (Some "2.1.."));
                      EvConcat 1;
                      EvWritePickle "cache//asfs30_1_slow_df_2.1.pkl"]) /\
    get_flux_data january_2020 "asfs30" 2 2 1 "data/" "slow" 1 (Some "cache/")
                  (mkWorld root1 [])
    = (Returns (d, Some "2.1.."),
       mkWorld root1 [EvWalk "cache/"; EvReadPickle "cache/asfs30_1_slow_df_2.1.pkl"]) /\
    (3 < String.length "2.1..")%nat.
Proof.
  do 2 eexists. split; [vm_compute; reflexivity|].
  split; [vm_compute; reflexivity|]. cbn; lia.
Qed.

(** The search for a pickle only walks and reads: it leaves the files as
    they are and logs no step of the ingest path. *)
Lemma scan_files_trace dir key files st w :
  exists l,
    (scan_files dir key files st w).2 = mkWorld (fs w) (trace w ++ l) /\
    List.filter is_ingest_work l = [].
Proof.
  induction files as [|f files IH]; cbn [scan_files].
  - exists []. rewrite app_nil_r. by destruct w.
  - destruct (PyStr.contains key f); [|exact IH].
    exists [EvReadPickle (dir +:+ f)]. split; [|done].
    unfold mbind, M_bind, read_pickle, log.
    by destruct (resolve (fs w) (split_path (dir +:+ f))) as [[[]|]|].
Qed.

Lemma scan_dirs_trace dir key dirs : forall st w,
  exists l,
    (for_each (scan_files dir key) dirs st w).2 = mkWorld (fs w) (trace w ++ l) /\
    List.filter is_ingest_work l = [].
Proof.
  induction dirs as [|files dirs IH]; intros st w; cbn [for_each].
  - exists []. rewrite app_nil_r. by destruct w.
  - destruct (scan_files_trace dir key files st w) as (l1 & H1 & Hl1).
    unfold mbind, M_bind.
    destruct (scan_files dir key files st w) as [[st1|e|] w1]; cbn [snd] in H1; subst w1.
    + destruct (IH st1 (mkWorld (fs w) (trace w ++ l1))) as (l2 & H2 & Hl2).
      exists (l1 ++ l2). cbn [fs trace] in H2. rewrite H2, <- app_assoc.
      split; [done|]. by rewrite List.filter_app, Hl1, Hl2.
    + by exists l1.
    + by exists l1.
Qed.

Lemma lookup_pickle_trace station level data_type pickle_dir st w :
  exists l,
    (lookup_pickle station level data_type pickle_dir st w).2
    = mkWorld (fs w) (trace w ++ l) /\
    List.filter is_ingest_work l = [].
Proof.
  unfold lookup_pickle.
  destruct (truthy pickle_dir), pickle_dir as [dir|];
    try (exists []; rewrite app_nil_r; by destruct w).
  unfold mbind, M_bind, walk_dirs.
  destruct (scan_dirs_trace dir (pickled_filename station level data_type)
              (os_walk (fs w) dir) st (log (EvWalk dir) w)) as (l & H & Hl).
  destruct (for_each _ _ st (log (EvWalk dir) w)) as [[st1|e|] w1] eqn:E;
    cbn [snd fs trace log] in *; subst w1;
    exists (EvWalk dir :: l); by rewrite <- app_assoc.
Qed.

(** When the search loaded a pickle, the call returns it as it is: nothing is
    fetched, scheduled, merged or stored. *)
Lemma cache_hit_skips_ingest strftime station start_day end_day level data_dir
    data_type nthreads pickle_dir w st w' :
  station ∈ station_list ->
  lookup_pickle station level data_type pickle_dir
                (mkLocals empty_frame (Some "?") false None [] [] []) w
  = (Returns st, w') ->
  was_pickled st = true ->
  get_flux_data strftime station start_day end_day level data_dir data_type nthreads
                pickle_dir w
  = (Returns (df st, code_version st), w') /\
  fs w' = fs w /\
  List.filter is_ingest_work (trace w') = List.filter is_ingest_work (trace w).
Proof.
  intros Hst Hlook Hhit. unfold get_flux_data.
  assert (Hex : existsb (String.eqb station) station_list = true).
  { apply existsb_exists. exists station. split; [by apply list_elem_of_In|].
    apply String.eqb_refl. }
  rewrite Hex. cbn [negb]. erewrite bind_returns; [|exact Hlook].
  rewrite Hhit. cbn [negb]. split; [reflexivity|].
  destruct (lookup_pickle_trace station level data_type pickle_dir
              (mkLocals empty_frame (Some "?") false None [] [] []) w) as (l & H & Hl).
  rewrite Hlook in H. cbn [snd] in H. subst w'. cbn [fs trace].
  split; [done|]. by rewrite List.filter_app, Hl, app_nil_r.
Qed.

(** C6, where the code departs from the claim.  With the cache directory
    given as ["cache"], the ingest writes the pickle to [cache/KEY_2.3.pkl];
    the next call with the same station, level, data type and directory
    finds that name in the walk, then reads [pickle_dir + filename], which
    is ["cacheKEY_2.3.pkl"], and raises [FileNotFoundError] instead of
    returning the stored table.  Given as ["cache/"], the stored table comes
    back. *)
Theorem pickle_lookup_joins_without_separator :
  get_flux_data january_2020 "asfs30" 1 4 1 "data/" "slow" 2 (Some "cache")
                (mkWorld archive_with_gaps [])
  = (Returns (frame_of_gaps, Some "2.3"),
     mkWorld archive_with_pickle
       [EvWalk "cache";
        EvStart "data/asfs30/1_level_ingest_asfs30//mosasfs30slow.level1.20200101.000000.nc"
                "asfs30" 1;
        EvStart "data/asfs30/1_level_ingest_asfs30//mosasfs30slow.level1.20200102.000000.nc"
                "asfs30" 2;
        EvGet (MFrame empty_frame); EvGet (MVersion None);
        EvGet (MFrame (mkDF [200] [("temp", [Num 11])])); EvGet (MVersion (Some "2.1"));
        EvStart "data/asfs30/1_level_ingest_asfs30//mosasfs30slow.level1.20200103.000000.nc"
                "asfs30" 3;
        EvStart "data/asfs30/1_level_ingest_asfs30//mosasfs30slow.level1.20200104.000000.nc"
                "asfs30" 4;
        EvGet (MFrame empty_frame); EvGet (MVersion None);
        EvGet (MFrame (mkDF [400] [("temp", [Num 13])])); EvGet (MVersion (Some "2.3"));
        EvConcat 2;
        EvWritePickle "cache/asfs30_1_slow_df_2.3.pkl"]) /\
  os_walk archive_with_pickle "cache" = [["asfs30_1_slow_df_2.3.pkl"]] /\
  get_flux_data january_2020 "asfs30" 1 4 1 "data/" "slow" 2 (Some "cache")
                (mkWorld archive_with_pickle [])
  = (Raises FileNotFoundError,
     mkWorld archive_with_pickle
       [EvWalk "cache"; EvReadPickle "cacheasfs30_1_slow_df_2.3.pkl"]) /\
  get_flux_data january_2020 "asfs30" 1 4 1 "data/" "slow" 2 (Some "cache/")
                (mkWorld archive_with_pickle [])
  = (Returns (frame_of_gaps, Some "2.3.."),
     mkWorld archive_with_pickle
       [EvWalk "cache/"; EvReadPickle "cache/asfs30_1_slow_df_2.3.pkl"]).
Proof.
  split; [vm_compute; reflexivity|]. split; [vm_compute; reflexivity|].
  split; vm_compute; reflexivity.
Qed.

(** C7, where the code departs from the claim.  In a cache directory with a
    subdirectory, the walk meets [asfs30_1_slow_df_1.0.pkl] first and loads
    it; the [break] leaves only the inner loop, so the walk goes on into
    [old], meets a second matching name there and loads [pickle_dir +
    filename] again, the pickle of that name in the top directory.  The call
    returns that table and not the first match.  No step of the ingest path
    runs. *)
Theorem lookup_returns_a_later_match :
  os_walk cache_with_subdirectory "cache/"
  = [["asfs30_1_slow_df_1.0.pkl"; "asfs30_1_slow_df_2.0.pkl"];
     ["asfs30_1_slow_df_2.0.pkl"]] /\
  resolve cache_with_subdirectory (split_path "cache/asfs30_1_slow_df_1.0.pkl")
  = Some (File (Pickle frame_a)) /\
  get_flux_data january_2020 "asfs30" 1 4 1 "data/" "slow" 2 (Some "cache/")
                (mkWorld cache_with_subdirectory [])
  = (Returns (frame_b, Some "2.0.."),
     mkWorld cache_with_subdirectory
       [EvWalk "cache/"; EvReadPickle "cache/asfs30_1_slow_df_1.0.pkl";
        EvReadPickle "cache/asfs30_1_slow_df_2.0.pkl"]) /\
  frame_b ≠ frame_a.
Proof.
  split; [vm_compute; reflexivity|]. split; [vm_compute; reflexivity|].
  split; [vm_compute; reflexivity|]. discriminate.
Qed.

(** ** Tables side by side *)

Lemma append_inj_l (a b s : string) : a +:+ s = b +:+ s -> a = b.
Proof.
  revert b. induction a as [|x a IH]; intros [|y b] H.
  - done.
  - apply (f_equal String.length) in H.
    change (String.length s = S (String.length (b +:+ s))) in H.
    rewrite length_append in H. lia.
  - apply (f_equal String.length) in H.
    change (S (String.length (a +:+ s)) = String.length s) in H.
    rewrite length_append in H. lia.
  - change (String x (a +:+ s) = String y (b +:+ s)) in H. simplify_eq.
    f_equal. by apply IH.
Qed.

Lemma append_inj_r (a b s1 s2 : string) :
  String.length s1 = String.length s2 -> a +:+ s1 = b +:+ s2 -> s1 = s2.
Proof.
  intros Hlen. revert b. induction a as [|x a IH]; intros [|y b] H.
  - done.
  - apply (f_equal String.length) in H.
    change (String.length s1 = S (String.length (b +:+ s2))) in H.
    rewrite length_append in H. lia.
  - apply (f_equal String.length) in H.
    change (S (String.length (a +:+ s1)) = String.length s2) in H.
    rewrite length_append in H. lia.
  - change (String x (a +:+ s1) = String y (b +:+ s2)) in H. simplify_eq.
    by eapply IH.
Qed.

Lemma get_column_app n l1 l2 :
  get_column n (l1 ++ l2)
  = match get_column n l1 with Some c => Some c | None => get_column n l2 end.
Proof.
  induction l1 as [|[m c] l1 IH]; [done|]. cbn [app get_column].
  by destruct (String.eqb m n).
Qed.

Lemma get_column_map n (g : list cell -> list cell) l :
  get_column n (map (fun nc => (nc.1, g nc.2)) l) = g <$> get_column n l.
Proof.
  induction l as [|[m c] l IH]; [done|]. cbn [map get_column fst snd].
  by destruct (String.eqb m n).
Qed.

Lemma get_column_suffix n s l :
  get_column (n +:+ s) (map (fun nc => (nc.1 +:+ s, nc.2)) l) = get_column n l.
Proof.
  induction l as [|[m c] l IH]; [done|]. cbn [map get_column fst snd].
  destruct (String.eqb_spec m n) as [->|Hne].
  - by rewrite String.eqb_refl.
  - destruct (String.eqb_spec (m +:+ s) (n +:+ s)) as [He|_]; [|exact IH].
    by apply append_inj_l in He.
Qed.

Lemma elem_ofb_spec t l : elem_ofb t l = true <-> t ∈ l.
Proof.
  unfold elem_ofb. rewrite existsb_exists. split.
  - intros (x & Hx & ->%Z.eqb_eq). by apply list_elem_of_In.
  - intros H. exists t. split; [by apply list_elem_of_In|apply Z.eqb_refl].
Qed.

Lemma cell_at_absent idx col t : t ∉ idx -> cell_at idx col t = NaN.
Proof.
  revert col. induction idx as [|i idx IH]; intros [|c col] H; try done.
  cbn [cell_at]. destruct (Z.eqb_spec i t) as [->|_].
  - exfalso. apply H. left.
  - apply IH. intros Hin. apply H. by right.
Qed.

Lemma cell_at_map (f : Z -> cell) idx t :
  t ∈ idx -> cell_at idx (map f idx) t = f t.
Proof.
  induction idx as [|i idx IH]; intros H; [by apply elem_of_nil in H|].
  cbn [map cell_at]. destruct (Z.eqb_spec i t) as [->|Hne]; [done|].
  apply IH. apply elem_of_cons in H as [->|H]; done.
Qed.

Lemma cell_at_reindex old new col t :
  (t ∈ old -> t ∈ new) ->
  cell_at new (reindex old new col) t = cell_at old col t.
Proof.
  intros H. unfold reindex. case_bool_decide as E; [by subst|].
  destruct (decide (t ∈ new)) as [Hin|Hout].
  - by apply cell_at_map.
  - rewrite (cell_at_absent new) by done.
    symmetry. apply cell_at_absent. intros Hold. by apply Hout, H.
Qed.

Lemma elem_of_fresh_labels a b t :
  t ∈ a ++ List.filter (fun t => negb (elem_ofb t a)) b <-> t ∈ a \/ t ∈ b.
Proof.
  rewrite elem_of_app. split.
  - intros [H|H]; [by left|]. right.
    apply list_elem_of_In, List.filter_In in H as [H _]. by apply list_elem_of_In.
  - intros [H|H]; [by left|]. destruct (elem_ofb t a) eqn:E.
    + left. by apply elem_ofb_spec.
    + right. apply list_elem_of_In, List.filter_In.
      split; [by apply list_elem_of_In|]. by rewrite E.
Qed.

Lemma elem_of_union_index a b t : t ∈ union_index a b <-> t ∈ a \/ t ∈ b.
Proof.
  unfold union_index. case_bool_decide as E; [subst; tauto|].
  destruct a as [|x a], b as [|y b]; try (rewrite !elem_of_nil; tauto).
  rewrite merge_sort_Permutation. apply elem_of_fresh_labels.
Qed.

Lemma union_index_l a b t : t ∈ a -> t ∈ union_index a b.
Proof. intros H. apply elem_of_union_index. by left. Qed.

Lemma union_index_r a b t : t ∈ b -> t ∈ union_index a b.
Proof. intros H. apply elem_of_union_index. by right. Qed.

Lemma is_unique_NoDup l : is_unique l = true <-> NoDup l.
Proof.
  induction l as [|t l IH]; cbn [is_unique]; [split; [constructor|done]|].
  rewrite andb_true_iff, negb_true_iff, IH, NoDup_cons.
  assert (elem_ofb t l = false <-> t ∉ l); [|tauto].
  rewrite <- elem_ofb_spec. by destruct (elem_ofb t l).
Qed.

Lemma NoDup_fresh_labels a b :
  NoDup a -> NoDup b -> NoDup (a ++ List.filter (fun t => negb (elem_ofb t a)) b).
Proof.
  intros Ha Hb. apply NoDup_app. split; [done|]. split.
  - intros t Hin Hf. apply list_elem_of_In, List.filter_In in Hf as [_ Hf].
    apply elem_ofb_spec in Hin. by rewrite Hin in Hf.
  - induction Hb as [|y b Hy _ IH]; cbn [List.filter]; [constructor|].
    destruct (negb (elem_ofb y a)); [|done]. apply NoDup_cons. split; [|done].
    intros Hin. apply Hy.
    apply list_elem_of_In, List.filter_In in Hin as [Hin _]. by apply list_elem_of_In.
Qed.

Lemma union_index_NoDup a b : NoDup a -> NoDup b -> NoDup (union_index a b).
Proof.
  intros Ha Hb. unfold union_index. case_bool_decide; [done|].
  destruct a as [|x a], b as [|y b]; try done.
  rewrite merge_sort_Permutation. by apply NoDup_fresh_labels.
Qed.

Lemma joinable_unique a b : NoDup a -> NoDup b -> joinable a b = true.
Proof.
  intros Ha%is_unique_NoDup Hb%is_unique_NoDup. unfold joinable.
  rewrite Ha, Hb. destruct (bool_decide (a = b)), a, b; done.
Qed.

Lemma kept_refl n d : kept n d d.
Proof. split; [done|]. intros col H. by exists col. Qed.

Lemma kept_trans n m1 m2 d : kept n m1 m2 -> kept n m2 d -> kept n m1 d.
Proof.
  intros [Hi1 Hc1] [Hi2 Hc2]. split; [by auto|].
  intros col H. destruct (Hc2 col H) as (col2 & H2 & Hcell2).
  destruct (Hc1 col2 H2) as (col1 & H1 & Hcell1).
  exists col1. split; [done|]. intros t. by rewrite Hcell1.
Qed.

(** The left table keeps every column. *)
Lemma kept_join_left n a b : kept n (join_columns a b) a.
Proof.
  split; cbn [join_columns index columns].
  - intros t. apply union_index_l.
  - intros col H. rewrite get_column_app, get_column_map, H. cbn.
    eexists. split; [reflexivity|]. intros t. apply cell_at_reindex, union_index_l.
Qed.

(** The right table keeps a column whose name the left table does not use. *)
Lemma kept_join_right n a b :
  get_column n (columns a) = None -> kept n (join_columns a b) b.
Proof.
  intros Hnone. split; cbn [join_columns index columns].
  - intros t. apply union_index_r.
  - intros col H. rewrite get_column_app, !get_column_map, Hnone, H. cbn.
    eexists. split; [reflexivity|]. intros t. apply cell_at_reindex, union_index_r.
Qed.

Lemma join_columns_not_empty a b :
  is_empty a = false -> is_empty (join_columns a b) = false.
Proof.
  unfold is_empty, join_columns. cbn [index columns].
  destruct (index a) as [|i ia] eqn:Ei; [done|].
  destruct (columns a) as [|c ca]; [done|]. intros _.
  destruct (union_index (i :: ia) (index b)) as [|u us] eqn:Eu; [|done].
  assert (H : i ∈ union_index (i :: ia) (index b))
    by apply union_index_l, list_elem_of_here.
  rewrite Eu in H. by apply elem_of_nil in H.
Qed.

(** A table labelled for one station has no column that ends in the label of
    another station of the same length. *)
Lemma no_foreign_column s x c d :
  labelled s d -> s ≠ x -> String.length s = String.length x ->
  get_column (c +:+ "_" +:+ x) (columns d) = None.
Proof.
  intros [->|(t & ->)] Hne Hlen; [done|]. unfold add_suffix. cbn [columns].
  induction (columns t) as [|[m col] l IH]; [done|]. cbn [map get_column fst snd].
  destruct (String.eqb_spec (m +:+ "_" +:+ s) (c +:+ "_" +:+ x)) as [He|_]; [|exact IH].
  exfalso. apply Hne.
  assert (H : "_" +:+ s = "_" +:+ x).
  { eapply append_inj_r; [|exact He].
    change (S (String.length s) = S (String.length x)). by f_equal. }
  change (String "_" s = String "_" x) in H. by simplify_eq.
Qed.

Lemma no_foreign_column_join n a b :
  get_column n (columns a) = None -> get_column n (columns b) = None ->
  get_column n (columns (join_columns a b)) = None.
Proof.
  intros Ha Hb. cbn [join_columns columns].
  by rewrite get_column_app, !get_column_map, Ha, Hb.
Qed.

(** On frames with unique row labels [pd.concat] is the outer join, and the
    loop of lines 187-189 returns the joined table. *)
Lemma concat_columns_unique cr a b :
  NoDup (index a) -> NoDup (index b) ->
  concat_columns cr a b = Returns (join_columns a b).
Proof.
  intros Ha Hb. unfold concat_columns. by rewrite joinable_unique.
Qed.

Lemma merge_into_unique cr ds : forall acc,
  NoDup (index acc) ->
  Forall (fun d => NoDup (index d)) ds ->
  merge_into cr acc ds
  = Returns (fold_left (fun acc d => if is_empty acc then d else join_columns acc d)
                       ds acc).
Proof.
  induction ds as [|d ds IH]; intros acc Hacc Hds; [done|].
  apply Forall_cons in Hds as [Hd Hds]. cbn [merge_into fold_left].
  destruct (is_empty acc).
  - rewrite outcome_bind_returns. by apply IH.
  - rewrite concat_columns_unique, outcome_bind_returns by done.
    apply IH; [|done]. cbn [join_columns index]. by apply union_index_NoDup.
Qed.

Lemma merge_frames_unique cr ds :
  Forall (fun d => NoDup (index d)) ds ->
  merge_frames cr ds = Returns (joined_frames ds).
Proof. intros H. apply merge_into_unique; [constructor|done]. Qed.

(** ** The multi-station merge of one day *)

Lemma get_asfs_data_fetchable root curr_file curr_station today :
  fetchable root curr_file ->
  Quicklooks.get_asfs_data root curr_file curr_station today []
  = (Returns tt, to_queue (sled_result root curr_file curr_station)).
Proof.
  unfold fetchable, Quicklooks.get_asfs_data, sled_result, to_queue, isfile, open_dataset.
  intros [H|(rows & attrs & v & H & Hv)].
  - destruct (resolve root (split_path curr_file)) as [[c|es]|]; try done.
  - rewrite H. simpl. by rewrite Hv.
Qed.

Lemma sled_result_labelled root curr_file station :
  labelled station (sled_result root curr_file station).1.
Proof.
  unfold sled_result, labelled.
  destruct (resolve root (split_path curr_file)) as [[[rows attrs| |]|]|]; cbn [fst];
    eauto.
Qed.

Lemma sled_result_unique root curr_file station :
  unique_rows root curr_file ->
  NoDup (index (sled_result root curr_file station).1).
Proof.
  unfold unique_rows, sled_result.
  destruct (resolve root (split_path curr_file)) as [[[rows attrs| |]|]|]; cbn [fst];
    try (intros _; constructor).
  intros H. by apply is_unique_NoDup.
Qed.

Lemma joined_frames_three d30 d40 d50 :
  joined_frames [d30; d40; d50]
  = (let m2 := if is_empty d30 then d40 else join_columns d30 d40 in
     if is_empty m2 then d50 else join_columns m2 d50).
Proof. reflexivity. Qed.

(** Of three tables labelled for the three sleds, every one that is not empty
    keeps each of its columns in the joined table of the day. *)
Lemma joined_frames_kept d30 d40 d50 x dx c :
  labelled "asfs30" d30 -> labelled "asfs40" d40 -> labelled "asfs50" d50 ->
  (x = "asfs30" /\ dx = d30) \/ (x = "asfs40" /\ dx = d40) \/ (x = "asfs50" /\ dx = d50) ->
  is_empty dx = false ->
  kept (c +:+ "_" +:+ x) (joined_frames [d30; d40; d50]) dx.
Proof.
  intros L30 L40 L50 Hx Hne. rewrite joined_frames_three. cbv zeta.
  destruct Hx as [[-> ->]|[[-> ->]|[-> ->]]].
  - rewrite Hne, join_columns_not_empty by done.
    eapply kept_trans; apply kept_join_left.
  - assert (H2 : kept (c +:+ "_" +:+ "asfs40")
                      (if is_empty d30 then d40 else join_columns d30 d40) d40).
    { destruct (is_empty d30); [apply kept_refl|].
      apply kept_join_right. by apply (no_foreign_column "asfs30"). }
    assert (E2 : is_empty (if is_empty d30 then d40 else join_columns d30 d40) = false).
    { destruct (is_empty d30) eqn:E; [done|]. by apply join_columns_not_empty. }
    rewrite E2. eapply kept_trans; [apply kept_join_left|exact H2].
  - destruct (is_empty (if is_empty d30 then d40 else join_columns d30 d40));
      [apply kept_refl|].
    apply kept_join_right. destruct (is_empty d30).
    + by apply (no_foreign_column "asfs40").
    + apply no_foreign_column_join.
      * by apply (no_foreign_column "asfs30").
      * by apply (no_foreign_column "asfs40").
Qed.

Ltac day_simpl :=
  cbn [Quicklooks.df_today Quicklooks.q_dict Quicklooks.df_dict Quicklooks.code_version
       fs trace log].

Section DayFrame.

Variable strftime : string -> Z -> string.
Variable data_dir : string.
Variable concat_repeated_labels : DataFrame -> DataFrame -> outcome DataFrame.
Variable today : Z.
Variable root : node.

Let file (s : string) : string := sled_file strftime data_dir s today.
Let result (s : string) : DataFrame * option string := sled_result root (file s) s.

Lemma start_station_run s site st w :
  Quicklooks.site_strs !! s = Some site ->
  fetchable root (file s) ->
  fs w = root ->
  Quicklooks.start_station strftime data_dir today s st w
  = (Returns (Quicklooks.mkDay (Quicklooks.df_today st)
                (<[s := to_queue (result s)]> (Quicklooks.q_dict st))
                (Quicklooks.df_dict st) (Quicklooks.code_version st)),
     log (EvStart (file s) s today) w).
Proof.
  intros Hsite Hok Hfs. unfold Quicklooks.start_station, Quicklooks.dict_get.
  rewrite Hsite. rewrite bind_ret.
  assert (Hfile : file s
                  = (data_dir +:+ s +:+ "/1_level_ingest_" +:+ s +:+ "/")
                    +:+ ("/slow_preliminary_" +:+ s +:+ "." +:+ site +:+ "."
                         +:+ strftime "%Y%m%d" today +:+ ".nc")).
  { unfold file, sled_file. by rewrite Hsite. }
  rewrite <- Hfile.
  erewrite bind_returns; [|reflexivity].
  rewrite Hfs, get_asfs_data_fetchable by done. reflexivity.
Qed.

Lemma collect_station_run s r st w :
  Quicklooks.q_dict st !! s = Some (to_queue r) ->
  Quicklooks.collect_station s st w
  = (Returns (Quicklooks.mkDay (Quicklooks.df_today st)
                (<[s := []]> (Quicklooks.q_dict st))
                (<[s := r.1]> (Quicklooks.df_dict st))
                (match r.2 with Some _ => r.2 | None => Quicklooks.code_version st end)),
     mkWorld (fs w) (trace w ++ [EvGet (MFrame r.1); EvGet (MVersion r.2)])).
Proof.
  intros Hq. unfold Quicklooks.collect_station, Quicklooks.dict_get. rewrite Hq.
  rewrite bind_ret. unfold to_queue.
  erewrite bind_returns; [|reflexivity]. cbv beta iota zeta.
  erewrite bind_returns; [|reflexivity]. cbv beta iota zeta.
  unfold mret, M_ret, log. cbn [fs trace]. by rewrite <- app_assoc.
Qed.

(** Lines 187-189 for one station: the concatenation may raise; nothing else
    changes. *)
Lemma merge_station_run s d st w :
  Quicklooks.df_dict st !! s = Some d ->
  Quicklooks.merge_station concat_repeated_labels s st w
  = (m ← (if is_empty (Quicklooks.df_today st) then Returns d
          else concat_columns concat_repeated_labels (Quicklooks.df_today st) d);
     Returns (Quicklooks.mkDay m (Quicklooks.q_dict st) (Quicklooks.df_dict st)
                               (Quicklooks.code_version st)),
     w).
Proof.
  intros Hd. unfold Quicklooks.merge_station, Quicklooks.dict_get. rewrite Hd.
  rewrite bind_ret. unfold mbind at 1, M_bind, lift.
  by destruct (if is_empty (Quicklooks.df_today st) then _ else _).
Qed.

(** The third loop over any stations whose tables are in [df_dict]. *)
Lemma merge_loop (f : string -> DataFrame) ss : forall st w,
  (forall s, s ∈ ss -> Quicklooks.df_dict st !! s = Some (f s)) ->
  for_each (Quicklooks.merge_station concat_repeated_labels) ss st w
  = (m ← merge_into concat_repeated_labels (Quicklooks.df_today st) (map f ss);
     Returns (Quicklooks.mkDay m (Quicklooks.q_dict st) (Quicklooks.df_dict st)
                               (Quicklooks.code_version st)),
     w).
Proof.
  induction ss as [|s ss IH]; intros st w Hd; cbn [for_each map merge_into].
  - by destruct st.
  - unfold mbind at 1, M_bind at 1.
    rewrite (merge_station_run s (f s)) by (apply Hd, list_elem_of_here).
    destruct (if is_empty (Quicklooks.df_today st) then _ else _) as [m|e|]; [|done..].
    rewrite !outcome_bind_returns. rewrite IH; [done|].
    intros s' Hs'. day_simpl. by apply Hd, list_elem_of_further.
Qed.

(** The first two loops of one pass over any three distinct stations. *)
Lemma stations_collected s1 s2 s3 site1 site2 site3 code_version0 tr0 :
  s1 ≠ s2 -> s1 ≠ s3 -> s2 ≠ s3 ->
  Quicklooks.site_strs !! s1 = Some site1 ->
  Quicklooks.site_strs !! s2 = Some site2 ->
  Quicklooks.site_strs !! s3 = Some site3 ->
  fetchable root (file s1) -> fetchable root (file s2) -> fetchable root (file s3) ->
  exists qd,
    (st ← for_each (Quicklooks.start_station strftime data_dir today) [s1; s2; s3]
                   (Quicklooks.mkDay empty_frame ∅ ∅ code_version0);
     for_each Quicklooks.collect_station [s1; s2; s3] st) (mkWorld root tr0)
    = (Returns (Quicklooks.mkDay empty_frame qd
                  (<[s3 := (result s3).1]> (<[s2 := (result s2).1]>
                     (<[s1 := (result s1).1]> ∅)))
                  (last_non_null code_version0
                     [(result s1).2; (result s2).2; (result s3).2])),
       mkWorld root
         (tr0 ++ [EvStart (file s1) s1 today; EvStart (file s2) s2 today;
                  EvStart (file s3) s3 today]
              ++ get_events [result s1; result s2; result s3])).
Proof.
  intros N12 N13 N23 S1 S2 S3 H1 H2 H3.
  exists (<[s3 := []]> (<[s2 := []]> (<[s1 := []]>
            (<[s3 := to_queue (result s3)]> (<[s2 := to_queue (result s2)]>
               (<[s1 := to_queue (result s1)]> ∅)))))).
  cbn [for_each]. unfold mbind, M_bind, mret, M_ret.
  rewrite (start_station_run s1 site1) by first [exact S1|exact H1|reflexivity].
  day_simpl.
  rewrite (start_station_run s2 site2) by first [exact S2|exact H2|reflexivity].
  day_simpl.
  rewrite (start_station_run s3 site3) by first [exact S3|exact H3|reflexivity].
  day_simpl.
  rewrite (collect_station_run s1 (result s1))
    by (day_simpl; by rewrite !lookup_insert_ne, lookup_insert_eq by done).
  day_simpl.
  rewrite (collect_station_run s2 (result s2))
    by (day_simpl; by rewrite !lookup_insert_ne, lookup_insert_eq by done).
  day_simpl.
  rewrite (collect_station_run s3 (result s3))
    by (day_simpl; by rewrite !lookup_insert_ne, lookup_insert_eq by done).
  day_simpl. cbn [get_events flat_map fst snd].
  rewrite <- !app_assoc. cbn [app].
  destruct (result s1) as [d1 [v1|]], (result s2) as [d2 [v2|]],
    (result s3) as [d3 [v3|]]; reflexivity.
Qed.

(** The three loops of one pass over any three distinct stations. *)
Lemma three_stations_run s1 s2 s3 site1 site2 site3 code_version0 tr0 :
  s1 ≠ s2 -> s1 ≠ s3 -> s2 ≠ s3 ->
  Quicklooks.site_strs !! s1 = Some site1 ->
  Quicklooks.site_strs !! s2 = Some site2 ->
  Quicklooks.site_strs !! s3 = Some site3 ->
  fetchable root (file s1) -> fetchable root (file s2) -> fetchable root (file s3) ->
  (st ← (st ← for_each (Quicklooks.start_station strftime data_dir today) [s1; s2; s3]
                       (Quicklooks.mkDay empty_frame ∅ ∅ code_version0);
         for_each Quicklooks.collect_station [s1; s2; s3] st);
   st ← for_each (Quicklooks.merge_station concat_repeated_labels) [s1; s2; s3] st;
   mret (Quicklooks.df_today st, Quicklooks.code_version st)) (mkWorld root tr0)
  = (m ← merge_frames concat_repeated_labels
                      [(result s1).1; (result s2).1; (result s3).1];
     Returns (m, last_non_null code_version0
                   [(result s1).2; (result s2).2; (result s3).2]),
     mkWorld root
       (tr0 ++ [EvStart (file s1) s1 today; EvStart (file s2) s2 today;
                EvStart (file s3) s3 today]
            ++ get_events [result s1; result s2; result s3])).
Proof.
  intros N12 N13 N23 S1 S2 S3 H1 H2 H3.
  destruct (stations_collected s1 s2 s3 site1 site2 site3 code_version0 tr0)
    as (qd & Hrun); try done.
  erewrite bind_returns; [|exact Hrun].
  unfold mbind at 1, M_bind at 1.
  rewrite (merge_loop (fun s => (result s).1)).
  - day_simpl. unfold merge_frames. cbn [map].
    by destruct (merge_into _ _ _).
  - intros s Hs. day_simpl.
    repeat (apply elem_of_cons in Hs as [->|Hs]);
      [..|by apply elem_of_nil in Hs];
      by rewrite ?lookup_insert_ne, lookup_insert_eq by done.
Qed.

(** One pass of the day loop: three workers started, their six messages
    taken in station order, the three tables merged in station order (when
    the concatenations return), the last version that is not [None] kept. *)
Lemma day_frame_run code_version0 tr0 :
  (forall s, s ∈ Quicklooks.sleds_to_plot -> fetchable root (file s)) ->
  Quicklooks.day_frame strftime data_dir concat_repeated_labels today code_version0
                       (mkWorld root tr0)
  = (m ← merge_frames concat_repeated_labels
                      [(result "asfs30").1; (result "asfs40").1; (result "asfs50").1];
     Returns (m, last_non_null code_version0
                   [(result "asfs30").2; (result "asfs40").2; (result "asfs50").2]),
     mkWorld root
       (tr0 ++ [EvStart (file "asfs30") "asfs30" today;
                EvStart (file "asfs40") "asfs40" today;
                EvStart (file "asfs50") "asfs50" today]
            ++ get_events [result "asfs30"; result "asfs40"; result "asfs50"])).
Proof.
  intros Hok.
  rewrite <- (three_stations_run "asfs30" "asfs40" "asfs50" "L2" "L1" "L3");
    [|discriminate|discriminate|discriminate
     |vm_compute; reflexivity|vm_compute; reflexivity|vm_compute; reflexivity
     |apply Hok; unfold Quicklooks.sleds_to_plot; solve_in_station_list..].
  unfold Quicklooks.day_frame, Quicklooks.sleds_to_plot.
  symmetry. apply bind_assoc.
Qed.

End DayFrame.

Lemma sled_names_distinct c a b :
  String.length a = String.length b -> a ≠ b ->
  c +:+ "_" +:+ a ≠ c +:+ "_" +:+ b.
Proof.
  intros Hlen Hne He. apply Hne.
  assert (H : "_" +:+ a = "_" +:+ b).
  { eapply append_inj_r; [|exact He].
    change (S (String.length a) = S (String.length b)). by f_equal. }
  change (String "_" a = String "_" b) in H. by simplify_eq.
Qed.

Lemma sled_cases x :
  x ∈ Quicklooks.sleds_to_plot -> x = "asfs30" \/ x = "asfs40" \/ x = "asfs50".
Proof.
  unfold Quicklooks.sleds_to_plot. intros H.
  repeat (apply elem_of_cons in H as [->|H]; [by auto|]).
  by apply elem_of_nil in H.
Qed.

(** When no table of the day has a repeated row label, the merge of the
    stations returns the joined table. *)
Lemma day_merge_unique strftime data_dir cr root today :
  (forall s, s ∈ Quicklooks.sleds_to_plot ->
             unique_rows root (sled_file strftime data_dir s today)) ->
  merge_frames cr
    [(sled_result root (sled_file strftime data_dir "asfs30" today) "asfs30").1;
     (sled_result root (sled_file strftime data_dir "asfs40" today) "asfs40").1;
     (sled_result root (sled_file strftime data_dir "asfs50" today) "asfs50").1]
  = Returns (joined_frames
    [(sled_result root (sled_file strftime data_dir "asfs30" today) "asfs30").1;
     (sled_result root (sled_file strftime data_dir "asfs40" today) "asfs40").1;
     (sled_result root (sled_file strftime data_dir "asfs50" today) "asfs50").1]).
Proof.
  intros Hu. apply merge_frames_unique.
  repeat (apply Forall_cons; split); [..|constructor];
    apply sled_result_unique, Hu; unfold Quicklooks.sleds_to_plot; solve_in_station_list.
Qed.

(** A station whose file has at least one row finds each of its columns,
    under the name with its label, in the joined table of the day. *)
Lemma station_column_kept strftime data_dir today root x tx attrs c col :
  x ∈ Quicklooks.sleds_to_plot ->
  resolve root (split_path (sled_file strftime data_dir x today))
  = Some (File (NetCDF tx attrs)) ->
  index tx ≠ [] ->
  get_column c (columns tx) = Some col ->
  let merged :=
    joined_frames
      [(sled_result root (sled_file strftime data_dir "asfs30" today) "asfs30").1;
       (sled_result root (sled_file strftime data_dir "asfs40" today) "asfs40").1;
       (sled_result root (sled_file strftime data_dir "asfs50" today) "asfs50").1] in
  exists col', get_column (c +:+ "_" +:+ x) (columns merged) = Some col' /\
               forall t, cell_at (index merged) col' t = cell_at (index tx) col t.
Proof.
  intros Hx Hfile Hrows Hcol merged.
  assert (Hres : sled_result root (sled_file strftime data_dir x today) x
                 = (add_suffix ("_" +:+ x) tx, attrs !! "version")).
  { unfold sled_result. by rewrite Hfile. }
  assert (Hne : is_empty (add_suffix ("_" +:+ x) tx) = false).
  { unfold is_empty, add_suffix. cbn [index columns].
    destruct (index tx); [done|]. by destruct (columns tx). }
  assert (Hk : kept (c +:+ "_" +:+ x) merged (add_suffix ("_" +:+ x) tx)).
  { apply joined_frames_kept; try apply sled_result_labelled; [|exact Hne].
    destruct (sled_cases x Hx) as [->|[->| ->]]; rewrite Hres; auto. }
  destruct Hk as [_ Hk]. apply (Hk col).
  unfold add_suffix. cbn [columns]. by rewrite get_column_suffix.
Qed.

(** C8, as the code has it.  On a day on which the file of each of the
    three stations is absent or readable and no table of theirs has a
    repeated row label, for two distinct stations of the
    quicklook script whose files each hold at least one row and a column of
    the same name [c], the worker of each station renames every column with
    the suffix [_station] before it publishes the table, the merge of the day
    returns, and the merged table holds the two distinct columns [c_a] and
    [c_b], each with the cells of its own station at every row label. *)
Theorem stations_keep_their_columns strftime data_dir concat_repeated_labels today
    code_version0 root a b ta tb attrs_a attrs_b c cola colb :
  a ∈ Quicklooks.sleds_to_plot ->
  b ∈ Quicklooks.sleds_to_plot ->
  a ≠ b ->
  (forall s, s ∈ Quicklooks.sleds_to_plot ->
             fetchable root (sled_file strftime data_dir s today)) ->
  (forall s, s ∈ Quicklooks.sleds_to_plot ->
             unique_rows root (sled_file strftime data_dir s today)) ->
  resolve root (split_path (sled_file strftime data_dir a today))
  = Some (File (NetCDF ta attrs_a)) ->
  resolve root (split_path (sled_file strftime data_dir b today))
  = Some (File (NetCDF tb attrs_b)) ->
  index ta ≠ [] ->
  index tb ≠ [] ->
  get_column c (columns ta) = Some cola ->
  get_column c (columns tb) = Some colb ->
  exists merged cv tr,
    Quicklooks.day_frame strftime data_dir concat_repeated_labels today code_version0
                         (mkWorld root [])
    = (Returns (merged, cv), mkWorld root tr) /\
    MFrame (add_suffix ("_" +:+ a) ta) ∈ gets tr /\
    MFrame (add_suffix ("_" +:+ b) tb) ∈ gets tr /\
    c +:+ "_" +:+ a ≠ c +:+ "_" +:+ b /\
    (exists cola', get_column (c +:+ "_" +:+ a) (columns merged) = Some cola' /\
       forall t, cell_at (index merged) cola' t = cell_at (index ta) cola t) /\
    (exists colb', get_column (c +:+ "_" +:+ b) (columns merged) = Some colb' /\
       forall t, cell_at (index merged) colb' t = cell_at (index tb) colb t).
Proof.
  intros Ha Hb Hab Hok Hu Hfa Hfb Hra Hrb Hca Hcb.
  do 3 eexists. split.
  { rewrite day_frame_run by done. rewrite day_merge_unique by done.
    rewrite outcome_bind_returns. reflexivity. }
  assert (Hpub : forall x tx attrs,
            x ∈ Quicklooks.sleds_to_plot ->
            resolve root (split_path (sled_file strftime data_dir x today))
            = Some (File (NetCDF tx attrs)) ->
            MFrame (add_suffix ("_" +:+ x) tx)
            ∈ gets ([] ++ [EvStart (sled_file strftime data_dir "asfs30" today) "asfs30" today;
                           EvStart (sled_file strftime data_dir "asfs40" today) "asfs40" today;
                           EvStart (sled_file strftime data_dir "asfs50" today) "asfs50" today]
                       ++ get_events
                            [sled_result root (sled_file strftime data_dir "asfs30" today) "asfs30";
                             sled_result root (sled_file strftime data_dir "asfs40" today) "asfs40";
                             sled_result root (sled_file strftime data_dir "asfs50" today) "asfs50"])).
  { intros x tx attrs Hx Hfile.
    assert (Hres : sled_result root (sled_file strftime data_dir x today) x
                   = (add_suffix ("_" +:+ x) tx, attrs !! "version")).
    { unfold sled_result. by rewrite Hfile. }
    rewrite app_nil_l, gets_app, gets_get_events. cbn [gets flat_map app to_queue].
    destruct (sled_cases x Hx) as [->|[->| ->]]; rewrite Hres; cbn [fst];
      repeat first [apply list_elem_of_here | apply list_elem_of_further]. }
  split; [by eapply Hpub|]. split; [by eapply Hpub|]. split.
  - apply sled_names_distinct; [|done].
    destruct (sled_cases a Ha) as [->|[->| ->]], (sled_cases b Hb) as [->|[->| ->]];
      reflexivity.
  - split; by eapply station_column_kept.
Qed.

Lemma stations_keep_their_columns_witness :
  exists merged cv tr,
    Quicklooks.day_frame january_2020 "data/" (fun _ _ => Raises InvalidIndexError) 2 None
                         (mkWorld sleds_archive [])
    = (Returns (merged, cv), mkWorld sleds_archive tr) /\
    "temp_asfs30" ≠ "temp_asfs40" /\
    (exists col, get_column "temp_asfs30" (columns merged) = Some col /\
                 cell_at (index merged) col 200 = Num 11) /\
    (exists col, get_column "temp_asfs40" (columns merged) = Some col /\
                 cell_at (index merged) col 200 = Num 12).
Proof.
  edestruct (stations_keep_their_columns january_2020 "data/"
               (fun _ _ => Raises InvalidIndexError) 2 None sleds_archive
               "asfs30" "asfs40" (mkDF [200] [("temp", [Num 11])])
               (mkDF [200] [("temp", [Num 12])]) {[ "version" := "2.1" ]}
               {[ "version" := "2.1" ]} "temp" [Num 11] [Num 12])
    as (merged & cv & tr & Hrun & _ & _ & Hne & (cola & Hca & Hcella) & (colb & Hcb & Hcellb)).
  - unfold Quicklooks.sleds_to_plot. solve_in_station_list.
  - unfold Quicklooks.sleds_to_plot. solve_in_station_list.
  - discriminate.
  - intros s Hs. destruct (sled_cases s Hs) as [->|[->| ->]]; solve_fetchable.
  - intros s Hs. destruct (sled_cases s Hs) as [->|[->| ->]]; vm_compute;
      first [reflexivity | exact I].
  - vm_compute. reflexivity.
  - vm_compute. reflexivity.
  - discriminate.
  - discriminate.
  - reflexivity.
  - reflexivity.
  - exists merged, cv, tr. split; [exact Hrun|]. split; [exact Hne|]. split.
    + exists cola. split; [exact Hca|]. by rewrite Hcella.
    + exists colb. split; [exact Hcb|]. by rewrite Hcellb.
Defined.

(** C8 as stated fails when a station's table has the column and no rows:
    the file of asfs30 holds the column [temp] with zero rows, that of asfs40
    holds [temp] with one row; the merge replaces the running table while it
    is empty, so the merged table of the day has [temp_asfs40] and no
    [temp_asfs30]. *)
Lemma empty_station_table_is_replaced :
  (exists attrs,
     resolve sleds_archive_no_rows (split_path (sled_file january_2020 "data/" "asfs30" 2))
     = Some (File (NetCDF (mkDF [] [("temp", [])]) attrs))) /\
  (exists attrs,
     resolve sleds_archive_no_rows (split_path (sled_file january_2020 "data/" "asfs40" 2))
     = Some (File (NetCDF (mkDF [200] [("temp", [Num 12])]) attrs))) /\
  (forall concat_repeated_labels,
     (Quicklooks.day_frame january_2020 "data/" concat_repeated_labels 2 None
                           (mkWorld sleds_archive_no_rows [])).1
     = Returns (mkDF [200] [("temp_asfs40", [Num 12])], Some "2.1")) /\
  get_column "temp_asfs30" (columns (mkDF [200] [("temp_asfs40", [Num 12])])) = None.
Proof.
  split; [eexists; vm_compute; reflexivity|].
  split; [eexists; vm_compute; reflexivity|].
  split; [intros cr|]; vm_compute; reflexivity.
Qed.

(** ** Further properties of [get_flux_data] and its workers *)

(** The last step of [ingest] when the tag is a string: the pickle is
    written where [stored_root] says, or nothing is written. *)
Lemma store_pickle_run station level data_type pickle_dir st w root' :
  is_Some (code_version st) ->
  stored_root (fs w) pickle_dir (pickled_filename station level data_type)
              (df st) (code_version st) = Some root' ->
  exists l,
    store_pickle station level data_type pickle_dir st w
    = (Returns st, mkWorld root' (trace w ++ l)) /\
    starts l = [] /\ gets l = [].
Proof.
  intros [cv Hcv] Hstore. unfold store_pickle, stored_root in *.
  destruct (truthy pickle_dir).
  - destruct pickle_dir as [dir|]; [|done]. rewrite Hcv in *.
    unfold mbind, M_bind, to_pickle. rewrite Hstore.
    exists [EvWritePickle (pickle_path dir (pickled_filename station level data_type) cv)].
    done.
  - simplify_eq. exists []. rewrite app_nil_r. by destruct w.
Qed.





(** X3. [get_datafile] puts both messages or none: when it returns, the
    queue has gained exactly a table followed by a version, and the version
    is [None] exactly when the file is absent, in which case the table is the
    empty one; when it raises, the queue is as it was.  It never waits. *)
Theorem get_datafile_puts_both_or_none root curr_file curr_station today q :
  (exists d v,
     get_datafile root curr_file curr_station today q
     = (Returns tt, q ++ [MFrame d; MVersion v]) /\
     (v = None <-> isfile root curr_file = false) /\
     (v = None -> d = empty_frame)) \/
  (exists e,
     get_datafile root curr_file curr_station today q = (Raises e, q) /\
     isfile root curr_file = true).
Proof.
  unfold get_datafile. destruct (isfile root curr_file) eqn:Hf.
  - unfold open_dataset.
    destruct (resolve root (split_path curr_file)) as [[[rows attrs| |]|]|].
    + destruct (attrs !! "version") as [v|].
      * left. exists rows, (Some v). by repeat split.
      * right. by eexists.
    + right. by eexists.
    + right. by eexists.
    + right. by eexists.
    + right. by eexists.
  - left. exists empty_frame, None. by repeat split.
Qed.

(** X4. [get_asfs_data] is [get_datafile] with the station's label put on
    the columns of the table: both end the same way, and the messages the
    one adds to the queue are those of the other, relabelled by
    [label_msg]. *)
Theorem get_asfs_data_relabels root curr_file curr_station today q :
  exists o new,
    get_datafile root curr_file curr_station today q = (o, q ++ new) /\
    Quicklooks.get_asfs_data root curr_file curr_station today q
    = (o, q ++ map (label_msg curr_station) new).
Proof.
  unfold get_datafile, Quicklooks.get_asfs_data.
  destruct (isfile root curr_file).
  - destruct (open_dataset root curr_file) as [[rows attrs]|e|].
    + destruct (attrs !! "version") as [v|].
      * by exists (Returns tt), [MFrame rows; MVersion (Some v)].
      * exists (Raises KeyError), []. by rewrite !app_nil_r.
    + exists (Raises e), []. by rewrite !app_nil_r.
    + exists Blocks, []. by rewrite !app_nil_r.
  - by exists (Returns tt), [MFrame empty_frame; MVersion None].
Qed.

(** *** What a run may change on disk *)

Lemma keeps_ret {A} (a : A) : keeps_files (mret a : M A).
Proof. by intros w. Qed.

Lemma keeps_raise {A} e : keeps_files (raise e : M A).
Proof. by intros w. Qed.

Lemma keeps_bind {A B} (m : M A) (k : A -> M B) :
  keeps_files m -> (forall a, keeps_files (k a)) -> keeps_files (m ≫= k).
Proof.
  intros Hm Hk w. unfold mbind, M_bind. specialize (Hm w).
  destruct (m w) as [[a|e|] w1]; cbn [snd] in *; [|done..].
  by rewrite (Hk a w1).
Qed.

Lemma keeps_for_each {A S} (body : A -> S -> M S) l :
  (forall x s, keeps_files (body x s)) -> forall s, keeps_files (for_each body l s).
Proof.
  intros Hb. induction l as [|x l IH]; intros s; cbn [for_each].
  - apply keeps_ret.
  - apply keeps_bind; [apply Hb|apply IH].
Qed.

Lemma keeps_py_mod a b : keeps_files (py_mod a b).
Proof. unfold py_mod. destruct (b =? 0); [apply keeps_raise|apply keeps_ret]. Qed.

Lemma keeps_queue_get q : keeps_files (queue_get q).
Proof. intros w. by destruct q. Qed.

Lemma keeps_read_pickle path : keeps_files (read_pickle path).
Proof.
  intros w. unfold read_pickle.
  by destruct (resolve (fs w) (split_path path)) as [[[]|]|].
Qed.

Lemma keeps_walk_dirs top : keeps_files (walk_dirs top).
Proof. by intros w. Qed.

Lemma keeps_start_process target f s d : keeps_files (start_process target f s d).
Proof. by intros w. Qed.

Lemma keeps_drain_one qq st : keeps_files (drain_one qq st).
Proof.
  unfold drain_one. apply keeps_bind; [apply keeps_queue_get|intros [m1 qq1]].
  apply keeps_bind; [apply keeps_queue_get|intros [m2 qq2]].
  destruct m1, m2; first [apply keeps_ret | apply keeps_raise].
Qed.

Lemma keeps_locate strftime station level data_dir data_type today ls :
  keeps_files (locate strftime station level data_dir data_type today ls).
Proof.
  unfold locate. destruct (if level =? 1 then Some "ingest" else ls);
    [apply keeps_ret|apply keeps_raise].
Qed.

Lemma keeps_day_step strftime station level data_dir data_type nthreads day_series it st :
  keeps_files (day_step strftime station level data_dir data_type nthreads day_series
                        it st).
Proof.
  destruct it as [i d]. unfold day_step.
  apply keeps_bind; [apply keeps_py_mod|intros _].
  apply keeps_bind; [apply keeps_locate|intros [cf ls]].
  apply keeps_bind; [apply keeps_start_process|intros q].
  apply keeps_bind; [apply keeps_py_mod|intros r].
  apply keeps_bind.
  - destruct (r =? 0); [apply keeps_ret|].
    destruct (last day_series); [apply keeps_ret|apply keeps_raise].
  - intros [].
    + apply keeps_bind; [|intros; apply keeps_ret].
      apply keeps_for_each. intros; apply keeps_drain_one.
    + apply keeps_ret.
Qed.

Lemma keeps_fetch_merge strftime station start_day end_day level data_dir data_type
    nthreads st :
  keeps_files (fetch_merge strftime station start_day end_day level data_dir data_type
                           nthreads st).
Proof.
  unfold fetch_merge.
  apply keeps_bind; [apply keeps_for_each; intros; apply keeps_day_step|intros st1].
  apply keeps_bind; [|intros; apply keeps_ret].
  intros w. by rewrite concat_or_keep_eq.
Qed.

Lemma keeps_scan_files dir key files st : keeps_files (scan_files dir key files st).
Proof.
  induction files as [|f files IH]; cbn [scan_files]; [apply keeps_ret|].
  destruct (PyStr.contains key f); [|exact IH].
  apply keeps_bind; [apply keeps_read_pickle|intros; apply keeps_ret].
Qed.

Lemma keeps_lookup_pickle station level data_type pickle_dir st :
  keeps_files (lookup_pickle station level data_type pickle_dir st).
Proof.
  unfold lookup_pickle. destruct (truthy pickle_dir); [|apply keeps_ret].
  destruct pickle_dir as [dir|]; [|apply keeps_ret].
  apply keeps_bind; [apply keeps_walk_dirs|intros dirs].
  apply keeps_for_each. intros; apply keeps_scan_files.
Qed.

(** X5. The only change [get_flux_data] ever makes on disk is the pickle of
    line 135: however the call ends, the files are as before, or a pickle
    directory was given and the files are the result of writing one pickled
    table at the path built from that directory, the key and a version
    tag. *)
Theorem only_the_pickle_is_written strftime station start_day end_day level data_dir
    data_type nthreads pickle_dir w :
  let w' := (get_flux_data strftime station start_day end_day level data_dir data_type
                           nthreads pickle_dir w).2 in
  fs w' = fs w \/
  exists dir cv d,
    pickle_dir = Some dir /\ dir ≠ "" /\
    write (fs w)
          (split_path (pickle_path dir (pickled_filename station level data_type) cv))
          (Pickle d)
    = Some (fs w').
Proof.
  intros w'.
  destruct (get_flux_data strftime station start_day end_day level data_dir data_type
                          nthreads pickle_dir w) as [o wf] eqn:Hrun.
  subst w'. cbn [snd]. revert Hrun. unfold get_flux_data.
  destruct (negb (existsb (String.eqb station) station_list));
    [intros [= <- <-]; by left|].
  unfold mbind at 1, M_bind at 1.
  pose proof (keeps_lookup_pickle station level data_type pickle_dir
                (mkLocals empty_frame (Some "?") false None [] [] []) w) as Hl.
  destruct (lookup_pickle _ _ _ _ _ w) as [[st1|e|] w1]; cbn [snd] in Hl;
    [|intros [= <- <-]; by left..].
  unfold mbind at 1, M_bind at 1.
  destruct (negb (was_pickled st1)); [|intros [= <- <-]; by left].
  unfold ingest. unfold mbind at 1, M_bind at 1.
  pose proof (keeps_fetch_merge strftime station start_day end_day level data_dir
                data_type nthreads st1 w1) as Hf.
  destruct (fetch_merge _ _ _ _ _ _ _ _ _ w1) as [[st2|e|] w2]; cbn [snd] in Hf;
    [|intros [= <- <-]; left; congruence..].
  unfold store_pickle. destruct (truthy pickle_dir) eqn:Ht;
    [|intros [= <- <-]; left; congruence].
  destruct pickle_dir as [dir|]; [|done].
  destruct (code_version st2) as [cv|]; [|intros [= <- <-]; left; congruence].
  unfold mbind, M_bind, to_pickle.
  destruct (write (fs w2) _ _) as [root'|] eqn:Hw;
    [|intros [= <- <-]; left; cbn; congruence].
  intros [= <- <-]. right. exists dir, cv, (df st2). cbn [fs].
  split; [done|]. split; [by destruct dir|]. by rewrite <- Hl, <- Hf.
Qed.

(** *** A pickle that is found *)

Lemma scan_files_hit dir key before name after st w d :
  Forall (fun f => PyStr.contains key f = false) before ->
  PyStr.contains key name = true ->
  resolve (fs w) (split_path (dir +:+ name)) = Some (File (Pickle d)) ->
  scan_files dir key (before ++ name :: after) st w
  = (Returns (mkLocals d (Some (version_from_filename (dir +:+ name))) true
                       (level_str st) (q_list st) (day_list st) (df_list st)),
     log (EvReadPickle (dir +:+ name)) w).
Proof.
  intros Hb Hn Hr. induction Hb as [|f before Hf _ IH].
  - cbn [app scan_files]. rewrite Hn.
    unfold mbind, M_bind, read_pickle. by rewrite Hr.
  - cbn [app scan_files]. by rewrite Hf.
Qed.

(** X6. A cache hit ignores the request: when the walk of the pickle
    directory meets exactly one file whose name contains the key, and the
    directory name joined to that file name (without a separator) is a
    pickle, [get_flux_data] returns the pickled table whatever the days, the
    data directory and the number of threads asked for.  The tag is rebuilt
    from the name, the walk and one read are the only steps, and no file
    changes. *)
Theorem cache_hit_ignores_the_request strftime station start_day end_day level data_dir
    data_type nthreads dir before name after deeper d root tr0 :
  station ∈ station_list ->
  dir ≠ "" ->
  os_walk root dir = (before ++ name :: after) :: deeper ->
  Forall (fun f => PyStr.contains (pickled_filename station level data_type) f = false)
         before ->
  PyStr.contains (pickled_filename station level data_type) name = true ->
  no_match (pickled_filename station level data_type) deeper ->
  resolve root (split_path (dir +:+ name)) = Some (File (Pickle d)) ->
  get_flux_data strftime station start_day end_day level data_dir data_type nthreads
                (Some dir) (mkWorld root tr0)
  = (Returns (d, Some (version_from_filename (dir +:+ name))),
     mkWorld root (tr0 ++ [EvWalk dir; EvReadPickle (dir +:+ name)])).
Proof.
  intros Hst Hdir Hwalk Hb Hn Hdeep Hr.
  assert (Hlook : lookup_pickle station level data_type (Some dir)
                    (mkLocals empty_frame (Some "?") false None [] [] [])
                    (mkWorld root tr0)
                  = (Returns (mkLocals d (Some (version_from_filename (dir +:+ name)))
                                       true None [] [] []),
                     mkWorld root (tr0 ++ [EvWalk dir; EvReadPickle (dir +:+ name)]))).
  { unfold lookup_pickle.
    assert (truthy (Some dir) = true) as -> by by destruct dir.
    erewrite bind_returns; [|reflexivity]. cbn [fs]. rewrite Hwalk.
    cbn [for_each]. erewrite bind_returns; [|by apply scan_files_hit].
    rewrite scan_dirs_no_match by done.
    unfold log. cbn [fs trace]. by rewrite <- app_assoc. }
  destruct (cache_hit_skips_ingest strftime station start_day end_day level data_dir
              data_type nthreads (Some dir) _ _ _ Hst Hlook eq_refl) as (Hrun & _).
  exact Hrun.
Qed.

Lemma cache_hit_ignores_the_request_witness :
  get_flux_data january_2020 "asfs30" 20 25 1 "elsewhere/" "slow" 0
                (Some "cache/") (mkWorld archive_with_pickle [])
  = (Returns (frame_of_gaps, Some "2.3.."),
     mkWorld archive_with_pickle
       [EvWalk "cache/"; EvReadPickle "cache/asfs30_1_slow_df_2.3.pkl"]).
Proof.
  apply (cache_hit_ignores_the_request january_2020 "asfs30" 20 25 1 "elsewhere/" "slow"
           0 "cache/" [] "asfs30_1_slow_df_2.3.pkl" [] [] frame_of_gaps
           archive_with_pickle []).
  - solve_in_station_list.
  - discriminate.
  - vm_compute. reflexivity.
  - constructor.
  - vm_compute. reflexivity.
  - constructor.
  - vm_compute. reflexivity.
Defined.

(** X7. The tag rebuilt from a file name (lines 66-67) is ["."] or ends in
    two dots, whatever the name: the text after the last dot of the name is
    dropped and the dot is written twice. *)
Theorem cached_tag_ends_in_two_dots filename :
  version_from_filename filename = "." \/
  exists h, version_from_filename filename = h +:+ "..".
Proof.
  unfold version_from_filename, PyStr.rpartition.
  destruct (PyStr.rsplit "_" filename) as [[h t]|]; cbn [fst snd].
  - destruct (PyStr.rsplit "." t) as [[h' t']|]; cbn [fst snd]; [right; by exists h'|by left].
  - destruct (PyStr.rsplit "." filename) as [[h' t']|]; cbn [fst snd];
      [right; by exists h'|by left].
Qed.

(** *** The table an ingest returns *)

Lemma get_set_column name vals cols :
  get_column name (set_column name vals cols) = Some vals.
Proof.
  induction cols as [|[n c] cols IH]; cbn [set_column get_column].
  - by rewrite String.eqb_refl.
  - destruct (String.eqb n name) eqn:E; cbn [get_column]; by rewrite E.
Qed.

Lemma get_set_column_ne name other vals cols :
  other ≠ name ->
  get_column other (set_column name vals cols) = get_column other cols.
Proof.
  intros Hne. induction cols as [|[n c] cols IH]; cbn [set_column get_column].
  - destruct (String.eqb name other) eqn:E; [|done].
    apply String.eqb_eq in E. congruence.
  - destruct (String.eqb n name) eqn:E; cbn [get_column].
    + apply String.eqb_eq in E. subst n.
      destruct (String.eqb name other) eqn:E'; [|done].
      apply String.eqb_eq in E'. congruence.
    + by rewrite IH.
Qed.

Lemma union_names_elem n names : forall seen,
  n ∈ seen \/ n ∈ names -> n ∈ union_names seen names.
Proof.
  induction names as [|m names IH]; intros seen [H|H]; cbn [union_names].
  - done.
  - by apply elem_of_nil in H.
  - destruct (existsb (String.eqb m) seen); apply IH; left; [done|].
    apply elem_of_app. by left.
  - apply elem_of_cons in H as [->|H].
    + destruct (existsb (String.eqb m) seen) eqn:E; apply IH; left.
      * apply existsb_exists in E as (x & Hx & E). apply String.eqb_eq in E.
        subst x. by apply list_elem_of_In.
      * apply elem_of_app. right. apply list_elem_of_here.
    + destruct (existsb (String.eqb m) seen); apply IH; by right.
Qed.

Lemma get_column_tabulate n (f : string -> list cell) names :
  n ∈ names -> get_column n (map (fun x => (x, f x)) names) = Some (f n).
Proof.
  induction names as [|m names IH]; intros H; [by apply elem_of_nil in H|].
  cbn [map get_column]. destruct (String.eqb m n) eqn:E.
  - apply String.eqb_eq in E. by subst.
  - apply IH. apply elem_of_cons in H as [->|H]; [|done].
    by rewrite String.eqb_refl in E.
Qed.

Lemma get_column_concat_rows n dfs :
  n ∈ concat (map column_names dfs) ->
  get_column n (columns (concat_rows dfs)) = Some (concat (map (column_or_nan n) dfs)).
Proof.
  intros H. unfold concat_rows. cbn [columns].
  apply (get_column_tabulate n (fun x => concat (map (column_or_nan x) dfs))).
  apply union_names_elem. by right.
Qed.

(** X8. What an ingest at level 1 returns (lines 105-119): the rows of the
    non-empty tables of the days, in day order; a [time] column that repeats
    the row labels; and every other column that occurs in one of these
    tables, holding the cells of each table in day order, with [NaN] for the
    rows of a table that lacks the column. *)
Theorem ingest_keeps_rows_in_day_order strftime station data_dir data_type nthreads
    start_day end_day pickle_dir root root' :
  let days := date_range start_day end_day in
  let path := level1_file strftime station data_dir data_type in
  let units := map (fun d => unit_result root (path d)) days in
  let tables := non_empty_frames units.*1 in
  station ∈ station_list ->
  nthreads ≠ 0 ->
  (forall d, start_day <= d <= end_day -> fetchable root (path d)) ->
  cache_miss root pickle_dir (pickled_filename station 1 data_type) ->
  stored_root root pickle_dir (pickled_filename station 1 data_type)
              (merged_frame units.*1) (last_non_null (Some "?") units.*2)
  = Some root' ->
  exists res w',
    get_flux_data strftime station start_day end_day 1 data_dir data_type nthreads
                  pickle_dir (mkWorld root [])
    = (Returns res, w') /\
    index res.1 = concat (map index tables) /\
    get_column "time" (columns res.1) = Some (map Stamp (index res.1)) /\
    forall n, n ≠ "time" -> n ∈ concat (map column_names tables) ->
      get_column n (columns res.1) = Some (concat (map (column_or_nan n) tables)).
Proof.
  intros days path units tables Hst Hn Hok Hmiss Hstore.
  assert (Hall : Forall (fun d => fetchable root (path d)) days).
  { apply Forall_forall. intros d Hd. apply Hok. by apply date_range_elem. }
  destruct (get_flux_data_miss_level1 strftime station data_dir data_type nthreads
              start_day end_day root Hn Hall pickle_dir root' [] Hst Hmiss Hstore)
    as (tr & Hrun & _).
  do 2 eexists. split; [exact Hrun|]. cbn [fst].
  fold path days units. unfold merged_frame. fold tables.
  unfold with_time_column. cbn [index columns].
  split; [by destruct tables|].
  split; [apply get_set_column|].
  intros n Hne Hin. rewrite get_set_column_ne by done.
  destruct tables as [|t ts] eqn:E; [by apply elem_of_nil in Hin|].
  by apply get_column_concat_rows.
Qed.

Lemma ingest_keeps_rows_in_day_order_witness :
  exists res w',
    get_flux_data january_2020 "asfs30" 1 4 1 "data/" "slow" 3 None
                  (mkWorld archive_with_gaps [])
    = (Returns res, w') /\
    index res.1 = [200; 400] /\
    get_column "time" (columns res.1) = Some [Stamp 200; Stamp 400] /\
    get_column "temp" (columns res.1) = Some [Num 11; Num 13].
Proof.
  destruct (ingest_keeps_rows_in_day_order january_2020 "asfs30" "data/" "slow" 3 1 4
              None archive_with_gaps archive_with_gaps)
    as (res & w' & Hrun & Hi & Ht & Hc).
  - solve_in_station_list.
  - lia.
  - intros d Hd.
    assert (d = 1 \/ d = 2 \/ d = 3 \/ d = 4) as [->|[->|[->| ->]]] by lia;
      solve_fetchable.
  - left. reflexivity.
  - reflexivity.
  - exists res, w'. split; [exact Hrun|]. split; [exact Hi|]. split.
    + rewrite Ht, Hi. reflexivity.
    + apply (Hc "temp"); [discriminate|].
      vm_compute. apply list_elem_of_here.
Defined.

(** *** The day loop of the quicklook script *)

(** X9. One pass of the day loop of [main] (lines 164-191), on a day on
    which the file of every station is absent or readable, starts the workers
    of all stations before it takes any result, then takes table and version
    of each station in the order of [sleds_to_plot], and only then merges:
    the pass returns the merged table and the last version that is not [None]
    when the concatenations of lines 187-189 return, and ends as they end
    otherwise; no file changes either way. *)
Theorem day_frame_starts_all_then_collects strftime data_dir concat_repeated_labels
    today code_version0 root tr0 :
  (forall s, s ∈ Quicklooks.sleds_to_plot ->
             fetchable root (sled_file strftime data_dir s today)) ->
  Quicklooks.day_frame strftime data_dir concat_repeated_labels today code_version0
                       (mkWorld root tr0)
  = (t ← day_table strftime data_dir concat_repeated_labels root today;
     Returns (t, last_non_null code_version0 (day_results strftime data_dir root today).*2),
     mkWorld root (tr0 ++ day_events strftime data_dir root today)).
Proof.
  intros Hok.
  by rewrite (day_frame_run strftime data_dir concat_repeated_labels today root
                code_version0 tr0 Hok).
Qed.

Lemma day_frame_starts_all_then_collects_witness :
  Quicklooks.day_frame january_2020 "data/" (fun _ _ => Raises InvalidIndexError) 2
                       (Some "?") (mkWorld sleds_archive [])
  = (Returns (mkDF [200] [("temp_asfs30", [Num 11]); ("temp_asfs40", [Num 12])],
              Some "2.1"),
     mkWorld sleds_archive
       [EvStart "data/asfs30/1_level_ingest_asfs30//slow_preliminary_asfs30.L2.20200102.nc"
                "asfs30" 2;
        EvStart "data/asfs40/1_level_ingest_asfs40//slow_preliminary_asfs40.L1.20200102.nc"
                "asfs40" 2;
        EvStart "data/asfs50/1_level_ingest_asfs50//slow_preliminary_asfs50.L3.20200102.nc"
                "asfs50" 2;
        EvGet (MFrame (mkDF [200] [("temp_asfs30", [Num 11])]));
        EvGet (MVersion (Some "2.1"));
        EvGet (MFrame (mkDF [200] [("temp_asfs40", [Num 12])]));
        EvGet (MVersion (Some "2.1"));
        EvGet (MFrame empty_frame); EvGet (MVersion None)]).
Proof.
  apply (day_frame_starts_all_then_collects january_2020 "data/"
           (fun _ _ => Raises InvalidIndexError) 2 (Some "?") sleds_archive []).
  intros s Hs. apply sled_cases in Hs as [->|[->| ->]]; solve_fetchable.
Defined.

Section Retrieve.

Variable strftime : string -> Z -> string.
Variable data_dir : string.
Variable concat_repeated_labels : DataFrame -> DataFrame -> outcome DataFrame.
Variable root : node.

Lemma day_table_unique d :
  (forall s, s ∈ Quicklooks.sleds_to_plot ->
             unique_rows root (sled_file strftime data_dir s d)) ->
  day_table strftime data_dir concat_repeated_labels root d
  = Returns (day_joined strftime data_dir root d).
Proof. intros Hu. by apply day_merge_unique. Qed.

Lemma day_pass_run d acc cv tr0 :
  (forall s, s ∈ Quicklooks.sleds_to_plot ->
             fetchable root (sled_file strftime data_dir s d)) ->
  (forall s, s ∈ Quicklooks.sleds_to_plot ->
             unique_rows root (sled_file strftime data_dir s d)) ->
  Quicklooks.day_pass strftime data_dir concat_repeated_labels d (acc, cv)
                      (mkWorld root tr0)
  = (Returns (acc ++ [day_joined strftime data_dir root d],
              last_non_null cv (day_results strftime data_dir root d).*2),
     mkWorld root (tr0 ++ day_events strftime data_dir root d)).
Proof.
  intros Hok Hu. unfold Quicklooks.day_pass. cbn [fst snd].
  erewrite bind_returns;
    [|rewrite day_frame_run by done; rewrite day_merge_unique by done;
      rewrite outcome_bind_returns; reflexivity].
  reflexivity.
Qed.

Lemma day_loop_run days : forall acc cv tr0,
  (forall d s, d ∈ days -> s ∈ Quicklooks.sleds_to_plot ->
               fetchable root (sled_file strftime data_dir s d)) ->
  (forall d s, d ∈ days -> s ∈ Quicklooks.sleds_to_plot ->
               unique_rows root (sled_file strftime data_dir s d)) ->
  for_each (Quicklooks.day_pass strftime data_dir concat_repeated_labels) days (acc, cv)
           (mkWorld root tr0)
  = (Returns (acc ++ map (day_joined strftime data_dir root) days,
              last_non_null cv
                (flat_map (fun d => (day_results strftime data_dir root d).*2) days)),
     mkWorld root (tr0 ++ flat_map (day_events strftime data_dir root) days)).
Proof.
  induction days as [|d days IH]; intros acc cv tr0 Hok Hu; cbn [for_each map flat_map].
  - by rewrite !app_nil_r.
  - erewrite bind_returns;
      [|apply day_pass_run; intros s Hs; [apply Hok|apply Hu];
        first [apply list_elem_of_here|done]].
    rewrite IH;
      [|intros d' s Hd' Hs; apply Hok; [by apply list_elem_of_further|done]
       |intros d' s Hd' Hs; apply Hu; [by apply list_elem_of_further|done]].
    by rewrite last_non_null_app, <- !app_assoc.
Qed.

Lemma starts_day_events d :
  length (starts (day_events strftime data_dir root d)) = 3%nat.
Proof.
  unfold day_events. by rewrite starts_app, starts_get_events, app_nil_r.
Qed.

Lemma starts_day_loop days :
  length (starts (flat_map (day_events strftime data_dir root) days))
  = (3 * length days)%nat.
Proof.
  induction days as [|d days IH]; [done|].
  cbn [flat_map]. rewrite starts_app, length_app, starts_day_events, IH.
  cbn [length]. lia.
Qed.

(** The day loop and the concatenation after it, on a period of at least one
    day whose tables have no repeated row label. *)
Lemma retrieve_run start_time end_time code_version0 :
  start_time <= end_time ->
  (forall d s, start_time <= d <= end_time -> s ∈ Quicklooks.sleds_to_plot ->
               fetchable root (sled_file strftime data_dir s d)) ->
  (forall d s, start_time <= d <= end_time -> s ∈ Quicklooks.sleds_to_plot ->
               unique_rows root (sled_file strftime data_dir s d)) ->
  Quicklooks.retrieve strftime data_dir concat_repeated_labels start_time end_time
                      code_version0 (mkWorld root [])
  = (Returns (with_time_column
                (concat_rows (map (day_joined strftime data_dir root)
                                  (date_range start_time end_time))),
              last_non_null code_version0
                (flat_map (fun d => (day_results strftime data_dir root d).*2)
                          (date_range start_time end_time))),
     mkWorld root (flat_map (day_events strftime data_dir root)
                            (date_range start_time end_time)
                   ++ [EvConcat (length (date_range start_time end_time))])).
Proof.
  intros Hle Hok Hu. unfold Quicklooks.retrieve.
  erewrite bind_returns;
    [|apply (day_loop_run (date_range start_time end_time) [] code_version0 []);
      intros d s Hd Hs; [apply Hok|apply Hu]; first [by apply date_range_elem|done]].
  cbn [app]. cbn beta iota. unfold Quicklooks.pd_concat, mbind, M_bind.
  assert (Hlen : length (map (day_joined strftime data_dir root)
                             (date_range start_time end_time))
                 = length (date_range start_time end_time))
    by apply length_map.
  rewrite (date_range_cons _ _ Hle) in *.
  cbn [map] in *. cbn [log fs trace]. rewrite Hlen. reflexivity.
Qed.

End Retrieve.

(** X10. The day loop of [main] and the concatenation after it (lines
    159-195): for a period of at least one day whose files are absent or
    readable and whose tables have no repeated row label, every day has one
    pass, three workers each; the tables of all days, empty ones included,
    are concatenated in day order and get the [time] column; the version is
    the last one that is not [None]; no file changes. *)
Theorem retrieve_concatenates_every_day strftime data_dir concat_repeated_labels
    start_time end_time code_version0 root :
  let days := date_range start_time end_time in
  start_time <= end_time ->
  (forall d s, start_time <= d <= end_time -> s ∈ Quicklooks.sleds_to_plot ->
               fetchable root (sled_file strftime data_dir s d)) ->
  (forall d s, start_time <= d <= end_time -> s ∈ Quicklooks.sleds_to_plot ->
               unique_rows root (sled_file strftime data_dir s d)) ->
  exists tables tr,
    Forall2 (fun d t => day_table strftime data_dir concat_repeated_labels root d
                        = Returns t) days tables /\
    Quicklooks.retrieve strftime data_dir concat_repeated_labels start_time end_time
                        code_version0 (mkWorld root [])
    = (Returns (with_time_column (concat_rows tables),
                last_non_null code_version0
                  (flat_map (fun d => (day_results strftime data_dir root d).*2) days)),
       mkWorld root tr) /\
    tr = flat_map (day_events strftime data_dir root) days ++ [EvConcat (length days)] /\
    length (starts tr) = (3 * Z.to_nat (end_time - start_time + 1))%nat.
Proof.
  intros days Hle Hok Hu.
  exists (map (day_joined strftime data_dir root) days). eexists.
  split; [|split; [by apply retrieve_run|split; [reflexivity|]]].
  - apply Forall2_fmap_r, Forall_Forall2_diag, Forall_forall. intros d Hd.
    apply day_table_unique. intros s Hs. apply Hu; [by apply date_range_elem|done].
  - rewrite starts_app, length_app, starts_day_loop.
    unfold days. rewrite date_range_length by done. cbn. lia.
Qed.

Lemma retrieve_concatenates_every_day_witness :
  exists tr,
    Quicklooks.retrieve january_2020 "data/" (fun _ _ => Raises InvalidIndexError) 2 2 None
                        (mkWorld sleds_archive [])
    = (Returns (mkDF [200] [("temp_asfs30", [Num 11]); ("temp_asfs40", [Num 12]);
                            ("time", [Stamp 200])],
                Some "2.1"),
       mkWorld sleds_archive tr) /\
    length (starts tr) = 3%nat.
Proof.
  destruct (retrieve_concatenates_every_day january_2020 "data/"
              (fun _ _ => Raises InvalidIndexError) 2 2 None sleds_archive)
    as (tables & tr & Htables & Hrun & _ & Hlen).
  - lia.
  - intros d s Hd Hs. assert (d = 2) as -> by lia.
    apply sled_cases in Hs as [->|[->| ->]]; solve_fetchable.
  - intros d s Hd Hs. assert (d = 2) as -> by lia.
    apply sled_cases in Hs as [->|[->| ->]]; vm_compute; first [reflexivity | exact I].
  - exists tr. split; [|exact Hlen]. rewrite Hrun.
    apply Forall2_cons_inv_l in Htables as (t & ts & Ht & Hts & ->).
    apply Forall2_nil_inv_l in Hts as ->.
    vm_compute in Ht. injection Ht as <-. reflexivity.
Defined.

(** X11. For a period without days the day loop of [main] has no pass and
    [pd.concat] gets an empty list: the script raises [ValueError] there,
    with no worker started, where [get_flux_data] returns an empty table. *)
Theorem retrieve_empty_period_raises strftime data_dir concat_repeated_labels
    start_time end_time code_version0 w :
  end_time < start_time ->
  Quicklooks.retrieve strftime data_dir concat_repeated_labels start_time end_time
                      code_version0 w
  = (Raises ValueError, log (EvConcat 0) w).
Proof.
  intros Hlt. unfold Quicklooks.retrieve. by rewrite (date_range_empty _ _ Hlt).
Qed.

Lemma retrieve_empty_period_raises_witness :
  Quicklooks.retrieve january_2020 "data/" (fun _ _ => Raises InvalidIndexError) 3 2 None
                      (mkWorld sleds_archive [])
  = (Raises ValueError, mkWorld sleds_archive [EvConcat 0]).
Proof.
  apply (retrieve_empty_period_raises january_2020 "data/"
           (fun _ _ => Raises InvalidIndexError) 3 2 None (mkWorld sleds_archive [])).
  lia.
Defined.

(** *** The processing period *)

(** X12. Without a start argument the script asks for yesterday by
    replacing the day of the month with [day - 1]; on the first of a month
    that is day 0, and the script raises [ValueError] whatever the end
    argument is. *)
Theorem default_period_fails_on_first_of_month strptime today arg_start_time
    arg_end_time :
  truthy arg_start_time = false ->
  Quicklooks.day today = 1 ->
  Quicklooks.process_period strptime today arg_start_time arg_end_time
  = Raises ValueError.
Proof.
  intros Hs Hd. unfold Quicklooks.process_period, Quicklooks.replace_midnight.
  rewrite Hs, Hd.
  assert (Quicklooks.valid_datetime
            (Quicklooks.mkDatetime (Quicklooks.year today) (Quicklooks.month today)
                                   (1 - 1) 0 0 0 0) = false) as ->; [|done].
  unfold Quicklooks.valid_datetime. cbn.
  by rewrite !andb_false_r.
Qed.

Lemma default_period_fails_on_first_of_month_witness :
  Quicklooks.process_period (fun _ _ => Raises ValueError)
    (Quicklooks.mkDatetime 2020 3 1 9 30 0 0) None (Some "20200305")
  = Raises ValueError.
Proof.
  apply (default_period_fails_on_first_of_month (fun _ _ => Raises ValueError)
           (Quicklooks.mkDatetime 2020 3 1 9 30 0 0) None (Some "20200305"));
    reflexivity.
Defined.

(** X13. Without arguments, on any valid date after the first of a month,
    the period is the single day before today, at midnight: start and end are
    the same instant, in the same month and year. *)
Theorem default_period_is_yesterday strptime today arg_start_time arg_end_time :
  Quicklooks.valid_datetime today = true ->
  2 <= Quicklooks.day today ->
  truthy arg_start_time = false ->
  truthy arg_end_time = false ->
  let yesterday :=
    Quicklooks.mkDatetime (Quicklooks.year today) (Quicklooks.month today)
                          (Quicklooks.day today - 1) 0 0 0 0 in
  Quicklooks.process_period strptime today arg_start_time arg_end_time
  = Returns (yesterday, yesterday) /\
  Quicklooks.valid_datetime yesterday = true.
Proof.
  intros Hv Hd Hs He yesterday.
  assert (Hy : Quicklooks.valid_datetime yesterday = true).
  { unfold Quicklooks.valid_datetime in *. subst yesterday.
    cbn [Quicklooks.year Quicklooks.month Quicklooks.day Quicklooks.hour
         Quicklooks.minute Quicklooks.second Quicklooks.microsecond].
    repeat match goal with
           | H : _ && _ = true |- _ => apply andb_true_iff in H as [H ?]
           end.
    repeat (apply andb_true_iff; split); try done; lia. }
  split; [|exact Hy].
  unfold Quicklooks.process_period, Quicklooks.replace_midnight.
  rewrite Hs, He. fold yesterday. by rewrite Hy.
Qed.

Lemma default_period_is_yesterday_witness :
  Quicklooks.process_period (fun _ _ => Raises ValueError)
    (Quicklooks.mkDatetime 2020 2 29 9 30 15 250) None None
  = Returns (Quicklooks.mkDatetime 2020 2 28 0 0 0 0,
             Quicklooks.mkDatetime 2020 2 28 0 0 0 0).
Proof.
  apply (default_period_is_yesterday (fun _ _ => Raises ValueError)
           (Quicklooks.mkDatetime 2020 2 29 9 30 15 250) None None);
    first [reflexivity | cbn; lia].
Defined.

(** *** Colours *)

Lemma hex_digit_range c d : Quicklooks.hex_digit c = Some d -> 0 <= d <= 15.
Proof.
  unfold Quicklooks.hex_digit. cbn zeta.
  generalize (Z.of_nat (nat_of_ascii c)). intros n.
  destruct ((48 <=? n) && (n <=? 57)) eqn:E1;
    [intros [= <-]; apply andb_true_iff in E1 as [?%Z.leb_le ?%Z.leb_le]; lia|].
  destruct ((97 <=? n) && (n <=? 102)) eqn:E2;
    [intros [= <-]; apply andb_true_iff in E2 as [?%Z.leb_le ?%Z.leb_le]; lia|].
  destruct ((65 <=? n) && (n <=? 70)) eqn:E3;
    [intros [= <-]; apply andb_true_iff in E3 as [?%Z.leb_le ?%Z.leb_le]; lia|].
  done.
Qed.

Lemma hex_digit_not_hash c d :
  Quicklooks.hex_digit c = Some d -> Ascii.eqb c "#"%char = false.
Proof.
  intros H. destruct (Ascii.eqb_spec c "#"%char) as [->|]; [|done].
  vm_compute in H. discriminate.
Qed.

Lemma lstrip_hashes n c s :
  Ascii.eqb c "#"%char = false ->
  Quicklooks.lstrip "#" (hashes n (String c s)) = String c s.
Proof.
  intros H. induction n as [|n IH]; cbn [hashes Quicklooks.lstrip].
  - by rewrite H.
  - by rewrite Ascii.eqb_refl.
Qed.

Lemma int16_two_digits int_other c1 c2 d1 d2 :
  Quicklooks.hex_digit c1 = Some d1 ->
  Quicklooks.hex_digit c2 = Some d2 ->
  Quicklooks.int16 int_other (String c1 (String c2 EmptyString))
  = Returns (16 * d1 + d2).
Proof.
  intros H1 H2. unfold Quicklooks.int16. cbn [Quicklooks.hex_value].
  rewrite H1, H2. f_equal; lia.
Qed.

Lemma slices_of_six c1 c2 c3 c4 c5 c6 rest :
  let s := String c1 (String c2 (String c3 (String c4 (String c5 (String c6 rest))))) in
  Quicklooks.slice 0 2 s = String c1 (String c2 EmptyString) /\
  Quicklooks.slice 2 4 s = String c3 (String c4 EmptyString) /\
  Quicklooks.slice 4 6 s = String c5 (String c6 EmptyString).
Proof. unfold Quicklooks.slice. cbn. by destruct rest. Qed.

Lemma byte_below_one d1 d2 :
  0 <= d1 <= 15 -> 0 <= d2 <= 15 ->
  unit_interval (QArith_base.Qmake (16 * d1 + d2) 256).
Proof.
  intros H1 H2. unfold unit_interval, QArith_base.Qle, QArith_base.Qlt.
  cbn [QArith_base.Qnum QArith_base.Qden]. lia.
Qed.

(** X14. On six hexadecimal digits, with any number of [#] in front and
    anything behind, [hex_to_rgb] returns the three bytes the digit pairs
    write, each divided by 256: every component is at least 0 and below 1, so
    no colour, white included, has a component equal to 1. *)
Theorem hex_to_rgb_six_digits int_other n c1 c2 c3 c4 c5 c6 d1 d2 d3 d4 d5 d6 rest :
  Quicklooks.hex_digit c1 = Some d1 ->
  Quicklooks.hex_digit c2 = Some d2 ->
  Quicklooks.hex_digit c3 = Some d3 ->
  Quicklooks.hex_digit c4 = Some d4 ->
  Quicklooks.hex_digit c5 = Some d5 ->
  Quicklooks.hex_digit c6 = Some d6 ->
  exists r g b,
    Quicklooks.hex_to_rgb int_other
      (hashes n (String c1 (String c2 (String c3 (String c4 (String c5 (String c6 rest)))))))
    = Returns (r, g, b) /\
    r = QArith_base.Qmake (16 * d1 + d2) 256 /\
    g = QArith_base.Qmake (16 * d3 + d4) 256 /\
    b = QArith_base.Qmake (16 * d5 + d6) 256 /\
    unit_interval r /\ unit_interval g /\ unit_interval b.
Proof.
  intros H1 H2 H3 H4 H5 H6. do 3 eexists.
  split;
    [|do 3 (split; [reflexivity|]);
      split; [|split]; apply byte_below_one; by eapply hex_digit_range].
  unfold Quicklooks.hex_to_rgb.
  rewrite (lstrip_hashes n c1 _ (hex_digit_not_hash _ _ H1)).
  destruct (slices_of_six c1 c2 c3 c4 c5 c6 rest) as (-> & -> & ->).
  rewrite (int16_two_digits int_other c1 c2 d1 d2 H1 H2).
  rewrite (int16_two_digits int_other c3 c4 d3 d4 H3 H4).
  rewrite (int16_two_digits int_other c5 c6 d5 d6 H5 H6).
  reflexivity.
Qed.

Lemma hex_to_rgb_six_digits_witness :
  exists r g b,
    Quicklooks.hex_to_rgb (fun _ => Raises ValueError) "#ffFFff80" = Returns (r, g, b) /\
    r = QArith_base.Qmake 255 256 /\ g = QArith_base.Qmake 255 256 /\
    b = QArith_base.Qmake 255 256.
Proof.
  destruct (hex_to_rgb_six_digits (fun _ => Raises ValueError) 1
              "f" "f" "F" "F" "f" "f" 15 15 15 15 15 15 "80")
    as (r & g & b & Hrun & Hr & Hg & Hb & _); try reflexivity.
  exists r, g, b. split; [exact Hrun|]. by rewrite Hr, Hg, Hb.
Defined.

Lemma substring_beyond n m s :
  (String.length s <= n)%nat -> String.substring n m s = EmptyString.
Proof.
  revert s. induction n as [|n IH]; intros s H.
  - destruct s; [by destruct m|cbn in H; lia].
  - destruct s; cbn [String.substring]; [done|]. apply IH. cbn in H. lia.
Qed.

(** X15. A colour with fewer than five characters after its leading [#]
    characters (the three-digit form [#fff], say) never yields a colour: the
    third pair of digits is the empty string, which [int] refuses. *)
Theorem hex_to_rgb_short_never_returns int_other hex_color rgb :
  (String.length (Quicklooks.lstrip "#" hex_color) <= 4)%nat ->
  Quicklooks.hex_to_rgb int_other hex_color ≠ Returns rgb.
Proof.
  intros Hlen. unfold Quicklooks.hex_to_rgb. cbn zeta.
  assert (Quicklooks.slice 4 6 (Quicklooks.lstrip "#" hex_color) = EmptyString) as ->
    by (by apply substring_beyond).
  change (Quicklooks.int16 int_other EmptyString) with (@Raises Z ValueError).
  unfold mbind, outcome_bind.
  destruct (Quicklooks.int16 int_other _); [|done..].
  destruct (Quicklooks.int16 int_other _); done.
Qed.

Lemma hex_to_rgb_short_never_returns_witness :
  Quicklooks.hex_to_rgb (fun _ => Raises ValueError) "#fff"
  ≠ Returns (QArith_base.Qmake 255 256, QArith_base.Qmake 255 256,
             QArith_base.Qmake 255 256).
Proof.
  apply (hex_to_rgb_short_never_returns (fun _ => Raises ValueError) "#fff").
  cbn. lia.
Defined.

(** *** How many workers are outstanding *)

Lemma outstanding_app n a b :
  outstanding n (a ++ b) = outstanding (outstanding n a) b.
Proof.
  revert n. induction a as [|e a IH]; intros n; [done|].
  destruct e as [| | |[]| |]; cbn [app outstanding]; apply IH.
Qed.

Lemma within_app limit n a b :
  within limit n a -> within limit (outstanding n a) b -> within limit n (a ++ b).
Proof.
  intros Ha Hb k. rewrite take_app, outstanding_app.
  destruct (Nat.le_gt_cases (length a) k) as [Hk|Hk].
  - rewrite (take_ge a k) by done. apply Hb.
  - replace (k - length a)%nat with 0%nat by lia. cbn [take outstanding]. apply Ha.
Qed.

Lemma outstanding_get_events n rs :
  outstanding n (get_events rs) = n - Z.of_nat (length rs).
Proof.
  revert n. induction rs as [|r rs IH]; intros n; cbn [get_events flat_map app outstanding length].
  - lia.
  - fold (get_events rs). rewrite IH. lia.
Qed.

Lemma within_get_events limit rs : forall n,
  n <= limit -> within limit n (get_events rs).
Proof.
  induction rs as [|r rs IH]; intros n Hn k.
  - by destruct k.
  - cbn [get_events flat_map app]. fold (get_events rs).
    destruct k as [|[|k]]; cbn [take outstanding]; [lia..|].
    apply IH. lia.
Qed.

Lemma within_start limit n f s d l :
  n + 1 <= limit -> within limit (n + 1) l -> within limit n (EvStart f s d :: l).
Proof. intros Hn Hl [|k]; cbn [take outstanding]; [lia|apply Hl]. Qed.

Lemma neutral_steps l : forall n k,
  starts l = [] -> gets l = [] -> outstanding n (take k l) = n.
Proof.
  induction l as [|e l IH]; intros n k Hs Hg; [by destruct k|].
  destruct k as [|k]; [done|].
  destruct e; cbn in Hs, Hg; try discriminate; cbn [take outstanding]; by apply IH.
Qed.

Lemma within_neutral limit n l :
  starts l = [] -> gets l = [] -> n <= limit ->
  within limit n l /\ outstanding n l = n.
Proof.
  intros Hs Hg Hn. split.
  - intros k. by rewrite neutral_steps.
  - rewrite <- (firstn_all l) at 1. by apply neutral_steps.
Qed.

Lemma lookup_steps_neutral l :
  List.filter is_ingest_work l = [] -> starts l = [] /\ gets l = [].
Proof.
  induction l as [|e l IH]; [done|].
  destruct e; cbn [List.filter is_ingest_work]; try discriminate; intros H;
    cbn [starts gets flat_map app]; by apply IH.
Qed.

Section InFlight.

Variable strftime : string -> Z -> string.
Variables station data_dir data_type : string.
Variable nthreads : Z.
Variable day_series : list Z.
Variable root : node.

Hypothesis nthreads_positive : 1 <= nthreads.

Let path (d : Z) : string := level1_file strftime station data_dir data_type d.
Let result (d : Z) : DataFrame * option string := unit_result root (path d).

Lemma nthreads_not_zero : nthreads ≠ 0.
Proof. lia. Qed.

Lemma next_slot i n :
  n <= i mod nthreads -> ((i + 1) mod nthreads =? 0) = false ->
  n + 1 <= (i + 1) mod nthreads.
Proof.
  intros Hn Hr. apply Z.eqb_neq in Hr.
  pose proof nthreads_positive as Hpos.
  pose proof (Z.mod_pos_bound i nthreads) as Hb.
  assert (H : (i + 1) mod nthreads = (i mod nthreads + 1) mod nthreads)
    by (rewrite Z.add_mod_idemp_l; [done|lia]).
  destruct (Z.eq_dec (i mod nthreads + 1) nthreads) as [E|E].
  - rewrite E, Z.mod_same in H by lia. done.
  - rewrite (Z.mod_small (i mod nthreads + 1)) in H by lia. lia.
Qed.

Lemma batch_within pending d f :
  Z.of_nat (length pending) + 1 <= nthreads ->
  within nthreads (Z.of_nat (length pending))
         (EvStart f station d :: get_events (pending ++ [result d])) /\
  outstanding (Z.of_nat (length pending))
              (EvStart f station d :: get_events (pending ++ [result d])) = 0.
Proof.
  intros Hn. split.
  - apply within_start; [done|]. by apply within_get_events.
  - cbn [outstanding]. rewrite outstanding_get_events, length_app. cbn [length]. lia.
Qed.

(** The loop from any point on: when the units pending at pass [i] are at
    most [i mod nthreads], the rest of the loop never has more than
    [nthreads] units outstanding, and none at the end. *)
Lemma fetch_loop_within rest : forall d i pending st w,
  q_list st = map to_queue pending ->
  fs w = root ->
  last (d :: rest) = last day_series ->
  Forall (fun x => fetchable root (path x)) (d :: rest) ->
  Z.of_nat (length pending) <= i mod nthreads ->
  exists st' l,
    for_each (day_step strftime station 1 data_dir data_type nthreads day_series)
             (enumerate_from i (d :: rest)) st w
    = (Returns st', mkWorld root (trace w ++ l)) /\
    within nthreads (Z.of_nat (length pending)) l /\
    outstanding (Z.of_nat (length pending)) l = 0.
Proof.
  pose proof nthreads_not_zero as Hnz. pose proof nthreads_positive as Hpos.
  induction rest as [|d' rest IH]; intros d i pending st w Hq Hfs Hlast Hok Hlen.
  - apply Forall_cons in Hok as [Hd _].
    cbn [enumerate_from for_each].
    assert (Hsome : is_Some (last day_series)) by (by rewrite <- Hlast).
    pose proof (day_step_level1 strftime station data_dir data_type nthreads day_series
                  root Hnz i d pending st w Hq Hfs Hd Hsome) as Hstep.
    assert (Hb : batch_complete nthreads day_series i d = true).
    { unfold batch_complete. rewrite <- Hlast. cbn [last].
      rewrite Z.eqb_refl. apply orb_true_r. }
    rewrite Hb in Hstep. erewrite bind_returns; [|exact Hstep].
    do 2 eexists. split; [reflexivity|]. cbn [app].
    apply batch_within. pose proof (Z.mod_pos_bound i nthreads). lia.
  - apply Forall_cons in Hok as [Hd Hok].
    assert (Hlast' : last (d' :: rest) = last day_series) by (by rewrite <- Hlast).
    assert (Hsome : is_Some (last day_series)).
    { rewrite <- Hlast'. destruct (last (d' :: rest)) eqn:E; [by eexists|].
      by apply last_None in E. }
    pose proof (day_step_level1 strftime station data_dir data_type nthreads day_series
                  root Hnz i d pending st w Hq Hfs Hd Hsome) as Hstep.
    change (enumerate_from i (d :: d' :: rest))
      with ((i, d) :: enumerate_from (i + 1) (d' :: rest)).
    cbn [for_each].
    assert (Hroom : Z.of_nat (length pending) + 1 <= nthreads)
      by (pose proof (Z.mod_pos_bound i nthreads); lia).
    destruct (batch_complete nthreads day_series i d) eqn:Hb;
      (erewrite bind_returns; [|exact Hstep]).
    + match goal with
      | |- context [for_each _ _ ?s ?w'] =>
          destruct (IH d' (i + 1) [] s w' eq_refl eq_refl Hlast' Hok)
            as (st' & l & Hrun & Hw & Ho)
      end.
      { cbn [length]. pose proof (Z.mod_pos_bound (i + 1) nthreads). lia. }
      rewrite Hrun. do 2 eexists. cbn [trace].
      split; [by rewrite <- app_assoc|].
      destruct (batch_within pending d (path d) Hroom) as (Hw1 & Ho1).
      split.
      * apply within_app; [exact Hw1|].
        match goal with
        | |- within _ ?n l => replace n with 0 by (symmetry; exact Ho1)
        end.
        exact Hw.
      * rewrite outstanding_app. etrans; [|exact Ho]. f_equal. exact Ho1.
    + assert (Hr : ((i + 1) mod nthreads =? 0) = false).
      { unfold batch_complete in Hb. by apply orb_false_iff in Hb as [Hb _]. }
      match goal with
      | |- context [for_each _ _ ?s ?w'] =>
          destruct (IH d' (i + 1) (pending ++ [result d]) s w' eq_refl eq_refl Hlast' Hok)
            as (st' & l & Hrun & Hw & Ho)
      end.
      { rewrite length_app. cbn [length].
        pose proof (next_slot i (Z.of_nat (length pending)) Hlen Hr). lia. }
      rewrite Hrun. do 2 eexists. cbn [trace].
      split; [by rewrite <- app_assoc|].
      rewrite length_app in Hw, Ho. cbn [length] in Hw, Ho.
      replace (Z.of_nat (length pending + 1)) with (Z.of_nat (length pending) + 1)
        in Hw, Ho by lia.
      split; [by apply within_start|done].
Qed.

End InFlight.

(** X16. [nthreads] bounds the workers in flight: in a run of
    [get_flux_data] at level 1 with [nthreads >= 1], at no point are more than
    [nthreads] units started whose results have not been taken, and when the
    call returns none is left. *)
Theorem at_most_nthreads_outstanding strftime station data_dir data_type nthreads
    start_day end_day pickle_dir root root' :
  let days := date_range start_day end_day in
  let path := level1_file strftime station data_dir data_type in
  let units := map (fun d => unit_result root (path d)) days in
  station ∈ station_list ->
  1 <= nthreads ->
  (forall d, start_day <= d <= end_day -> fetchable root (path d)) ->
  cache_miss root pickle_dir (pickled_filename station 1 data_type) ->
  stored_root root pickle_dir (pickled_filename station 1 data_type)
              (merged_frame units.*1) (last_non_null (Some "?") units.*2)
  = Some root' ->
  exists res tr,
    get_flux_data strftime station start_day end_day 1 data_dir data_type nthreads
                  pickle_dir (mkWorld root [])
    = (Returns res, mkWorld root' tr) /\
    (forall k, outstanding 0 (take k tr) <= nthreads) /\
    outstanding 0 tr = 0.
Proof.
  intros days path units Hst Hn Hok Hmiss Hstore.
  assert (Hnz : nthreads ≠ 0) by lia.
  assert (Hall : Forall (fun d => fetchable root (path d)) days).
  { apply Forall_forall. intros d Hd. apply Hok. by apply date_range_elem. }
  set (st0 := mkLocals empty_frame (Some "?") false None [] [] []).
  (* the search *)
  destruct (lookup_pickle_miss station 1 data_type pickle_dir st0 (mkWorld root []) Hmiss)
    as (tr1 & Hlook & _).
  destruct (lookup_pickle_trace station 1 data_type pickle_dir st0 (mkWorld root []))
    as (l1 & Hl1 & Hn1).
  rewrite Hlook in Hl1. cbn [snd fs trace app] in Hl1, Hlook.
  injection Hl1 as ->.
  apply lookup_steps_neutral in Hn1 as [Hs1 Hg1].
  destruct (within_neutral nthreads 0 l1 Hs1 Hg1) as (Hw1 & Ho1); [lia|].
  (* the loop *)
  destruct (fetch_merge_level1 strftime station data_dir data_type nthreads start_day
              end_day root Hnz Hall st0 (mkWorld root l1) eq_refl)
    as (st2 & tr2 & Hfm & Hdf & Hcv & _).
  assert (Hshape : exists l2, tr2 = l1 ++ l2 /\ within nthreads 0 l2 /\ outstanding 0 l2 = 0).
  { revert Hfm. unfold fetch_merge. fold days.
    destruct days as [|d rest] eqn:Edays.
    - cbn [enumerate enumerate_from for_each]. rewrite bind_ret.
      erewrite bind_returns; [|apply concat_or_keep_eq].
      intros [= _ <-]. exists [EvConcat 0]. split; [done|].
      apply within_neutral; [done|done|lia].
    - unfold enumerate.
      match goal with
      | |- context [for_each ?f (enumerate_from 0 (d :: rest)) ?s] =>
          destruct (fetch_loop_within strftime station data_dir data_type nthreads
                      (d :: rest) root Hn rest d 0 [] s (mkWorld root l1)
                      eq_refl eq_refl eq_refl Hall)
            as (st' & l & Hrun & Hw & Ho)
      end.
      { cbn [length]. pose proof (Z.mod_pos_bound 0 nthreads). lia. }
      erewrite bind_returns; [|exact Hrun].
      erewrite bind_returns; [|apply concat_or_keep_eq].
      intros [= _ <-]. cbn [trace log fs].
      exists (l ++ [EvConcat (length (df_list st'))]).
      split; [by rewrite app_assoc|].
      cbn [length] in Hw, Ho. change (Z.of_nat 0) with 0 in Hw, Ho.
      destruct (within_neutral nthreads 0 [EvConcat (length (df_list st'))]) as (Hwc & Hoc);
        [done..|lia|].
      split; [apply within_app; [done|by rewrite Ho]|].
      by rewrite outstanding_app, Ho. }
  destruct Hshape as (l2 & -> & Hw2 & Ho2).
  (* the pickle *)
  assert (Hframe : df st2 = merged_frame units.*1).
  { rewrite Hdf. unfold merged_frame. fold path days units.
    by destruct (non_empty_frames units.*1). }
  fold path days units in Hcv. cbn [code_version st0] in Hcv.
  destruct (store_pickle_run station 1 data_type pickle_dir st2 (mkWorld root (l1 ++ l2))
              root') as (l3 & Hsp & Hs3 & Hg3).
  { rewrite Hcv. by apply last_non_null_is_Some. }
  { cbn [fs]. by rewrite Hframe, Hcv. }
  destruct (within_neutral nthreads 0 l3 Hs3 Hg3) as (Hw3 & Ho3); [lia|].
  exists (df st2, code_version st2), ((l1 ++ l2) ++ l3). split.
  - unfold get_flux_data. rewrite (known_station _ Hst). cbn [negb].
    erewrite bind_returns; [|exact Hlook]. cbn [was_pickled st0 negb].
    erewrite bind_returns;
      [|unfold ingest; erewrite bind_returns; [exact Hsp|exact Hfm]].
    reflexivity.
  - split.
    + apply within_app; [apply within_app; [done|by rewrite Ho1]|].
      by rewrite outstanding_app, Ho1, Ho2.
    + by rewrite !outstanding_app, Ho1, Ho2.
Qed.

Lemma at_most_nthreads_outstanding_witness :
  exists res tr root',
    get_flux_data january_2020 "asfs30" 1 4 1 "data/" "slow" 3 (Some "cache/")
                  (mkWorld archive_with_gaps [])
    = (Returns res, mkWorld root' tr) /\
    (forall k, outstanding 0 (take k tr) <= 3) /\
    outstanding 0 tr = 0.
Proof.
  destruct (at_most_nthreads_outstanding january_2020 "asfs30" "data/" "slow" 3 1 4
              (Some "cache/") archive_with_gaps archive_with_pickle)
    as (res & tr & Hrun & Hw & Ho).
  - solve_in_station_list.
  - lia.
  - intros d Hd.
    assert (d = 1 \/ d = 2 \/ d = 3 \/ d = 4) as [->|[->|[->| ->]]] by lia;
      solve_fetchable.
  - right. exists "cache/". split; [reflexivity|]. vm_compute. repeat constructor.
  - vm_compute. reflexivity.
  - exists res, tr. eexists. split; [exact Hrun|]. split; [exact Hw|exact Ho].
Defined.

(** *** A worker that dies *)

Lemma bind_blocks {A B} (m : M A) (k : A -> M B) w w' :
  m w = (Blocks, w') -> (m ≫= k) w = (Blocks, w').
Proof. intros H. unfold mbind, M_bind. by rewrite H. Qed.

Lemma get_datafile_unreadable root curr_file curr_station today :
  unreadable root curr_file ->
  (get_datafile root curr_file curr_station today []).2 = [].
Proof.
  intros (c & Hres & Hc). unfold get_datafile, isfile, open_dataset. rewrite Hres.
  destruct c as [rows attrs| |]; [by rewrite Hc|done..].
Qed.

Lemma drain_blocks pending more st w :
  for_each drain_one (map to_queue pending ++ [] :: more) st w
  = (Blocks, mkWorld (fs w) (trace w ++ get_events pending)).
Proof.
  erewrite for_each_app; [|apply drain_all]. reflexivity.
Qed.

Lemma enumerate_from_app {A} (a b : list A) : forall i,
  enumerate_from i (a ++ b)
  = enumerate_from i a ++ enumerate_from (i + Z.of_nat (length a)) b.
Proof.
  induction a as [|x a IH]; intros i; cbn [app enumerate_from length].
  - by replace (i + Z.of_nat 0) with i by lia.
  - rewrite IH.
    by replace (i + 1 + Z.of_nat (length a)) with (i + Z.of_nat (S (length a))) by lia.
Qed.

Lemma date_range_split start_day end_day d :
  start_day <= d <= end_day ->
  date_range start_day end_day
  = date_range start_day (d - 1) ++ d :: date_range (d + 1) end_day.
Proof.
  intros H. rewrite <- (date_range_cons d end_day) by lia. unfold date_range.
  replace (end_day - start_day + 1) with ((d - 1 - start_day + 1) + (end_day - d + 1))
    by lia.
  rewrite seqZ_app by lia. do 2 f_equal. lia.
Qed.

Section Stuck.

Variable strftime : string -> Z -> string.
Variables station data_dir data_type : string.
Variable nthreads : Z.
Variable day_series : list Z.
Variable root : node.

Hypothesis nthreads_nonzero : nthreads ≠ 0.

Let path (d : Z) : string := level1_file strftime station data_dir data_type d.

(** One pass when the queue list, with the queue of today's worker, holds a
    queue that stays empty: the pass waits forever if it drains, and leaves
    such a queue list otherwise. *)
Lemma day_step_stuck i d st w :
  stuck (q_list st ++ [(get_datafile root (path d) station d []).2]) ->
  fs w = root ->
  is_Some (last day_series) ->
  exists w', fs w' = root /\
    ((batch_complete nthreads day_series i d = true /\
      day_step strftime station 1 data_dir data_type nthreads day_series (i, d) st w
      = (Blocks, w')) \/
     (batch_complete nthreads day_series i d = false /\
      exists st',
        day_step strftime station 1 data_dir data_type nthreads day_series (i, d) st w
        = (Returns st', w') /\
        forall q, stuck (q_list st' ++ [q]))).
Proof.
  intros (pending & more & Hq) Hfs [l Hl]. unfold day_step.
  erewrite bind_returns;
    [|apply (py_mod_nonzero nthreads nthreads_nonzero)].
  erewrite bind_returns; [|apply locate_level1].
  cbv beta iota zeta.
  erewrite bind_returns; [|reflexivity].
  rewrite Hfs. fold (path d). cbn [snd].
  erewrite bind_returns;
    [|apply (py_mod_nonzero nthreads nthreads_nonzero)].
  unfold batch_complete. rewrite Hl.
  cbn [q_list df code_version was_pickled level_str day_list df_list].
  rewrite Hq.
  destruct (((i + 1) mod nthreads =? 0) || (d =? l)) eqn:Hc.
  - eexists. split; [|left; split; [done|]].
    2:{ assert (Hcomplete :
          (if (i + 1) mod nthreads =? 0 then mret true else mret (d =? l) : M bool)
            (log (EvStart (path d) station d) w)
          = (Returns true, log (EvStart (path d) station d) w)).
        { destruct ((i + 1) mod nthreads =? 0); [done|].
          cbn [orb] in Hc. by rewrite Hc. }
        erewrite bind_returns; [|exact Hcomplete].
        cbv beta iota.
        erewrite bind_blocks; [reflexivity|apply drain_blocks]. }
    cbn [fs log]. exact Hfs.
  - apply orb_false_iff in Hc as [Hr Hd]. rewrite Hr, Hd.
    rewrite bind_ret.
    eexists. split; [|right; split; [done|]].
    2:{ eexists. split; [reflexivity|].
        intros q. cbn [q_list]. exists pending, (more ++ [q]).
        by rewrite <- app_assoc. }
    cbn [fs log]. exact Hfs.
Qed.

Lemma stuck_loop rest : forall d i st w,
  stuck (q_list st ++ [(get_datafile root (path d) station d []).2]) ->
  fs w = root ->
  last (d :: rest) = last day_series ->
  exists w',
    for_each (day_step strftime station 1 data_dir data_type nthreads day_series)
             (enumerate_from i (d :: rest)) st w
    = (Blocks, w') /\
    fs w' = root.
Proof.
  induction rest as [|d' rest IH]; intros d i st w Hq Hfs Hlast.
  - assert (Hsome : is_Some (last day_series)) by (by rewrite <- Hlast).
    destruct (day_step_stuck i d st w Hq Hfs Hsome)
      as (w' & Hfs' & [(_ & Hrun)|(Hb & _)]).
    + exists w'. split; [|done]. cbn [enumerate_from for_each].
      by apply bind_blocks.
    + unfold batch_complete in Hb. rewrite <- Hlast in Hb. cbn [last] in Hb.
      rewrite Z.eqb_refl, orb_true_r in Hb. done.
  - assert (Hlast' : last (d' :: rest) = last day_series) by (by rewrite <- Hlast).
    assert (Hsome : is_Some (last day_series)).
    { rewrite <- Hlast'. destruct (last (d' :: rest)) eqn:E; [by eexists|].
      by apply last_None in E. }
    change (enumerate_from i (d :: d' :: rest))
      with ((i, d) :: enumerate_from (i + 1) (d' :: rest)).
    cbn [for_each].
    destruct (day_step_stuck i d st w Hq Hfs Hsome)
      as (w' & Hfs' & [(_ & Hrun)|(_ & st' & Hrun & Hst')]).
    + exists w'. split; [by apply bind_blocks|done].
    + erewrite bind_returns; [|exact Hrun]. by apply IH.
Qed.

Lemma fetch_prefix pre : forall i pending st w,
  q_list st = map to_queue pending ->
  fs w = root ->
  Forall (fun x => fetchable root (path x)) pre ->
  is_Some (last day_series) ->
  exists st' w' pending',
    for_each (day_step strftime station 1 data_dir data_type nthreads day_series)
             (enumerate_from i pre) st w
    = (Returns st', w') /\
    fs w' = root /\ q_list st' = map to_queue pending'.
Proof.
  induction pre as [|d pre IH]; intros i pending st w Hq Hfs Hok Hsome.
  - exists st, w, pending. by cbn.
  - apply Forall_cons in Hok as [Hd Hok].
    pose proof (day_step_level1 strftime station data_dir data_type nthreads day_series
                  root nthreads_nonzero i d pending st w Hq Hfs Hd Hsome) as Hstep.
    cbn [enumerate_from for_each].
    destruct (batch_complete nthreads day_series i d);
      (erewrite bind_returns; [|exact Hstep]).
    + apply (IH (i + 1) []); done.
    + eapply (IH (i + 1)); done.
Qed.

End Stuck.

(** X17. One file that exists but cannot be read makes the call wait
    forever: when, at level 1, the file of some day of the range is not a
    NetCDF dataset or lacks the [version] attribute (and the days before it
    are readable or absent), the worker of that day ends without putting
    anything on its queue, and [get_flux_data] blocks on that queue; it never
    returns or raises, and writes no pickle. *)
Theorem unreadable_file_blocks strftime station data_dir data_type nthreads start_day
    end_day bad pickle_dir root :
  let path := level1_file strftime station data_dir data_type in
  station ∈ station_list ->
  nthreads ≠ 0 ->
  start_day <= bad <= end_day ->
  (forall d, start_day <= d < bad -> fetchable root (path d)) ->
  unreadable root (path bad) ->
  cache_miss root pickle_dir (pickled_filename station 1 data_type) ->
  exists tr,
    get_flux_data strftime station start_day end_day 1 data_dir data_type nthreads
                  pickle_dir (mkWorld root [])
    = (Blocks, mkWorld root tr).
Proof.
  intros path Hst Hn Hbad Hok Hun Hmiss.
  set (st0 := mkLocals empty_frame (Some "?") false None [] [] []).
  destruct (lookup_pickle_miss station 1 data_type pickle_dir st0 (mkWorld root []) Hmiss)
    as (tr1 & Hlook & _).
  cbn [fs] in Hlook.
  set (days := date_range start_day end_day).
  assert (Hsplit : days = date_range start_day (bad - 1)
                          ++ bad :: date_range (bad + 1) end_day)
    by (by apply date_range_split).
  assert (Hsome : is_Some (last days)).
  { rewrite Hsplit, last_app_cons.
    destruct (last (bad :: date_range (bad + 1) end_day)) eqn:E; [by eexists|].
    by apply last_None in E. }
  assert (Hpre : Forall (fun x => fetchable root (path x))
                        (date_range start_day (bad - 1))).
  { apply Forall_forall. intros d Hd. apply date_range_elem in Hd. apply Hok. lia. }
  destruct (fetch_prefix strftime station data_dir data_type nthreads days root Hn
              (date_range start_day (bad - 1)) 0 []
              (mkLocals empty_frame (Some "?") false None [] [] []) (mkWorld root tr1)
              eq_refl eq_refl Hpre Hsome)
    as (st1 & w1 & pending & Hrun1 & Hfs1 & Hq1).
  destruct (stuck_loop strftime station data_dir data_type nthreads days root Hn
              (date_range (bad + 1) end_day) bad
              (0 + Z.of_nat (length (date_range start_day (bad - 1)))) st1 w1)
    as (w2 & Hrun2 & Hfs2).
  { exists pending, []. rewrite Hq1.
    apply (f_equal (fun q => map to_queue pending ++ [q])).
    exact (get_datafile_unreadable root _ station bad Hun). }
  { done. }
  { by rewrite Hsplit, last_app_cons. }
  exists (trace w2). unfold get_flux_data. rewrite (known_station _ Hst). cbn [negb].
  erewrite bind_returns; [|exact Hlook]. cbn [was_pickled st0 negb].
  apply bind_blocks. unfold ingest. apply bind_blocks.
  unfold fetch_merge. apply bind_blocks. fold days.
  unfold enumerate. rewrite Hsplit at 2. rewrite enumerate_from_app.
  erewrite for_each_app; [|exact Hrun1].
  rewrite Hrun2. destruct w2. cbn [fs trace] in *. by subst.
Qed.

Lemma unreadable_file_blocks_witness :
  exists tr,
    get_flux_data january_2020 "asfs30" 1 4 1 "data/" "slow" 2 (Some "cache/")
                  (mkWorld archive_with_garbage [])
    = (Blocks, mkWorld archive_with_garbage tr).
Proof.
  apply (unreadable_file_blocks january_2020 "asfs30" "data/" "slow" 2 1 4 3
           (Some "cache/") archive_with_garbage).
  - solve_in_station_list.
  - lia.
  - lia.
  - intros d Hd. assert (d = 1 \/ d = 2) as [->| ->] by lia; solve_fetchable.
  - exists Garbage. split; [vm_compute; reflexivity|exact I].
  - right. exists "cache/". split; [reflexivity|]. vm_compute. repeat constructor.
Defined.

(** *** Storing a pickle and finding it again *)

Lemma append_cons c (a b : string) : String c a +:+ b = String c (a +:+ b).
Proof. reflexivity. Qed.

Lemma append_nil_l (b : string) : EmptyString +:+ b = b.
Proof. reflexivity. Qed.

Lemma append_nil_r (a : string) : a +:+ EmptyString = a.
Proof.
  induction a as [|c a IH]; [done|]. rewrite append_cons. by f_equal.
Qed.

Lemma split_path_go_no_slash name : forall cur,
  has_char "/" name = false ->
  split_path_go cur name
  = if String.eqb (cur +:+ name) EmptyString then [] else [cur +:+ name].
Proof.
  induction name as [|c name IH]; intros cur H; cbn [split_path_go].
  - by rewrite append_nil_r.
  - cbn [has_char] in H. apply orb_false_iff in H as [Hc H]. rewrite Hc.
    rewrite IH by done. by rewrite append_assoc, append_cons, append_nil_l.
Qed.



Lemma resolve_app n p q :
  resolve n (p ++ q)
  = match resolve n p with Some n' => resolve n' q | None => None end.
Proof.
  revert n. induction p as [|x p IH]; intros n; [done|].
  cbn [app resolve]. destruct n as [c|es]; [done|].
  destruct (entry x es); [apply IH|done].
Qed.






Lemma pickle_name_not_empty key v : pickle_name key v ≠ EmptyString.
Proof.
  intros E. apply (f_equal String.length) in E.
  unfold pickle_name in E. rewrite !length_append in E. cbn in E. lia.
Qed.

Lemma lookup_single_hit station level data_type dir before name after deeper d root tr0 :
  dir ≠ EmptyString ->
  os_walk root dir = (before ++ name :: after) :: deeper ->
  Forall (fun f => PyStr.contains (pickled_filename station level data_type) f = false)
         before ->
  PyStr.contains (pickled_filename station level data_type) name = true ->
  no_match (pickled_filename station level data_type) deeper ->
  resolve root (split_path (dir +:+ name)) = Some (File (Pickle d)) ->
  lookup_pickle station level data_type (Some dir)
                (mkLocals empty_frame (Some "?") false None [] [] [])
                (mkWorld root tr0)
  = (Returns (mkLocals d (Some (version_from_filename (dir +:+ name)))
                       true None [] [] []),
     mkWorld root (tr0 ++ [EvWalk dir; EvReadPickle (dir +:+ name)])).
Proof.
  intros Hdir Hwalk Hb Hn Hdeep Hr. unfold lookup_pickle.
  assert (truthy (Some dir) = true) as -> by by destruct dir.
  erewrite bind_returns; [|reflexivity]. cbn [fs]. rewrite Hwalk.
  cbn [for_each]. erewrite bind_returns; [|by apply scan_files_hit].
  rewrite scan_dirs_no_match by done.
  unfold log. cbn [fs trace]. by rewrite <- app_assoc.
Qed.

(** *** The tag after a cache hit *)

(** C10, as the code has it.  An ingest at level 1 that finds no pickle and
    ends with the tag [v], whose first three characters hold no underscore,
    returns [v] and, as its last step, writes its table to
    [pickle_dir/key_v[0:3].pkl].  A later call for the same key whose search
    meets that name, and no other match, and can read it returns the stored
    table with a tag rebuilt from the name: [v[0:3]] followed by two dots.
    That differs from [v] unless [v] is itself three characters followed by
    two dots, so in particular whenever the length of [v] is not five. *)
Theorem cached_version_is_rebuilt_from_name strftime station data_dir data_type nthreads
    start_day end_day dir v root root' :
  let key := pickled_filename station 1 data_type in
  let path := level1_file strftime station data_dir data_type in
  let days := date_range start_day end_day in
  let units := map (fun d => unit_result root (path d)) days in
  let stored := dir +:+ "/" +:+ key +:+ "_" +:+ PyStr.slice0 3 v +:+ ".pkl" in
  let found := dir +:+ key +:+ "_" +:+ PyStr.slice0 3 v +:+ ".pkl" in
  station ∈ station_list ->
  nthreads ≠ 0 ->
  (forall d, start_day <= d <= end_day -> fetchable root (path d)) ->
  dir ≠ "" ->
  no_match key (os_walk root dir) ->
  last_non_null (Some "?") units.*2 = Some v ->
  has_char "_" (PyStr.slice0 3 v) = false ->
  write root (split_path stored) (Pickle (merged_frame units.*1)) = Some root' ->
  get_flux_data strftime station start_day end_day 1 data_dir data_type nthreads
                (Some dir) (mkWorld root [])
  = (Returns (merged_frame units.*1, Some v),
     mkWorld root'
       (EvWalk dir
        :: schedule nthreads (fun d => EvStart (path d) station d)
                    (fun d => unit_result root (path d)) 0 [] days
        ++ [EvConcat (length (non_empty_frames units.*1)); EvWritePickle stored])) /\
  (forall strftime' start_day' end_day' data_dir' nthreads' disk before after deeper d tr0,
     os_walk disk dir
     = (before ++ (key +:+ "_" +:+ PyStr.slice0 3 v +:+ ".pkl") :: after) :: deeper ->
     Forall (fun f => PyStr.contains key f = false) before ->
     no_match key deeper ->
     resolve disk (split_path found) = Some (File (Pickle d)) ->
     get_flux_data strftime' station start_day' end_day' 1 data_dir' data_type nthreads'
                   (Some dir) (mkWorld disk tr0)
     = (Returns (d, Some (PyStr.slice0 3 v +:+ "..")),
        mkWorld disk (tr0 ++ [EvWalk dir; EvReadPickle found]))) /\
  (PyStr.slice0 3 v +:+ ".." = v <-> exists a b c, v = String a (String b (String c "..")))
  /\
  (String.length v ≠ 5%nat -> PyStr.slice0 3 v +:+ ".." ≠ v).
Proof.
  intros key path days units stored found Hst Hn Hok Hdir Hmiss Hv Hus Hw.
  assert (Htruthy : truthy (Some dir) = true) by (by destruct dir).
  split; [|split; [|split]].
  - assert (Hall : Forall (fun d => fetchable root (path d)) days).
    { apply Forall_forall. intros d Hd. apply Hok. by apply date_range_elem. }
    pose proof (level1_run_schedule strftime station data_dir data_type nthreads root Hn
                  start_day end_day Hall (Some dir) root' [] Hst) as Hrun.
    cbv beta zeta in Hrun. subst key path days units stored found. rewrite Hv in Hrun.
    unfold stored_root, walk_events, store_events, pickle_path in Hrun.
    rewrite Htruthy in Hrun.
    rewrite Hrun; [|right; by exists dir|exact Hw].
    reflexivity.
  - intros strftime' start_day' end_day' data_dir' nthreads' disk before after deeper d tr0
           Hwalk Hbefore Hdeep Hfile.
    change (key +:+ "_" +:+ PyStr.slice0 3 v +:+ ".pkl") with (pickle_name key v) in *.
    change found with (dir +:+ pickle_name key v) in *.
    destruct (cache_hit_skips_ingest strftime' station start_day' end_day' 1 data_dir'
                data_type nthreads' (Some dir) (mkWorld disk tr0)
                (mkLocals d (Some (version_from_filename (dir +:+ pickle_name key v)))
                          true None [] [] [])
                (mkWorld disk (tr0 ++ [EvWalk dir; EvReadPickle (dir +:+ pickle_name key v)]))
                Hst)
      as (Hrun & _).
    + apply (lookup_single_hit station 1 data_type dir before (pickle_name key v) after
               deeper); try done.
      apply contains_prefix.
    + done.
    + rewrite Hrun. cbn [df code_version]. by rewrite version_from_pickle_name.
  - split.
    + intros H. destruct v as [|a [|b [|c v']]]; cbn in H; try discriminate.
      exists a, b, c. by simplify_eq.
    + intros (a & b & c & ->). reflexivity.
  - intros Hlen H. apply Hlen. rewrite <- H at 1. rewrite length_append.
    destruct v as [|a [|b [|c v']]]; cbn in H |- *; try discriminate.
    simplify_eq. reflexivity.
Qed.

Lemma cached_version_is_rebuilt_from_name_witness :
  get_flux_data january_2020 "asfs30" 1 4 1 "data/" "slow" 2 (Some "cache/")
                (mkWorld archive_with_gaps [])
  = (Returns (frame_of_gaps, Some "2.3"),
     mkWorld archive_with_pickle
       [EvWalk "cache/";
        EvStart "data/asfs30/1_level_ingest_asfs30//mosasfs30slow.level1.20200101.000000.nc"
                "asfs30" 1;
        EvStart "data/asfs30/1_level_ingest_asfs30//mosasfs30slow.level1.20200102.000000.nc"
                "asfs30" 2;
        EvGet (MFrame empty_frame); EvGet (MVersion None);
        EvGet (MFrame (mkDF [200] [("temp", [Num 11])])); EvGet (MVersion (Some "2.1"));
        EvStart "data/asfs30/1_level_ingest_asfs30//mosasfs30slow.level1.20200103.000000.nc"
                "asfs30" 3;
        EvStart "data/asfs30/1_level_ingest_asfs30//mosasfs30slow.level1.20200104.000000.nc"
                "asfs30" 4;
        EvGet (MFrame empty_frame); EvGet (MVersion None);
        EvGet (MFrame (mkDF [400] [("temp", [Num 13])])); EvGet (MVersion (Some "2.3"));
        EvConcat 2;
        EvWritePickle "cache//asfs30_1_slow_df_2.3.pkl"]) /\
  get_flux_data january_2020 "asfs30" 7 9 1 "nowhere/" "slow" 5 (Some "cache/")
                (mkWorld archive_with_pickle [])
  = (Returns (frame_of_gaps, Some "2.3.."),
     mkWorld archive_with_pickle
       [EvWalk "cache/"; EvReadPickle "cache/asfs30_1_slow_df_2.3.pkl"]) /\
  "2.3.." ≠ "2.3".
Proof.
  destruct (cached_version_is_rebuilt_from_name january_2020 "asfs30" "data/" "slow" 2 1 4
              "cache/" "2.3" archive_with_gaps archive_with_pickle)
    as (Hstore & Hfound & _ & Hne).
  - solve_in_station_list.
  - lia.
  - intros d Hd.
    assert (d = 1 \/ d = 2 \/ d = 3 \/ d = 4) as [->|[->|[->| ->]]] by lia;
      solve_fetchable.
  - done.
  - vm_compute. repeat constructor.
  - vm_compute. reflexivity.
  - reflexivity.
  - vm_compute. reflexivity.
  - split; [|split].
    + rewrite Hstore. vm_compute. reflexivity.
    + rewrite (Hfound january_2020 7 9 "nowhere/" 5 archive_with_pickle [] [] []
                      frame_of_gaps []).
      * vm_compute. reflexivity.
      * vm_compute. reflexivity.
      * constructor.
      * constructor.
      * vm_compute. reflexivity.
    + apply Hne. cbn. lia.
Defined.



(** *** The sign of [nthreads] *)

Lemma mod_opp_zero a n : (a mod (- n) =? 0) = (a mod n =? 0).
Proof.
  destruct (Z.eq_dec n 0) as [->|Hn]; [done|].
  destruct (Z.eqb_spec (a mod n) 0) as [E|E].
  - apply Z.eqb_eq. apply Z.mod_divide; [lia|]. apply Z.divide_opp_l.
    by apply Z.mod_divide.
  - apply Z.eqb_neq. intros E'. apply E. apply Z.mod_divide; [done|].
    apply Z.divide_opp_l. apply Z.mod_divide; [lia|done].
Qed.

Lemma bind_ext {A B} (m : M A) (k k' : A -> M B) w :
  (forall a w1, k a w1 = k' a w1) -> (m ≫= k) w = (m ≫= k') w.
Proof.
  intros H. unfold mbind, M_bind. destruct (m w) as [[a|e|] w1]; [apply H|done..].
Qed.

Lemma bind_ext_m {A B} (m m' : M A) (k : A -> M B) w :
  m w = m' w -> (m ≫= k) w = (m' ≫= k) w.
Proof. intros H. unfold mbind, M_bind. by rewrite H. Qed.

Lemma for_each_ext {A S} (f g : A -> S -> M S) l :
  (forall x s w, f x s w = g x s w) ->
  forall s w, for_each f l s w = for_each g l s w.
Proof.
  intros H. induction l as [|x l IH]; intros s w; [done|].
  cbn [for_each]. unfold mbind, M_bind. rewrite H.
  destruct (g x s w) as [[s'|e|] w1]; [apply IH|done..].
Qed.

Lemma day_step_opp strftime station level data_dir data_type nthreads day_series it st w :
  day_step strftime station level data_dir data_type (- nthreads) day_series it st w
  = day_step strftime station level data_dir data_type nthreads day_series it st w.
Proof.
  destruct it as [i d]. unfold day_step, py_mod.
  assert ((- nthreads =? 0) = (nthreads =? 0)) as -> by (by destruct nthreads).
  destruct (nthreads =? 0); [done|].
  rewrite !bind_ret. apply bind_ext. intros [cf ls] w1.
  apply bind_ext. intros q w2. rewrite !bind_ret.
  by rewrite mod_opp_zero.
Qed.

(** X19. Only the size of [nthreads] counts, not its sign: a call with
    [- nthreads] ends the same way, with the same table, tag, steps and files,
    as the call with [nthreads], at every level and on every archive. *)
Theorem negative_threads_same_run strftime station start_day end_day level data_dir
    data_type nthreads pickle_dir w :
  get_flux_data strftime station start_day end_day level data_dir data_type
                (- nthreads) pickle_dir w
  = get_flux_data strftime station start_day end_day level data_dir data_type
                  nthreads pickle_dir w.
Proof.
  unfold get_flux_data.
  destruct (negb (existsb (String.eqb station) station_list)); [done|].
  apply bind_ext. intros st1 w1.
  destruct (negb (was_pickled st1)); [|done].
  apply bind_ext_m. unfold ingest. apply bind_ext_m. unfold fetch_merge.
  apply bind_ext_m. apply for_each_ext. intros. apply day_step_opp.
Qed.

(** *** The tag that is returned *)

Lemma ensures_ret {A} (a : A) (P : A -> Prop) : P a -> ensures (mret a : M A) P.
Proof. intros H w a' w' [= <- _]. exact H. Qed.

Lemma ensures_raise {A} e (P : A -> Prop) : ensures (raise e : M A) P.
Proof. by intros w a w'. Qed.

Lemma ensures_bind {A B} (m : M A) (k : A -> M B) (Q : A -> Prop) (P : B -> Prop) :
  ensures m Q -> (forall a, Q a -> ensures (k a) P) -> ensures (m ≫= k) P.
Proof.
  intros Hm Hk w b w'. unfold mbind, M_bind.
  destruct (m w) as [[a|e|] w1] eqn:E; [|done..].
  intros H. eapply Hk; [|exact H]. by eapply Hm.
Qed.

Lemma ensures_for_each {A S} (body : A -> S -> M S) (P : S -> Prop) l :
  (forall x s, P s -> ensures (body x s) P) ->
  forall s, P s -> ensures (for_each body l s) P.
Proof.
  intros Hb. induction l as [|x l IH]; intros s Hs; cbn [for_each].
  - by apply ensures_ret.
  - eapply ensures_bind; [by apply Hb|]. intros s' Hs'. by apply IH.
Qed.

Lemma ensures_any {A} (m : M A) : ensures m (fun _ => True).
Proof. by intros w a w'. Qed.

Lemma tagged_scan_files dir key files st :
  tagged st -> ensures (scan_files dir key files st) tagged.
Proof.
  intros Hst. induction files as [|f files IH]; cbn [scan_files].
  - by apply ensures_ret.
  - destruct (PyStr.contains key f); [|exact IH].
    eapply ensures_bind; [apply ensures_any|]. intros d _.
    apply ensures_ret. by eexists.
Qed.

Lemma tagged_lookup_pickle station level data_type pickle_dir st :
  tagged st -> ensures (lookup_pickle station level data_type pickle_dir st) tagged.
Proof.
  intros Hst. unfold lookup_pickle.
  destruct (truthy pickle_dir); [|by apply ensures_ret].
  destruct pickle_dir as [dir|]; [|by apply ensures_ret].
  eapply ensures_bind; [apply ensures_any|]. intros dirs _.
  apply ensures_for_each; [|done]. intros. by apply tagged_scan_files.
Qed.

Lemma tagged_drain_one qq st : tagged st -> ensures (drain_one qq st) tagged.
Proof.
  intros Hst. unfold drain_one.
  eapply ensures_bind; [apply ensures_any|]. intros [m1 qq1] _.
  eapply ensures_bind; [apply ensures_any|]. intros [m2 qq2] _.
  destruct m1 as [d|], m2 as [|cv]; try apply ensures_raise.
  apply ensures_ret. unfold tagged. cbn [code_version]. by destruct cv.
Qed.

Lemma tagged_day_step strftime station level data_dir data_type nthreads day_series it st :
  tagged st ->
  ensures (day_step strftime station level data_dir data_type nthreads day_series it st)
          tagged.
Proof.
  intros Hst. destruct it as [i d]. unfold day_step.
  eapply ensures_bind; [apply ensures_any|]. intros _ _.
  eapply ensures_bind; [apply ensures_any|]. intros [cf ls] _.
  eapply ensures_bind; [apply ensures_any|]. intros q _.
  eapply ensures_bind; [apply ensures_any|]. intros r _.
  eapply ensures_bind; [apply ensures_any|]. intros [] _.
  - eapply ensures_bind.
    + apply ensures_for_each; [intros; by apply tagged_drain_one|exact Hst].
    + intros st' Hst'. by apply ensures_ret.
  - by apply ensures_ret.
Qed.

Lemma tagged_ingest strftime station start_day end_day level data_dir data_type nthreads
    pickle_dir st :
  tagged st ->
  ensures (ingest strftime station start_day end_day level data_dir data_type nthreads
                  pickle_dir st) tagged.
Proof.
  intros Hst. unfold ingest, fetch_merge.
  eapply ensures_bind with (Q := tagged).
  - eapply ensures_bind.
    + apply ensures_for_each; [intros; by apply tagged_day_step|exact Hst].
    + intros st1 Hst1. eapply ensures_bind with (Q := tagged).
      * intros w st2 w2. rewrite concat_or_keep_eq. by intros [= <- _].
      * intros st2 Hst2. by apply ensures_ret.
  - intros st1 Hst1. unfold store_pickle.
    destruct (truthy pickle_dir); [|by apply ensures_ret].
    destruct pickle_dir as [dir|], (code_version st1) as [cv|];
      try apply ensures_raise.
    eapply ensures_bind; [apply ensures_any|]. intros _ _. by apply ensures_ret.
Qed.

(** X20. [get_flux_data] never returns [None] as version tag: whenever a
    call returns, at any level and on any archive, the tag is a string (the
    placeholder ["?"], a version read from a file, or a tag rebuilt from a
    pickle name). *)
Theorem returned_tag_is_never_null strftime station start_day end_day level data_dir
    data_type nthreads pickle_dir w res w' :
  get_flux_data strftime station start_day end_day level data_dir data_type nthreads
                pickle_dir w
  = (Returns res, w') ->
  exists v, res.2 = Some v.
Proof.
  revert w res w'.
  change (ensures (get_flux_data strftime station start_day end_day level data_dir
                                 data_type nthreads pickle_dir)
                  (fun res => is_Some res.2)).
  unfold get_flux_data.
  destruct (negb (existsb (String.eqb station) station_list)); [apply ensures_raise|].
  eapply ensures_bind; [apply tagged_lookup_pickle; by eexists|].
  intros st1 Hst1.
  eapply ensures_bind with (Q := tagged).
  - destruct (negb (was_pickled st1)); [by apply tagged_ingest|by apply ensures_ret].
  - intros st2 Hst2. by apply ensures_ret.
Qed.

Lemma returned_tag_is_never_null_witness :
  get_flux_data january_2020 "asfs40" 1 1 1 "data/" "slow" 1 None
                (mkWorld archive_with_gaps [])
  = (Returns (mkDF [] [("time", [])], Some "?"),
     mkWorld archive_with_gaps
       [EvStart "data/asfs40/1_level_ingest_asfs40//mosasfs40slow.level1.20200101.000000.nc"
                "asfs40" 1;
        EvGet (MFrame empty_frame); EvGet (MVersion None); EvConcat 0]) /\
  exists v, (mkDF [] [("time", [])], Some "?").2 = Some v.
Proof.
  split; [vm_compute; reflexivity|].
  apply (returned_tag_is_never_null january_2020 "asfs40" 1 1 1 "data/" "slow" 1 None
           (mkWorld archive_with_gaps []) (mkDF [] [("time", [])], Some "?")
           (mkWorld archive_with_gaps
              [EvStart "data/asfs40/1_level_ingest_asfs40//mosasfs40slow.level1.20200101.000000.nc"
                       "asfs40" 1;
               EvGet (MFrame empty_frame); EvGet (MVersion None); EvConcat 0])).
  vm_compute. reflexivity.
Defined.

(** *** A pickle directory that does not exist *)

Lemma split_path_go_sep a : forall cur b,
  split_path_go cur (a +:+ "/" +:+ b)
  = split_path_go cur a ++ split_path_go EmptyString b.
Proof.
  induction a as [|c a IH]; intros cur b.
  - rewrite append_nil_l, append_cons, append_nil_l. cbn [split_path_go].
    by rewrite Ascii.eqb_refl.
  - rewrite append_cons. cbn [split_path_go].
    destruct (Ascii.eqb c "/"); [|apply IH].
    rewrite IH. by rewrite app_assoc.
Qed.

Lemma write_no_parent p : forall n name c,
  resolve n p = None -> write n (p ++ [name]) c = None.
Proof.
  induction p as [|x p IH]; intros n name c Hres; [done|].
  cbn [resolve] in Hres. cbn [app write]. destruct n as [c0|es0]; [done|].
  destruct (p ++ [name]) as [|y rest] eqn:E; [by destruct p|]. rewrite <- E.
  destruct (entry x es0) as [n1|]; [|done]. by rewrite IH.
Qed.

(** X21. A pickle directory that does not exist costs the whole ingest: at
    level 1, with [nthreads] not zero and the file of every day absent or
    readable, the search finds nothing without complaint, every day is
    fetched and drained, and only then the write of line 135 raises [OSError]
    (the name of the pickle has no ['/']); no table is returned and no file
    is written. *)
Theorem missing_pickle_dir_loses_the_ingest strftime station data_dir data_type
    nthreads start_day end_day dir v root :
  let days := date_range start_day end_day in
  let key := pickled_filename station 1 data_type in
  let path := level1_file strftime station data_dir data_type in
  let units := map (fun d => unit_result root (path d)) days in
  station ∈ station_list ->
  nthreads ≠ 0 ->
  (forall d, start_day <= d <= end_day -> fetchable root (path d)) ->
  dir ≠ EmptyString ->
  resolve root (split_path dir) = None ->
  last_non_null (Some "?") units.*2 = Some v ->
  has_char "/" (pickle_name key v) = false ->
  exists tr,
    get_flux_data strftime station start_day end_day 1 data_dir data_type nthreads
                  (Some dir) (mkWorld root [])
    = (Raises OSError, mkWorld root tr) /\
    starts tr = map (fun d => (path d, station, d)) days /\
    gets tr = flat_map to_queue units.
Proof.
  intros days key path units Hst Hn Hok Hne Hdir Hv Hsl.
  assert (Hall : Forall (fun d => fetchable root (path d)) days).
  { apply Forall_forall. intros d Hd. apply Hok. by apply date_range_elem. }
  set (st0 := mkLocals empty_frame (Some "?") false None [] [] []).
  assert (Hmiss : cache_miss root (Some dir) key).
  { right. exists dir. split; [done|]. unfold os_walk. rewrite Hdir. constructor. }
  destruct (lookup_pickle_miss station 1 data_type (Some dir) st0 (mkWorld root []) Hmiss)
    as (tr1 & Hlook & Hs1 & Hg1).
  cbn [fs trace] in Hlook, Hs1, Hg1.
  destruct (fetch_merge_level1 strftime station data_dir data_type nthreads start_day
              end_day root Hn Hall st0 (mkWorld root tr1) eq_refl)
    as (st2 & tr2 & Hfm & _ & Hcv & _ & Hs2 & Hg2).
  fold path days units in Hcv, Hs2, Hg2. cbn [code_version st0 trace] in Hcv, Hs2, Hg2.
  rewrite Hv in Hcv.
  assert (Hpath : split_path (pickle_path dir key v) = split_path dir ++ [pickle_name key v]).
  { unfold split_path.
    change (pickle_path dir key v) with (dir +:+ "/" +:+ pickle_name key v).
    rewrite split_path_go_sep.
    rewrite (split_path_go_no_slash (pickle_name key v)) by done.
    rewrite append_nil_l.
    destruct (String.eqb_spec (pickle_name key v) EmptyString) as [E|_]; [|done].
    by apply pickle_name_not_empty in E. }
  exists (tr2 ++ [EvWritePickle (pickle_path dir key v)]). split.
  - unfold get_flux_data. rewrite (known_station _ Hst). cbn [negb].
    erewrite bind_returns; [|exact Hlook]. cbn [was_pickled st0 negb].
    apply bind_raises. unfold ingest. erewrite bind_returns; [|exact Hfm].
    unfold store_pickle.
    assert (truthy (Some dir) = true) as -> by by destruct dir.
    rewrite Hcv. apply bind_raises. unfold to_pickle. cbn [fs].
    fold key. rewrite Hpath, write_no_parent, resolve_app, Hdir by done. reflexivity.
  - rewrite starts_app, gets_app, Hs2, Hg2, Hs1, Hg1. cbn. by rewrite !app_nil_r.
Qed.

Lemma missing_pickle_dir_loses_the_ingest_witness :
  exists tr,
    get_flux_data january_2020 "asfs30" 1 4 1 "data/" "slow" 2 (Some "nowhere")
                  (mkWorld archive_with_gaps [])
    = (Raises OSError, mkWorld archive_with_gaps tr) /\
    length (starts tr) = 4%nat /\ length (gets tr) = 8%nat.
Proof.
  destruct (missing_pickle_dir_loses_the_ingest january_2020 "asfs30" "data/" "slow" 2
              1 4 "nowhere" "2.3" archive_with_gaps)
    as (tr & Hrun & Hs & Hg).
  - solve_in_station_list.
  - lia.
  - intros d Hd.
    assert (d = 1 \/ d = 2 \/ d = 3 \/ d = 4) as [->|[->|[->| ->]]] by lia;
      solve_fetchable.
  - discriminate.
  - vm_compute. reflexivity.
  - vm_compute. reflexivity.
  - vm_compute. reflexivity.
  - exists tr. split; [exact Hrun|]. rewrite Hs, Hg. split; vm_compute; reflexivity.
Defined.

(** *** The derived variables of the quicklook script *)

Lemma needed_not_derived s c :
  c ∈ needed_columns s ->
  forall s', c ≠ "net_Irr_Avg_" +:+ s' /\ c ≠ "metek_horiz_Avg_" +:+ s'.
Proof.
  unfold needed_columns. intros Hc s'.
  repeat (apply elem_of_cons in Hc as [->|Hc]);
    [..|by apply elem_of_nil in Hc]; split; intros E; cbv [String.append] in E;
    discriminate E.
Qed.

Section DerivedFacts.

Variable net_irradiance : cell -> cell -> cell -> cell -> cell.
Variable root_of_products : cell -> cell -> cell -> cell -> cell.

Let derive_station := Quicklooks.derive_station net_irradiance root_of_products.
Let derive_stations := Quicklooks.derive_stations net_irradiance root_of_products.

Lemma df_get_set_ne n name vals d :
  n ≠ name ->
  Quicklooks.df_get n (Quicklooks.df_set name vals d) = Quicklooks.df_get n d.
Proof.
  intros H. unfold Quicklooks.df_get, Quicklooks.df_set. cbn [columns].
  by rewrite get_set_column_ne.
Qed.

(** One station's step raises [KeyError] or returns a table in which every
    column other than the two it sets is as before. *)
Lemma derive_station_cases s d :
  derive_station s d = Raises KeyError \/
  exists d', derive_station s d = Returns d' /\
    forall n, n ≠ "net_Irr_Avg_" +:+ s -> n ≠ "metek_horiz_Avg_" +:+ s ->
      get_column n (columns d') = get_column n (columns d).
Proof.
  unfold derive_station, Quicklooks.derive_station, Quicklooks.df_get.
  repeat match goal with
         | |- (match get_column ?n ?c with _ => _ end ≫= _) = _ \/ _ =>
             destruct (get_column n c);
               [cbv beta iota; rewrite !outcome_bind_returns
               |left; apply outcome_bind_raises]
         end.
  right. eexists. split; [reflexivity|].
  intros n H1 H2. unfold Quicklooks.df_set. cbn [columns].
  by rewrite !get_set_column_ne.
Qed.

Lemma derive_station_missing s c d :
  c ∈ needed_columns s ->
  get_column c (columns d) = None ->
  derive_station s d = Raises KeyError.
Proof.
  intros Hc Hnone.
  destruct (derive_station_cases s d) as [H|(d' & Hrun & _)]; [done|].
  exfalso. revert Hrun.
  assert (Hnet : forall vals,
            get_column c (columns (Quicklooks.df_set ("net_Irr_Avg_" +:+ s) vals d)) = None).
  { intros vals. unfold Quicklooks.df_set. cbn [columns].
    rewrite get_set_column_ne; [done|]. by destruct (needed_not_derived s c Hc s). }
  unfold derive_station, Quicklooks.derive_station, Quicklooks.df_get.
  unfold needed_columns in Hc.
  repeat (apply elem_of_cons in Hc as [->|Hc]); [..|by apply elem_of_nil in Hc];
    repeat first
      [ rewrite Hnone
      | rewrite Hnet
      | rewrite outcome_bind_returns
      | discriminate
      | match goal with
        | |- (match get_column ?n ?c with _ => _ end ≫= _) = _ -> _ =>
            destruct (get_column n c); [cbv beta iota|discriminate]
        end ].
Qed.

Lemma derive_stations_missing stations : forall s c d,
  s ∈ stations ->
  c ∈ needed_columns s ->
  get_column c (columns d) = None ->
  derive_stations stations d = Raises KeyError.
Proof.
  induction stations as [|s0 stations IH]; intros s c d Hs Hc Hnone;
    [by apply elem_of_nil in Hs|].
  cbn [derive_stations Quicklooks.derive_stations].
  fold derive_station derive_stations.
  destruct (derive_station_cases s0 d) as [->|(d' & Hrun & Hkeep)]; [done|].
  rewrite Hrun, outcome_bind_returns.
  apply elem_of_cons in Hs as [->|Hs].
  - by rewrite (derive_station_missing s0 c d Hc Hnone) in Hrun.
  - apply (IH s c d' Hs Hc).
    destruct (needed_not_derived s c Hc s0). by rewrite Hkeep.
Qed.

End DerivedFacts.

(** X22. The derived variables need all six measured columns of all three
    stations: when the table lacks one of the columns that lines 207-215 read
    for some station of [sleds_to_plot], the script raises [KeyError] there,
    whatever the other columns hold. *)
Theorem missing_column_stops_derived_variables net_irradiance root_of_products d s c :
  s ∈ Quicklooks.sleds_to_plot ->
  c ∈ needed_columns s ->
  get_column c (columns d) = None ->
  Quicklooks.derived_variables net_irradiance root_of_products d = Raises KeyError.
Proof.
  intros Hs Hc Hnone. unfold Quicklooks.derived_variables.
  by apply (derive_stations_missing net_irradiance root_of_products
              Quicklooks.sleds_to_plot s c d).
Qed.

Lemma missing_column_stops_derived_variables_witness :
  Quicklooks.derived_variables (fun a _ _ _ => a) (fun a _ _ _ => a)
    (mkDF [200] [("temp_asfs30", [Num 11]); ("temp_asfs40", [Num 12]);
                 ("time", [Stamp 200])])
  = Raises KeyError.
Proof.
  apply (missing_column_stops_derived_variables (fun a _ _ _ => a) (fun a _ _ _ => a)
           _ "asfs50" "metek_y_Avg_asfs50").
  - unfold Quicklooks.sleds_to_plot. do 2 apply list_elem_of_further.
    apply list_elem_of_here.
  - unfold needed_columns. do 5 apply list_elem_of_further. apply list_elem_of_here.
  - reflexivity.
Defined.

(** *** A station without data *)

Lemma get_column_none_names n cols : n ∉ cols.*1 -> get_column n cols = None.
Proof.
  induction cols as [|[m c] cols IH]; intros H; [done|].
  cbn [get_column]. destruct (String.eqb_spec m n) as [->|_].
  - exfalso. apply H. cbn. apply list_elem_of_here.
  - apply IH. intros Hin. apply H. cbn. by apply list_elem_of_further.
Qed.

Lemma get_column_some_names n cols : n ∈ cols.*1 -> get_column n cols ≠ None.
Proof.
  induction cols as [|[m c] cols IH]; intros H; [by apply elem_of_nil in H|].
  cbn [get_column]. destruct (String.eqb_spec m n) as [->|Hne]; [done|].
  apply IH. cbn in H. apply elem_of_cons in H as [->|H]; done.
Qed.

Lemma union_names_source n names : forall seen,
  n ∈ union_names seen names -> n ∈ seen \/ n ∈ names.
Proof.
  induction names as [|m names IH]; intros seen H; cbn [union_names] in H; [by left|].
  destruct (existsb (String.eqb m) seen).
  - destruct (IH _ H) as [?|?]; [by left|right; by apply list_elem_of_further].
  - destruct (IH _ H) as [Hs|?]; [|right; by apply list_elem_of_further].
    apply elem_of_app in Hs as [?|Hs]; [by left|].
    apply list_elem_of_singleton in Hs as ->. right. apply list_elem_of_here.
Qed.

Lemma elem_of_concat {A} (x : A) ls :
  x ∈ concat ls -> exists l, x ∈ l /\ l ∈ ls.
Proof.
  induction ls as [|l ls IH]; cbn [concat]; intros H; [by apply elem_of_nil in H|].
  apply elem_of_app in H as [H|H].
  - exists l. split; [done|apply list_elem_of_here].
  - destruct (IH H) as (l' & ? & ?). exists l'. split; [done|].
    by apply list_elem_of_further.
Qed.

Lemma concat_rows_no_column n dfs :
  Forall (fun d => get_column n (columns d) = None) dfs ->
  get_column n (columns (concat_rows dfs)) = None.
Proof.
  intros H. unfold concat_rows. cbn [columns]. apply get_column_none_names.
  rewrite <- list_fmap_compose.
  intros Hin. apply list_elem_of_fmap in Hin as (m & -> & Hin). cbn in Hin.
  apply union_names_source in Hin as [Hin|Hin]; [by apply elem_of_nil in Hin|].
  apply elem_of_concat in Hin as (names & Hn & Hnames).
  apply list_elem_of_fmap in Hnames as (d & -> & Hd).
  rewrite Forall_forall in H. by apply (get_column_some_names m (columns d)), H.
Qed.

Lemma joined_frames_no_column n ds :
  Forall (fun d => get_column n (columns d) = None) ds ->
  get_column n (columns (joined_frames ds)) = None.
Proof.
  unfold joined_frames.
  assert (Hacc : get_column n (columns empty_frame) = None) by done.
  revert Hacc. generalize empty_frame.
  induction ds as [|d ds IH]; intros acc Hacc H; [done|].
  apply Forall_cons in H as [Hd H]. cbn [fold_left]. apply IH; [|done].
  destruct (is_empty acc); [done|]. by apply no_foreign_column_join.
Qed.

Lemma sled_result_absent root curr_file station :
  isfile root curr_file = false ->
  sled_result root curr_file station = (empty_frame, None).
Proof.
  unfold isfile, sled_result.
  by destruct (resolve root (split_path curr_file)) as [[[]|]|].
Qed.

Lemma needed_shape s c :
  c ∈ needed_columns s -> c ≠ "time" /\ exists c0, c = c0 +:+ "_" +:+ s.
Proof.
  unfold needed_columns. intros Hc.
  repeat (apply elem_of_cons in Hc as [->|Hc]); [..|by apply elem_of_nil in Hc];
    (split; [intros E; cbv [String.append] in E; discriminate E|]).
  - by exists "sr30_swu_Irr_Avg".
  - by exists "sr30_swd_Irr_Avg".
  - by exists "ir20_lwu_Wm2_Avg".
  - by exists "ir20_lwd_Wm2_Avg".
  - by exists "metek_x_Avg".
  - by exists "metek_y_Avg".
Qed.

(** On a day for which a station has no file, the table of the day has no
    column with the label of that station. *)
Lemma silent_station_day strftime data_dir root today s c0 :
  s ∈ Quicklooks.sleds_to_plot ->
  isfile root (sled_file strftime data_dir s today) = false ->
  get_column (c0 +:+ "_" +:+ s) (columns (day_joined strftime data_dir root today)) = None.
Proof.
  intros Hs Habsent. unfold day_joined. apply joined_frames_no_column.
  unfold day_results. rewrite <- list_fmap_compose. apply Forall_fmap, Forall_forall.
  intros x Hx. cbn.
  destruct (decide (x = s)) as [->|Hne].
  - by rewrite sled_result_absent.
  - apply (no_foreign_column x s); [apply sled_result_labelled|done|].
    apply sled_cases in Hs as [->|[->| ->]], Hx as [->|[->| ->]]; reflexivity.
Qed.

(** X23. A station without data stops the script: when one station of
    [sleds_to_plot] has no file on any day of the period (a period of at
    least one day in which every file is absent or readable and no table has
    a repeated row label), the day loop of [main] still returns a table, but
    that table has none of the station's columns, and the derived variables
    raise [KeyError]. *)
Theorem silent_station_stops_main strftime data_dir concat_repeated_labels start_time
    end_time code_version0 root net_irradiance root_of_products s :
  start_time <= end_time ->
  (forall d x, start_time <= d <= end_time -> x ∈ Quicklooks.sleds_to_plot ->
               fetchable root (sled_file strftime data_dir x d)) ->
  (forall d x, start_time <= d <= end_time -> x ∈ Quicklooks.sleds_to_plot ->
               unique_rows root (sled_file strftime data_dir x d)) ->
  s ∈ Quicklooks.sleds_to_plot ->
  (forall d, start_time <= d <= end_time ->
             isfile root (sled_file strftime data_dir s d) = false) ->
  exists table cv tr,
    Quicklooks.retrieve strftime data_dir concat_repeated_labels start_time end_time
                        code_version0 (mkWorld root [])
    = (Returns (table, cv), mkWorld root tr) /\
    (forall c, c ∈ needed_columns s -> get_column c (columns table) = None) /\
    Quicklooks.derived_variables net_irradiance root_of_products table
    = Raises KeyError.
Proof.
  intros Hle Hok Hu Hs Hsilent.
  set (table := with_time_column
                  (concat_rows (map (day_joined strftime data_dir root)
                                    (date_range start_time end_time)))).
  assert (Hnone : forall c, c ∈ needed_columns s -> get_column c (columns table) = None).
  { intros c Hc. destruct (needed_shape s c Hc) as (Htime & c0 & ->).
    unfold table, with_time_column. cbn [columns].
    rewrite get_set_column_ne by done.
    apply concat_rows_no_column, Forall_fmap, Forall_forall. intros d Hd. cbn.
    apply silent_station_day; [done|]. apply Hsilent. by apply date_range_elem. }
  exists table. do 2 eexists. split; [|split; [exact Hnone|]].
  - by apply retrieve_run.
  - unfold Quicklooks.derived_variables.
    apply (derive_stations_missing net_irradiance root_of_products
             Quicklooks.sleds_to_plot s ("sr30_swu_Irr_Avg_" +:+ s)); [done| |].
    + unfold needed_columns. apply list_elem_of_here.
    + apply Hnone. unfold needed_columns. apply list_elem_of_here.
Qed.

Lemma silent_station_stops_main_witness :
  exists table cv tr,
    Quicklooks.retrieve january_2020 "data/" (fun _ _ => Raises InvalidIndexError) 2 2
                        None (mkWorld sleds_archive [])
    = (Returns (table, cv), mkWorld sleds_archive tr) /\
    get_column "metek_x_Avg_asfs50" (columns table) = None /\
    Quicklooks.derived_variables (fun a _ _ _ => a) (fun a _ _ _ => a) table
    = Raises KeyError.
Proof.
  destruct (silent_station_stops_main january_2020 "data/"
              (fun _ _ => Raises InvalidIndexError) 2 2 None sleds_archive
              (fun a _ _ _ => a) (fun a _ _ _ => a) "asfs50")
    as (table & cv & tr & Hrun & Hnone & Hraise).
  - lia.
  - intros d x Hd Hx. assert (d = 2) as -> by lia.
    apply sled_cases in Hx as [->|[->| ->]]; solve_fetchable.
  - intros d x Hd Hx. assert (d = 2) as -> by lia.
    apply sled_cases in Hx as [->|[->| ->]]; vm_compute; first [reflexivity | exact I].
  - unfold Quicklooks.sleds_to_plot. do 2 apply list_elem_of_further.
    apply list_elem_of_here.
  - intros d Hd. assert (d = 2) as -> by lia. vm_compute. reflexivity.
  - exists table, cv, tr. split; [exact Hrun|]. split; [|exact Hraise].
    apply Hnone. unfold needed_columns. do 4 apply list_elem_of_further.
    apply list_elem_of_here.
Defined.
